(** * TIDE analysis pipeline

    A shallow embedding of the analysis core of the TIDE repository
    ([tide_analyzer.py], and the significance gate of
    [create_scientific_summary.py]) together with the properties its
    specification states about it.

    Conventions of the embedding.
    - A Python [float] is a float64.  Where a quantity depends
      continuously on its inputs it is idealised as a real number ([R],
      exact arithmetic); a [nan] result and a raised exception are
      explicit constructors ([NaN], [Raised]).  Where rounding decides a
      discrete result (the comparison of two means, a product against a
      threshold, a similarity that is exactly 1.0) the numbers are binary64
      ([float]) or a number type given with its rounded operations
      ([Arithmetic]), which the examples instantiate with binary64.
    - A Python [dict] is an association list in insertion order with
      pairwise distinct keys; [d.get(k, default)] is [getd], [k in d] is
      [contains], [d[k] = v] is [dict_set].
    - A session is a tree, as built by the collector or loaded from JSON:
      no response object is shared between two places of a session.  The
      in-place assignment [resp['task_type'] = task_type] is modelled by
      state passing: the function returns the session it leaves behind. *)

Set Warnings "-inexact-float".
From Stdlib Require Import PrimFloat.
From Stdlib Require Uint63 ZArith.
From Stdlib Require Floats.SpecFloat Floats.FloatOps Floats.FloatAxioms.
From Stdlib Require Import List String Ascii Bool Arith Lia.
From Stdlib Require Import Reals Lra Permutation.
Import ListNotations.

Open Scope string_scope.
Open Scope R_scope.

(** ** Python values *)

Inductive exn : Type := KeyError | ValueError.

Inductive result (A : Type) : Type :=
| Ok (a : A)
| Raised (e : exn).
Arguments Ok {A} a.
Arguments Raised {A} e.

Definition bind {A B : Type} (m : result A) (k : A -> result B) : result B :=
  match m with
  | Ok a => k a
  | Raised e => Raised e
  end.

Notation "x <- m ;; k" := (bind m (fun x => k))
  (at level 61, m at next level, right associativity).

(** A float: a number or [nan]. *)
Inductive pyfloat : Type :=
| Num (r : R)
| NaN.

Definition Dict (V : Type) : Type := list (string * V).

Section DictOps.
Context {V : Type}.

Fixpoint get (d : Dict V) (k : string) : option V :=
  match d with
  | [] => None
  | (k', v) :: d' => if String.eqb k' k then Some v else get d' k
  end.

Definition getd (d : Dict V) (k : string) (default : V) : V :=
  match get d k with
  | Some v => v
  | None => default
  end.

Definition contains (d : Dict V) (k : string) : bool :=
  match get d k with
  | Some _ => true
  | None => false
  end.

Definition keys (d : Dict V) : list string := map fst d.

Definition values (d : Dict V) : list V := map snd d.

(** [d[k] = v]: overwrite in place, or append a new key. *)
Fixpoint dict_set (d : Dict V) (k : string) (v : V) : Dict V :=
  match d with
  | [] => [(k, v)]
  | (k', v') :: d' =>
      if String.eqb k' k then (k', v) :: d' else (k', v') :: dict_set d' k v
  end.
End DictOps.

(** [x in l] for a list of strings. *)
Definition mem (k : string) (l : list string) : bool :=
  existsb (String.eqb k) l.

(** [set(l)] for strings, enumerated in order of first occurrence. *)
Fixpoint distinct (l : list string) : list string :=
  match l with
  | [] => []
  | x :: t => x :: filter (fun y => negb (String.eqb x y)) (distinct t)
  end.

Definition Req_bool (x y : R) : bool :=
  if Req_dec_T x y then true else false.

Definition Rlt_bool (x y : R) : bool :=
  if Rlt_dec x y then true else false.

(** [set(l)] for floats. *)
Fixpoint distinct_R (l : list R) : list R :=
  match l with
  | [] => []
  | x :: t => x :: filter (fun y => negb (Req_bool x y)) (distinct_R t)
  end.

Definition sum (l : list R) : R := fold_right Rplus 0 l.

(** [np.mean] of a non-empty list. *)
Definition mean (l : list R) : R := sum l / INR (List.length l).

(** [np.std]: population standard deviation. *)
Definition std (l : list R) : R :=
  sqrt (mean (map (fun x => (x - mean l) * (x - mean l)) l)).

(** [np.any(vec)]: some entry is non-zero. *)
Definition np_any (l : list R) : bool :=
  existsb (fun x => negb (Req_bool x 0)) l.

Definition dot (u v : list R) : R :=
  sum (map (fun p => fst p * snd p) (combine u v)).

(** [max(iterable, key=...)]: the first element whose key is maximal; a
    later element replaces the current best only when its key is strictly
    greater. *)
Fixpoint max_from {A K : Type} (ltb : K -> K -> bool) (key : A -> K)
    (best : A) (l : list A) : A :=
  match l with
  | [] => best
  | x :: t =>
      if ltb (key best) (key x) then max_from ltb key x t
      else max_from ltb key best t
  end.

Definition py_max {A K : Type} (ltb : K -> K -> bool) (key : A -> K)
    (l : list A) (default : A) : A :=
  match l with
  | [] => default
  | x :: t => max_from ltb key x t
  end.

(** ** Numbers *)

(** A number type with the operations of the program that round, for the
    functions whose result is decided by a comparison of rounded
    numbers. *)
Record Arithmetic (F : Type) : Type := mkArithmetic {
  (** [0] and [0.0] *)
  zero : F;
  (** the literals [0.1] and [1.5] *)
  tenth : F;
  three_halves : F;
  (** [float(np.mean(l))] of a non-empty list *)
  np_mean : list F -> F;
  (** [abs(x)], [x * y] and [x > y] *)
  absolute : F -> F;
  times : F -> F -> F;
  gt : F -> F -> bool
}.
Arguments zero {F}.
Arguments tenth {F}.
Arguments three_halves {F}.
Arguments np_mean {F}.
Arguments absolute {F}.
Arguments times {F}.
Arguments gt {F}.

(** The arithmetic of the source: binary64, with numpy's mean. *)
Definition binary64 (np_mean : list float -> float) : Arithmetic float :=
  {| zero := 0%float;
     tenth := 0.1%float;
     three_halves := 1.5%float;
     np_mean := np_mean;
     absolute := PrimFloat.abs;
     times := PrimFloat.mul;
     gt := fun x y => (y <? x)%float |}.

(** ** scipy *)

(** [scipy.spatial.distance.cosine(u, v)]: [1 - u.v / (|u| |v|)].  Vectors
    of different lengths raise [ValueError]; a zero vector makes the
    quotient [nan].  (In exact arithmetic the value lies in [[0, 2]], so
    the clipping of recent versions is the identity.) *)
Definition cosine (u v : list R) : result pyfloat :=
  if negb (Nat.eqb (List.length u) (List.length v)) then Raised ValueError
  else if Req_bool (dot u u * dot v v) 0 then Ok NaN
  else Ok (Num (1 - dot u v / sqrt (dot u u * dot v v))).

Definition constant_R (l : list R) : bool :=
  match l with
  | [] => true
  | x :: t => forallb (Req_bool x) t
  end.

Definition clip (lo hi r : R) : R := Rmax lo (Rmin r hi).

(** The sample correlation coefficient that [scipy.stats.pearsonr]
    computes. *)
Definition pearson_r (x y : list R) : R :=
  let xm := map (fun a => a - mean x) x in
  let ym := map (fun b => b - mean y) y in
  dot xm ym / (sqrt (dot xm xm) * sqrt (dot ym ym)).

(** [scipy.stats.pearsonr(x, y)[0]]: inputs of different lengths or with
    fewer than two points raise [ValueError]; a constant input gives
    [nan]; the coefficient is clipped to [[-1, 1]]. *)
Definition pearsonr (x y : list R) : result pyfloat :=
  if negb (Nat.eqb (List.length x) (List.length y)) then Raised ValueError
  else if Nat.ltb (List.length x) 2 then Raised ValueError
  else if constant_R x || constant_R y then Ok NaN
  else Ok (Num (clip (-1) 1 (pearson_r x y))).

(** [np.arange(n)] *)
Definition arange (n : nat) : list R := map INR (seq 0 n).

(** ** Data model *)

(** The records are given for any type [F] of numbers; it is [R] unless
    stated otherwise. *)
Record ResponseOf (F : Type) : Type := mkResponse {
  prompt : string;
  response : string;
  features : Dict F;
  pattern : string;
  timestamp : option string;
  task_type : option string
}.
Arguments mkResponse {F}.
Arguments prompt {F}.
Arguments response {F}.
Arguments features {F}.
Arguments pattern {F}.
Arguments timestamp {F}.
Arguments task_type {F}.

Record SessionOf (F : Type) : Type := mkSession {
  s_timestamp : string;
  model : string;
  responses : Dict (list (ResponseOf F))
}.
Arguments mkSession {F}.
Arguments s_timestamp {F}.
Arguments model {F}.
Arguments responses {F}.

Abbreviation Response := (ResponseOf R).
Abbreviation Session := (SessionOf R).

Definition set_task_type (resp : Response) (t : string) : Response :=
  {| prompt := prompt resp;
     response := response resp;
     features := features resp;
     pattern := pattern resp;
     timestamp := timestamp resp;
     task_type := Some t |}.

Definition set_responses (data : Session) (r : Dict (list Response)) : Session :=
  {| s_timestamp := s_timestamp data;
     model := model data;
     responses := r |}.

Record DimensionalShiftOf (F : Type) : Type := mkShift {
  transition : string;
  internal_delta : F;
  external_delta : F;
  concrete_delta : F;
  pattern_change : string
}.
Arguments mkShift {F}.
Arguments transition {F}.
Arguments internal_delta {F}.
Arguments external_delta {F}.
Arguments concrete_delta {F}.
Arguments pattern_change {F}.

Abbreviation DimensionalShift := (DimensionalShiftOf R).

Record Stability : Type := mkStability {
  stab_mean : R;
  stab_std : R;
  stab_range : R;
  stab_trend : string
}.

Record Trajectories : Type := mkTrajectories {
  trajectories : Dict (list R);
  stability : Dict Stability
}.

Record PatternEvolution : Type := mkPatternEvolution {
  all_patterns : list (string * string);
  transitions : list string;
  transition_frequencies : Dict nat;
  dominant_pattern : string;
  pattern_diversity : nat
}.

(** One element of [all_results]; [identify_dominant_processing_mode]
    reads its ['data'] only. *)
Record SessionResult (F : Type) : Type := mkSessionResult {
  result_model : string;
  data : SessionOf F
}.
Arguments mkSessionResult {F}.
Arguments result_model {F}.
Arguments data {F}.

(** One element of [all_results]; [calculate_internal_external_balance]
    reads its ['analysis']['dimensional_shifts'] only. *)
Record ResultShifts (F : Type) : Type := mkResultShifts {
  result_shifts : list (DimensionalShiftOf F)
}.
Arguments mkResultShifts {F}.
Arguments result_shifts {F}.

(** [for x in l: acc = f(acc, x)], stopping at the first exception. *)
Fixpoint for_each {A B : Type} (f : A -> B -> result A) (l : list B) (acc : A)
    : result A :=
  match l with
  | [] => Ok acc
  | x :: t => acc' <- f acc x ;; for_each f t acc'
  end.

(** [f"{a} → {b}"] *)
Definition arrow (a b : string) : string := a ++ " → " ++ b.

Definition max_of (l : list R) : R :=
  match l with
  | [] => 0
  | x :: t => fold_left Rmax t x
  end.

Definition min_of (l : list R) : R :=
  match l with
  | [] => 0
  | x :: t => fold_left Rmin t x
  end.

(** ** class TIDEAnalyzer *)

Module TIDEAnalyzer.

(** [load_dissertation_model] *)
Definition internal_features : list string :=
  ["social"; "emotion"; "polarity"; "morality"; "thought"; "self_motion"].
Definition external_features : list string := ["space"; "time"; "number"].
Definition concrete_features : list string :=
  ["visual"; "color"; "auditory"; "smell_taste"; "tactile"].

(** The task types, in the order of every [for task_type in [...]] loop. *)
Definition task_order : list string := ["concrete"; "internal"; "external"].

(** [np.mean([fv.get(f, 0) for f in fs])] *)
Definition feature_mean (fv : Dict R) (fs : list string) : R :=
  mean (map (fun f => getd fv f 0) fs).

Definition calculate_factor_shift (before_features after_features : Dict R)
    (factor : string) : R :=
  let features :=
    if String.eqb factor "internal" then internal_features
    else if String.eqb factor "external" then external_features
    else concrete_features in
  let before_score := feature_mean before_features features in
  let after_score := feature_mean after_features features in
  after_score - before_score.

(** The first loop of [calculate_dimensional_shifts]: it appends every
    response to [all_responses] and writes its ['task_type'] key, in the
    session itself. *)
Fixpoint collect_tagged (tasks : list string) (resps : Dict (list Response))
    : list Response * Dict (list Response) :=
  match tasks with
  | [] => ([], resps)
  | t :: ts =>
      match get resps t with
      | Some l =>
          let l' := map (fun resp => set_task_type resp t) l in
          let '(rest, resps') := collect_tagged ts (dict_set resps t l') in
          ((l' ++ rest)%list, resps')
      | None => collect_tagged ts resps
      end
  end.

(** [resp['task_type']]; the key is present in every element of
    [all_responses], which the loop above has just assigned. *)
Definition task_type_of (resp : Response) : string :=
  match task_type resp with
  | Some t => t
  | None => ""
  end.

Definition shift_data (before after : Response) : DimensionalShift :=
  {| transition := arrow (task_type_of before) (task_type_of after);
     internal_delta :=
       calculate_factor_shift (features before) (features after) "internal";
     external_delta :=
       calculate_factor_shift (features before) (features after) "external";
     concrete_delta :=
       calculate_factor_shift (features before) (features after) "concrete";
     pattern_change := arrow (pattern before) (pattern after) |}.

(** [for i in range(1, len(all_responses))] *)
Fixpoint consecutive_shifts (all_responses : list Response)
    : list DimensionalShift :=
  match all_responses with
  | before :: ((after :: _) as rest) =>
      shift_data before after :: consecutive_shifts rest
  | _ => []
  end.

(** Returns the shifts and the session as the call leaves it. *)
Definition calculate_dimensional_shifts (data : Session)
    : list DimensionalShift * Session :=
  let '(all_responses, resps') := collect_tagged task_order (responses data) in
  (consecutive_shifts all_responses, set_responses data resps').

(** [for task_type in [...]: if task_type in data['responses']:
    for resp in data['responses'][task_type]], as a list of
    (task type, response). *)
Definition responses_in_order (data : Session) : list (string * Response) :=
  flat_map (fun t => map (pair t) (getd (responses data) t [])) task_order.

Definition calculate_trend_with
    (correlation : list R -> list R -> result pyfloat) (values : list R)
    : string :=
  if Nat.ltb (List.length values) 2 then "unknown"
  else if Nat.eqb (List.length (distinct_R values)) 1 then "stable"
  else
    let x := arange (List.length values) in
    match correlation x values with
    | Ok (Num correlation) =>
        if Rlt_bool 0.3 correlation then "increasing"
        else if Rlt_bool correlation (-0.3) then "decreasing"
        else "stable"
    | Ok NaN => "stable"
    | Raised _ => "stable"
    end.

Definition calculate_trend : list R -> string :=
  calculate_trend_with pearsonr.

(** [feature_trajectories[feature].append(value)] *)
Definition append_value (trajs : Dict (list R)) (item : string * R)
    : result (Dict (list R)) :=
  match get trajs (fst item) with
  | Some l => Ok (dict_set trajs (fst item) (l ++ [snd item])%list)
  | None => Raised KeyError
  end.

Definition stability_of (trajectory : list R) : Stability :=
  {| stab_mean := mean trajectory;
     stab_std := std trajectory;
     stab_range := max_of trajectory - min_of trajectory;
     stab_trend := calculate_trend trajectory |}.

Definition track_feature_changes (data : Session) : result Trajectories :=
  let feature_trajectories : Dict (list R) :=
    map (fun feature => (feature, []))
        (internal_features ++ external_features ++ concrete_features)%list in
  feature_trajectories <-
    for_each (fun trajs tr => for_each append_value (features (snd tr)) trajs)
             (responses_in_order data) feature_trajectories ;;
  let stability_metrics :=
    map (fun ft => (fst ft, stability_of (snd ft)))
        (filter (fun ft => Nat.ltb 1 (List.length (snd ft)))
                feature_trajectories) in
  Ok {| trajectories := feature_trajectories;
        stability := stability_metrics |}.

(** [counts[k] = counts.get(k, 0) + 1] for each [k]. *)
Definition count_all (l : list string) : Dict nat :=
  fold_left (fun counts k => dict_set counts k (getd counts k 0%nat + 1)%nat)
            l [].

(** [for i in range(1, len(patterns))] *)
Fixpoint transitions_of (patterns : list (string * string)) : list string :=
  match patterns with
  | p :: ((q :: _) as rest) => arrow (fst p) (fst q) :: transitions_of rest
  | _ => []
  end.

Definition analyze_pattern_signatures (data : Session) : PatternEvolution :=
  let patterns :=
    map (fun tr => (pattern (snd tr), fst tr)) (responses_in_order data) in
  let transitions := transitions_of patterns in
  let transition_counts := count_all transitions in
  let pattern_counts := count_all (map fst patterns) in
  let dominant_pattern :=
    py_max Nat.ltb (fun p => getd pattern_counts p 0%nat)
           (keys pattern_counts) "None" in
  {| all_patterns := patterns;
     transitions := transitions;
     transition_frequencies := transition_counts;
     dominant_pattern := dominant_pattern;
     pattern_diversity := List.length (distinct (map fst patterns)) |}.

(** [set(features1.keys()) | set(features2.keys())], enumerated once and
    used for both vectors; Python fixes no order for a set, and the result
    does not depend on it. *)
Definition all_keys (features1 features2 : Dict R) : list string :=
  distinct (keys features1 ++ keys features2)%list.

(** The body of [calculate_feature_similarity], for an enumeration
    [all_features] of the union of the keys. *)
Definition similarity_over (all_features : list string)
    (features1 features2 : Dict R) : R :=
  let vec1 := map (fun f => getd features1 f 0) all_features in
  let vec2 := map (fun f => getd features2 f 0) all_features in
  if np_any vec1 && np_any vec2 then
    match cosine vec1 vec2 with
    | Ok (Num d) => 1 - d
    | Ok NaN => 0
    | Raised _ => 0
    end
  else 0.

Definition calculate_feature_similarity (features1 features2 : Dict R) : R :=
  similarity_over (all_keys features1 features2) features1 features2.

Definition calculate_dimensional_alignment (data : Session) : R :=
  let scores_of (t : string) (fs : list string) : list R :=
    map (fun resp => feature_mean (features resp) fs)
        (getd (responses data) t []) in
  let alignment_scores :=
    (scores_of "concrete" concrete_features
     ++ scores_of "internal" internal_features
     ++ scores_of "external" external_features)%list in
  match alignment_scores with
  | [] => 0
  | _ => mean alignment_scores
  end.

(** [for i in range(n-1): for j in range(i+1, n): sim(l[i], l[j])] *)
Fixpoint pair_similarities (task_features : list (Dict R)) : list R :=
  match task_features with
  | [] => []
  | fi :: rest =>
      (map (calculate_feature_similarity fi) rest
       ++ pair_similarities rest)%list
  end.

Definition calculate_coherence (data : Session) : R :=
  let within_task (t : string) : list R :=
    match get (responses data) t with
    | Some resps =>
        let task_features := map features resps in
        if Nat.ltb 1 (List.length task_features) then
          match pair_similarities task_features with
          | [] => []
          | similarities => [mean similarities]
          end
        else []
    | None => []
    end in
  let coherence_factors :=
    (flat_map within_task task_order
     ++ [calculate_dimensional_alignment data])%list in
  match coherence_factors with
  | [] => 0
  | _ => mean coherence_factors
  end.

(** *** The two classifications of a batch

    Their result is decided by comparisons of float64 means, so they are
    given for any number type with its arithmetic. *)

Section Classifications.
Context {F : Type}.
Variable A : Arithmetic F.

(** [float(np.mean([resp['features'].get(f, 0) for f in fs]))] *)
Definition factor_score (fv : Dict F) (fs : list string) : F :=
  np_mean A (map (fun f => getd fv f (zero A)) fs).

(** [float(np.mean(l)) if l else 0.0] *)
Definition average (l : list F) : F :=
  match l with
  | [] => zero A
  | _ => np_mean A l
  end.

(** [max(avg_scores, key=avg_scores.get)] keeps the first key unless a
    later one has a mean that is greater ([>]). *)
Definition identify_dominant_processing_mode
    (all_results : list (SessionResult F)) : string :=
  let all_responses :=
    flat_map (fun r => List.concat (values (responses (data r)))) all_results in
  let scores (fs : list string) : list F :=
    map (fun resp => factor_score (features resp) fs) all_responses in
  let avg_scores : Dict F :=
    [("internal", average (scores internal_features));
     ("external", average (scores external_features));
     ("concrete", average (scores concrete_features))] in
  py_max (fun best x => gt A x best) (fun k => getd avg_scores k (zero A))
         (keys avg_scores) "".

Definition calculate_internal_external_balance
    (all_results : list (ResultShifts F)) : string :=
  let shifts := flat_map result_shifts all_results in
  let internal_scores :=
    map (fun shift => absolute A (internal_delta shift))
        (filter (fun shift => gt A (absolute A (internal_delta shift)) (tenth A))
                shifts) in
  let external_scores :=
    map (fun shift => absolute A (external_delta shift))
        (filter (fun shift => gt A (absolute A (external_delta shift)) (tenth A))
                shifts) in
  let avg_internal := average internal_scores in
  let avg_external := average external_scores in
  if gt A avg_internal (times A avg_external (three_halves A))
  then "Internal-dominant"
  else if gt A avg_external (times A avg_internal (three_halves A))
  then "External-dominant"
  else "Balanced".
End Classifications.

Record Analysis (RSA : Type) : Type := mkAnalysis {
  dimensional_shifts : list DimensionalShift;
  rsa_patterns : RSA;
  feature_trajectories : Trajectories;
  pattern_evolution : PatternEvolution;
  coherence_score : R
}.

Section AnalyzeSession.
(** [_convert_rsa_to_serializable(rsa_engine.analyze_patterns(data))]:
    it reads the session and returns a summary (or raises). *)
Variable RSA : Type.
Variable rsa_summary : Session -> result RSA.

(** The entries of the [results] literal are evaluated top to bottom;
    the second component is the session after the call, whether or not
    a later entry raises. *)
Definition analyze_session (session_data : Session)
    : result (Analysis RSA) * Session :=
  let '(shifts, session_data') :=
    calculate_dimensional_shifts session_data in
  (rsa <- rsa_summary session_data' ;;
   trajs <- track_feature_changes session_data' ;;
   Ok {| dimensional_shifts := shifts;
         rsa_patterns := rsa;
         feature_trajectories := trajs;
         pattern_evolution := analyze_pattern_signatures session_data';
         coherence_score := calculate_coherence session_data' |},
   session_data').
End AnalyzeSession.

(** *** Cross-session analysis *)

(** One element of [all_results], as [tide_automation.py] packages it:
    the model, the session and its analysis. *)
Record FullResult (RSA : Type) : Type := mkFullResult {
  fr_model : string;
  fr_data : Session;
  fr_analysis : Analysis RSA
}.

(** The statistics of one model in [compare_models]. *)
Record ModelStats : Type := mkModelStats {
  ms_coherence_scores : list R;
  ms_shift_magnitudes : list R;
  ms_pattern_diversity : list nat;
  ms_avg_coherence : R;
  ms_avg_diversity : R
}.

Record CrossAnalysis : Type := mkCrossAnalysis {
  total_sessions : nat;
  models_tested : list string;
  avg_pattern_coherence : R;
  dimensional_shift_magnitude : R;
  cross_pattern_evolution : string;
  model_comparisons : Dict ModelStats;
  dominant_mode : string;
  ie_balance : string
}.

(** [float(np.mean(l)) if l else 0.0] *)
Definition mean_or_zero (l : list R) : R :=
  match l with
  | [] => 0
  | _ => mean l
  end.

(** [np.sqrt(shift['internal_Δ']**2 + shift['external_Δ']**2
    + shift['concrete_Δ']**2)] *)
Definition magnitude (shift : DimensionalShift) : R :=
  sqrt (internal_delta shift * internal_delta shift
        + external_delta shift * external_delta shift
        + concrete_delta shift * concrete_delta shift).

(** [all_transitions[transition] = all_transitions.get(transition, 0) + count] *)
Definition merge_transition (all_transitions : Dict nat) (item : string * nat)
    : Dict nat :=
  dict_set all_transitions (fst item)
           (getd all_transitions (fst item) 0%nat + snd item)%nat.

Section CrossSession.
Variable RSA : Type.
(** The arithmetic of the two classifications. *)
Variable A : Arithmetic R.

Definition shifts_of_result (result : FullResult RSA) : list DimensionalShift :=
  dimensional_shifts RSA (fr_analysis RSA result).

Definition evolution_of_result (result : FullResult RSA) : PatternEvolution :=
  pattern_evolution RSA (fr_analysis RSA result).

Definition coherence_of_result (result : FullResult RSA) : R :=
  coherence_score RSA (fr_analysis RSA result).

Definition analyze_cross_session_patterns (all_results : list (FullResult RSA))
    : string :=
  let all_transitions :=
    fold_left
      (fun all_transitions result =>
         fold_left merge_transition
                   (transition_frequencies (evolution_of_result result))
                   all_transitions)
      all_results [] in
  py_max Nat.ltb (fun t => getd all_transitions t 0%nat)
         (keys all_transitions) "No clear pattern".

(** The first loop of [compare_models], on the two lists that it fills. *)
Definition collect_model (model_stats : Dict (list R * list nat))
    (result : FullResult RSA) : Dict (list R * list nat) :=
  let model := fr_model RSA result in
  let model_stats :=
    if contains model_stats model then model_stats
    else dict_set model_stats model ([], []) in
  let stats := getd model_stats model ([], []) in
  dict_set model_stats model
    ((fst stats ++ [coherence_of_result result])%list,
     (snd stats ++ [pattern_diversity (evolution_of_result result)])%list).

Definition compare_models (all_results : list (FullResult RSA))
    : Dict ModelStats :=
  map (fun entry =>
         (fst entry,
          {| ms_coherence_scores := fst (snd entry);
             ms_shift_magnitudes := [];
             ms_pattern_diversity := snd (snd entry);
             ms_avg_coherence := mean_or_zero (fst (snd entry));
             ms_avg_diversity := mean_or_zero (map INR (snd (snd entry))) |}))
      (fold_left collect_model all_results []).

(** [models_tested] is [list(set(...))]: the distinct models, listed here
    in order of first appearance (Python fixes no order for a set). *)
Definition analyze_all_sessions (all_results : list (FullResult RSA))
    : CrossAnalysis :=
  let coherence_scores := map coherence_of_result all_results in
  let all_shifts := map magnitude (flat_map shifts_of_result all_results) in
  {| total_sessions := List.length all_results;
     models_tested := distinct (map (fr_model RSA) all_results);
     avg_pattern_coherence := mean_or_zero coherence_scores;
     dimensional_shift_magnitude := mean_or_zero all_shifts;
     cross_pattern_evolution := analyze_cross_session_patterns all_results;
     model_comparisons := compare_models all_results;
     dominant_mode :=
       identify_dominant_processing_mode A
         (map (fun result => {| result_model := fr_model RSA result;
                                data := fr_data RSA result |})
              all_results);
     ie_balance :=
       calculate_internal_external_balance A
         (map (fun result => {| result_shifts := shifts_of_result result |})
              all_results) |}.
End CrossSession.

End TIDEAnalyzer.

(** ** calculate_feature_similarity on binary64 *)

(** The same method on float64 numbers, as it is executed: whether the
    similarity of two vectors is exactly 1.0 depends on the rounding. *)
Module Float64.

(** [np.any(vec)]: some entry is not zero; [nan] is not zero. *)
Definition np_any (l : list float) : bool :=
  existsb (fun x => negb (x =? 0)%float) l.

(** [np.clip(x, 0.0, 2.0)]; [nan] stays [nan]. *)
Definition clip (x : float) : float :=
  if (x <? 0)%float then 0%float
  else if (2 <? x)%float then 2%float
  else x.

Section Similarity.
(** [np.dot] on two vectors of the same length; the order in which the
    products are added is the library's. *)
Variable np_dot : list float -> list float -> float.
(** The order in which a set of keys is enumerated, which Python does not
    fix. *)
Variable set_order : list string -> list string.

(** [scipy.spatial.distance.cosine(u, v)]:
    [np.clip(1.0 - uv / math.sqrt(uu * vv), 0.0, 2.0)] with the three inner
    products [uv], [uu], [vv]; vectors of different lengths raise
    [ValueError]. *)
Definition cosine (u v : list float) : result float :=
  if negb (Nat.eqb (List.length u) (List.length v)) then Raised ValueError
  else
    let uv := np_dot u v in
    let uu := np_dot u u in
    let vv := np_dot v v in
    Ok (clip (1 - uv / PrimFloat.sqrt (uu * vv))%float).

(** The body of [calculate_feature_similarity], for an enumeration
    [all_features] of the union of the keys. *)
Definition similarity_over (all_features : list string)
    (features1 features2 : Dict float) : float :=
  let vec1 := map (fun f => getd features1 f 0%float) all_features in
  let vec2 := map (fun f => getd features2 f 0%float) all_features in
  if np_any vec1 && np_any vec2 then
    match cosine vec1 vec2 with
    | Ok d =>
        let similarity := (1 - d)%float in
        if PrimFloat.is_nan similarity then 0%float else similarity
    | Raised _ => 0%float
    end
  else 0%float.

Definition calculate_feature_similarity (features1 features2 : Dict float)
    : float :=
  similarity_over (set_order (keys features1 ++ keys features2)%list)
                  features1 features2.
End Similarity.

End Float64.

(** Equality of two tuples of integers. *)
Definition shape_eqb (a b : list nat) : bool :=
  if list_eq_dec Nat.eq_dec a b then true else false.

(** ** class RSAEngine *)

Module RSAEngine.

(** [sorted(keys)]: insertion into an ascending list. *)
Fixpoint insert_sorted (k : string) (l : list string) : list string :=
  match l with
  | [] => [k]
  | x :: t => if String.leb k x then k :: l else x :: insert_sorted k t
  end.

Definition sorted (l : list string) : list string :=
  fold_right insert_sorted [] l.

(** [np.zeros((n, n))]; an entry is a float, a distance or [nan]. *)
Definition zeros (n : nat) : list (list pyfloat) :=
  repeat (repeat (Num 0) n) n.

Fixpoint set_nth {A : Type} (l : list A) (i : nat) (a : A) : list A :=
  match l, i with
  | [], _ => []
  | _ :: t, O => a :: t
  | x :: t, S i' => x :: set_nth t i' a
  end.

(** [rdm[i, j] = d] *)
Definition set_entry (rdm : list (list pyfloat)) (i j : nat) (d : pyfloat)
    : list (list pyfloat) :=
  set_nth rdm i (set_nth (nth i rdm []) j d).

(** [for i in range(n): for j in range(i+1, n)] *)
Definition upper_pairs (n : nat) : list (nat * nat) :=
  flat_map (fun i => map (pair i) (seq (S i) (n - S i))) (seq 0 n).

(** [[resp['features'].get(f, 0) for f in sorted(resp['features'].keys())]] *)
Definition feature_vec (resp : Response) : list R :=
  map (fun f => getd (features resp) f 0) (sorted (keys (features resp))).

Definition create_feature_rdm (session_data : Session)
    : result (list (list pyfloat)) :=
  let all_features :=
    map feature_vec (List.concat (values (responses session_data))) in
  if Nat.ltb (List.length all_features) 2 then Ok []
  else
    let n := List.length all_features in
    for_each
      (fun rdm ij =>
         distance <- cosine (nth (fst ij) all_features [])
                            (nth (snd ij) all_features []) ;;
         Ok (set_entry (set_entry rdm (fst ij) (snd ij) distance)
                       (snd ij) (fst ij) distance))
      (upper_pairs n) (zeros n).

(** The double loop of the three [create_*_rdm] methods, for a distance
    that cannot raise: [rdm[i, j] = rdm[j, i] = distance] for [i < j]. *)
Definition fill_rdm (n : nat) (distance : nat -> nat -> pyfloat)
    : list (list pyfloat) :=
  fold_left
    (fun rdm ij =>
       set_entry (set_entry rdm (fst ij) (snd ij) (distance (fst ij) (snd ij)))
                 (snd ij) (fst ij) (distance (fst ij) (snd ij)))
    (upper_pairs n) (zeros n).

Definition create_pattern_rdm (session_data : Session) : list (list pyfloat) :=
  let all_patterns :=
    map pattern (List.concat (values (responses session_data))) in
  if Nat.ltb (List.length all_patterns) 2 then []
  else
    let n := List.length all_patterns in
    fill_rdm n (fun i j =>
                  if String.eqb (nth i all_patterns "") (nth j all_patterns "")
                  then Num 0 else Num 1).

(** [rdm.shape]: [(0,)] for [np.array([])], [(n, n)] for a square matrix. *)
Definition shape (rdm : list (list pyfloat)) : list nat :=
  match rdm with
  | [] => [0%nat]
  | row :: _ => [List.length rdm; List.length row]
  end.

(** [rdm[np.triu(np.ones_like(rdm), k=1).astype(bool)]]: the entries above
    the diagonal, row by row. *)
Definition upper_values (rdm : list (list pyfloat)) : list pyfloat :=
  map (fun ij => nth (snd ij) (nth (fst ij) rdm []) (Num 0))
      (upper_pairs (List.length rdm)).

(** Equality of two floats as a [set] sees it: [nan] equals nothing. *)
Definition float_eqb (x y : pyfloat) : bool :=
  match x, y with
  | Num a, Num b => Req_bool a b
  | _, _ => false
  end.

(** [set(values)] for floats that may be [nan]. *)
Fixpoint distinct_floats (l : list pyfloat) : list pyfloat :=
  match l with
  | [] => []
  | x :: t => x :: filter (fun y => negb (float_eqb x y)) (distinct_floats t)
  end.

Section Engine.
(** [text.lower().split()], and [scipy.stats.spearmanr(a, b)[0]]. *)
Variable lower_split : string -> list string.
Variable spearmanr : list pyfloat -> list pyfloat -> result pyfloat.

(** [set(text.lower().split())] *)
Definition word_set (text : string) : list string :=
  distinct (lower_split text).

(** The distance of two texts in [create_semantic_rdm]. *)
Definition semantic_distance (text1 text2 : string) : R :=
  let words1 := word_set text1 in
  let words2 := word_set text2 in
  if Nat.ltb 0 (List.length words1 + List.length words2) then
    let similarity :=
      INR (List.length (filter (fun w => mem w words2) words1))
      / INR (List.length
               (words1 ++ filter (fun w => negb (mem w words1)) words2)%list) in
    1 - similarity
  else 1.

Definition create_semantic_rdm (session_data : Session)
    : list (list pyfloat) :=
  let all_responses :=
    map response (List.concat (values (responses session_data))) in
  if Nat.ltb (List.length all_responses) 2 then []
  else
    let n := List.length all_responses in
    fill_rdm n (fun i j =>
                  Num (semantic_distance (nth i all_responses "")
                                         (nth j all_responses ""))).

(** [None] stands for the [IndexError] of indexing [np.array([])], which
    has one dimension, with the two-dimensional mask. *)
Definition compare_rdms (rdm1 rdm2 : list (list pyfloat)) : option R :=
  if negb (shape_eqb (shape rdm1) (shape rdm2)) then Some 0
  else
    match rdm1 with
    | [] => None
    | _ :: _ =>
        let values1 := upper_values rdm1 in
        let values2 := upper_values rdm2 in
        if Nat.ltb 0 (List.length values1) then
          if Nat.eqb (List.length (distinct_floats values1)) 1
             || Nat.eqb (List.length (distinct_floats values2)) 1
          then Some 0
          else
            match spearmanr values1 values2 with
            | Ok (Num correlation) => Some correlation
            | Ok NaN => Some 0
            | Raised _ => Some 0
            end
        else Some 0
    end.
End Engine.

End RSAEngine.

(** ** create_scientific_summary.py *)

Module ScientificSummary.

(** The keys of a stored response that the statistics read. *)
Record StoredResponse : Type := mkStoredResponse {
  stored_pattern : option string;
  stored_features : option (Dict R)
}.

(** The keys of a stored session that the statistics read: ['model'],
    ['data']['responses'] and ['analysis']['coherence_score'], each of
    which may be missing. *)
Record StoredSession : Type := mkStoredSession {
  stored_model : option string;
  stored_responses : option (Dict (list StoredResponse));
  stored_coherence : option R
}.

Record Anova : Type := mkAnova {
  f_statistic : pyfloat;
  p_value : pyfloat;
  significant : bool
}.

(** What the "Process responses" part of the loop accumulates. *)
Record ResponseStats : Type := mkResponseStats {
  total_responses : nat;
  response_distribution : Dict nat;
  all_patterns : list string;
  pattern_counts : Dict nat
}.

(** An entry of [stats['confidence_intervals']]; the bounds are [nan]
    when the samples are all equal. *)
Record Interval : Type := mkInterval {
  ci_mean : R;
  ci_std : R;
  ci_lower : pyfloat;
  ci_upper : pyfloat;
  ci_n : nat
}.

(** The parts of [stats] that are modelled. *)
Record Stats : Type := mkStats {
  unique_models : list string;
  response_stats : ResponseStats;
  coherence_by_model : Dict (list R);
  intervals : Dict Interval;
  pattern_stability : R;
  anova : option Anova
}.

(** [session.get('model', 'unknown')] *)
Definition model_of (session : StoredSession) : string :=
  match stored_model session with
  | Some m => m
  | None => "unknown"
  end.

(** One iteration of [for session in all_sessions], on
    [coherence_by_model]. *)
Definition track_coherence (by_model : Dict (list R))
    (session : StoredSession) : Dict (list R) :=
  let model := model_of session in
  let by_model :=
    if contains by_model model then by_model
    else dict_set by_model model [] in
  match stored_coherence session with
  | Some coherence =>
      dict_set by_model model (getd by_model model [] ++ [coherence])%list
  | None => by_model
  end.

(** [x < 0.05] on a float: false on [nan]. *)
Definition float_lt (x : pyfloat) (y : R) : bool :=
  match x with
  | Num r => Rlt_bool r y
  | NaN => false
  end.

(** *** Patterns and responses *)

(** [sum(1 for i in range(1, len(all_patterns))
    if all_patterns[i] != all_patterns[i-1])] *)
Fixpoint pattern_changes (all_patterns : list string) : nat :=
  match all_patterns with
  | p :: ((q :: _) as rest) =>
      ((if String.eqb q p then 0 else 1) + pattern_changes rest)%nat
  | _ => 0%nat
  end.

(** [stats['patterns']['stability_score']], which starts at 0. *)
Definition stability_score (all_patterns : list string) : R :=
  if Nat.ltb 1 (List.length all_patterns)
  then 1 - INR (pattern_changes all_patterns) / INR (List.length all_patterns)
  else 0.

Definition initial_response_stats : ResponseStats :=
  {| total_responses := 0;
     response_distribution :=
       [("internal", 0%nat); ("external", 0%nat); ("concrete", 0%nat)];
     all_patterns := [];
     pattern_counts := [] |}.

(** [resp.get('pattern', 'unknown')] *)
Definition pattern_of (resp : StoredResponse) : string :=
  match stored_pattern resp with
  | Some p => p
  | None => "unknown"
  end.

(** The pattern tracking of one response. *)
Definition track_pattern (stats : ResponseStats) (resp : StoredResponse)
    : ResponseStats :=
  let pattern := pattern_of resp in
  let counts :=
    if contains (pattern_counts stats) pattern then pattern_counts stats
    else dict_set (pattern_counts stats) pattern 0%nat in
  {| total_responses := total_responses stats;
     response_distribution := response_distribution stats;
     all_patterns := (all_patterns stats ++ [pattern])%list;
     pattern_counts :=
       dict_set counts pattern (getd counts pattern 0%nat + 1)%nat |}.

(** One iteration of [for dim, responses in
    session['data']['responses'].items()];
    [response_distribution[dim] += len(responses)] raises [KeyError] for a
    task type that is not one of the three. *)
Definition process_task (stats : ResponseStats)
    (item : string * list StoredResponse) : result ResponseStats :=
  let dim := fst item in
  let resps := snd item in
  match get (response_distribution stats) dim with
  | None => Raised KeyError
  | Some count =>
      Ok (fold_left track_pattern resps
            {| total_responses :=
                 (total_responses stats + List.length resps)%nat;
               response_distribution :=
                 dict_set (response_distribution stats) dim
                          (count + List.length resps)%nat;
               all_patterns := all_patterns stats;
               pattern_counts := pattern_counts stats |})
  end.

(** The response processing over the sessions of a batch; a session
    without ['data'] or ['responses'] ([None]) is skipped. *)
Definition process_responses
    (all_sessions : list (option (Dict (list StoredResponse))))
    : result ResponseStats :=
  for_each
    (fun stats session =>
       match session with
       | Some resps => for_each process_task resps stats
       | None => Ok stats
       end)
    all_sessions initial_response_stats.

(** *** calculate_comprehensive_stats *)

Section Statistics.
(** [scipy.stats.f_oneway] on the groups: the F statistic and the p-value. *)
Variable f_oneway : list (list R) -> pyfloat * pyfloat.
(** [scipy_stats.t.interval(confidence, df, loc, scale)]: the two bounds,
    [nan] when the scale is 0. *)
Variable t_interval : R -> nat -> R -> R -> pyfloat * pyfloat.

Definition interval_of (scores : list R) : Interval :=
  let mean := mean scores in
  let std := std scores in
  let n := List.length scores in
  let se := std / sqrt (INR n) in
  let ci := t_interval 0.95 (n - 1) mean se in
  {| ci_mean := mean;
     ci_std := std;
     ci_lower := fst ci;
     ci_upper := snd ci;
     ci_n := n |}.

(** [stats['confidence_intervals']], from [coherence_by_model]. *)
Definition confidence_intervals (coherence_by_model : Dict (list R))
    : Dict Interval :=
  map (fun entry => (fst entry, interval_of (snd entry)))
      (filter (fun entry => Nat.leb 2 (List.length (snd entry)))
              coherence_by_model).

(** One iteration of [for session in all_sessions], on the response
    statistics and [coherence_by_model]: the entry of a new model is
    created, the responses are processed, which raises [KeyError] on an
    unknown task type, and the coherence score is appended.  The other
    statements of the loop body (the counters of the model, the feature
    activations, the shift magnitudes) fill parts of [stats] that are not
    modelled, and raise nothing. *)
Definition process_session (state : ResponseStats * Dict (list R))
    (session : StoredSession) : result (ResponseStats * Dict (list R)) :=
  let stats := fst state in
  let coherence_by_model := snd state in
  let model := model_of session in
  let coherence_by_model :=
    if contains coherence_by_model model then coherence_by_model
    else dict_set coherence_by_model model [] in
  stats <-
    match stored_responses session with
    | Some resps => for_each process_task resps stats
    | None => Ok stats
    end ;;
  let coherence_by_model :=
    match stored_coherence session with
    | Some coherence =>
        dict_set coherence_by_model model
                 (getd coherence_by_model model [] ++ [coherence])%list
    | None => coherence_by_model
    end in
  Ok (stats, coherence_by_model).

Definition calculate_comprehensive_stats
    (all_sessions : list StoredSession) : result Stats :=
  state <- for_each process_session all_sessions
                    (initial_response_stats, []) ;;
  let response_stats := fst state in
  let coherence_by_model := snd state in
  let unique_models := distinct (map model_of all_sessions) in
  let anova :=
    if Nat.leb 2 (List.length unique_models)
       && forallb (fun m =>
            Nat.leb 2 (List.length (getd coherence_by_model m [])))
            unique_models
    then
      let model_groups :=
        map (fun m => getd coherence_by_model m [])
            (filter (contains coherence_by_model) unique_models) in
      if forallb (fun g => Nat.ltb 0 (List.length g)) model_groups then
        let '(f_stat, p_value) := f_oneway model_groups in
        Some {| f_statistic := f_stat;
                p_value := p_value;
                significant := float_lt p_value 0.05 |}
      else None
    else None in
  Ok {| unique_models := unique_models;
        response_stats := response_stats;
        coherence_by_model := coherence_by_model;
        intervals := confidence_intervals coherence_by_model;
        pattern_stability := stability_score (all_patterns response_stats);
        anova := anova |}.
End Statistics.

End ScientificSummary.

(** ** Sample sessions *)

Module Examples.

(** The session of [test_fix.py]: one concrete and one internal response,
    each with four of the fourteen features. *)
Definition four_features (v : R) : Dict R :=
  [("visual", v); ("tactile", v); ("social", v); ("emotion", v)].

Definition test_session : Session :=
  {| s_timestamp := "2024-01-01";
     model := "test-model";
     responses :=
       [("concrete",
         [{| prompt := "test"; response := "test response";
             features := four_features 0.5; pattern := "CCDF";
             timestamp := None; task_type := None |}]);
        ("internal",
         [{| prompt := "test2"; response := "test response 2";
             features := four_features 0.7; pattern := "AADS";
             timestamp := None; task_type := None |}])] |}.

(** The same session with its two entries inserted in the other order. *)
Definition test_session_swapped : Session :=
  set_responses test_session (rev (responses test_session)).

Definition response_with (fv : Dict R) (p : string) : Response :=
  {| prompt := "test"; response := "test response"; features := fv;
     pattern := p; timestamp := None; task_type := None |}.

Definition session_of (resps : Dict (list Response)) : Session :=
  {| s_timestamp := "2024-01-01"; model := "test-model";
     responses := resps |}.

(** Two responses whose feature vectors have different keys. *)
Definition ragged_session : Session :=
  session_of
    [("concrete", [response_with [("social", 0.5)] "CCDF"]);
     ("internal",
      [response_with [("social", 0.5); ("space", 0.5)] "AADS"])].


Definition falling : list R := [0.5; 0.4; 0.3; 0.2; 0.1].

(** The same two items, inserted in different orders. *)
Definition social_space : Dict R := [("social", 0.5); ("space", 0.25)].
Definition space_social : Dict R := [("space", 0.25); ("social", 0.5)].

(** A session without any response. *)
Definition empty_session : Session := session_of [].

(** A stored session of a model with a coherence score and one response
    of each task type. *)
Definition stored_response (p : string) : ScientificSummary.StoredResponse :=
  {| ScientificSummary.stored_pattern := Some p;
     ScientificSummary.stored_features := None |}.

Definition stored (m : string) (c : R) : ScientificSummary.StoredSession :=
  {| ScientificSummary.stored_model := Some m;
     ScientificSummary.stored_responses :=
       Some [("concrete", [stored_response "CCDF"]);
             ("internal", [stored_response "AADS"]);
             ("external", [stored_response "CCDF"])];
     ScientificSummary.stored_coherence := Some c |}.

(** A stored session with a response under a fourth task type. *)
Definition creative_session : ScientificSummary.StoredSession :=
  {| ScientificSummary.stored_model := Some "A";
     ScientificSummary.stored_responses :=
       Some [("creative", [stored_response "CCDF"])];
     ScientificSummary.stored_coherence := Some 0.8 |}.

(** Models A and B with two samples each. *)
Definition two_models : list ScientificSummary.StoredSession :=
  [stored "A" 0.8; stored "A" 0.9; stored "B" 0.2; stored "B" 0.3].

(** The same batch followed by one session of a third model. *)
Definition three_models : list ScientificSummary.StoredSession :=
  (two_models ++ [stored "C" 0.5])%list.


(** What [t.interval] returns in the examples: [nan] bounds for the scale
    0, as scipy does, and bounds around the location otherwise (12.706 is
    the quantile for one degree of freedom). *)
Definition t_interval_example (confidence : R) (df : nat) (loc scale : R)
    : pyfloat * pyfloat :=
  if Req_bool scale 0 then (NaN, NaN)
  else (Num (loc - 12.706 * scale), Num (loc + 12.706 * scale)).

(** What [f_oneway] returns on the groups of [two_models]: F = 72 and
    p close to 0.0136. *)
Definition f_oneway_two_models (groups : list (list R)) : pyfloat * pyfloat :=
  (Num 72, Num 0.0136).

(** Two responses with one feature each, not the same one. *)
Definition disjoint_session : Session :=
  session_of
    [("concrete", [response_with [("social", 1)] "CCDF"]);
     ("internal", [response_with [("space", 1)] "AADS"])].

(** A response with a feature that is not one of the fourteen. *)
Definition unknown_feature_session : Session :=
  session_of [("concrete", [response_with [("mood", 1)] "CCDF"])].

Definition level : list R := [0.5; 0.5; 0.5; 0.5].

(** A feature vector with each of the fourteen features, as the collector
    builds them. *)
Definition full_vector (v : R) : Dict R :=
  map (fun f => (f, v))
      (TIDEAnalyzer.internal_features ++ TIDEAnalyzer.external_features
       ++ TIDEAnalyzer.concrete_features)%list.

Definition full_session : Session :=
  session_of
    [("internal", [response_with (full_vector 0.4) "AAFS"]);
     ("concrete", [response_with (full_vector 0.2) "CCDS";
                   response_with (full_vector 0.6) "CCDS"])].

(** An analysed session of a model with a given coherence, as an element
    of [all_results]. *)
Definition analysed (m : string) (c : R) : TIDEAnalyzer.FullResult unit :=
  {| TIDEAnalyzer.fr_model := m;
     TIDEAnalyzer.fr_data := test_session;
     TIDEAnalyzer.fr_analysis :=
       {| TIDEAnalyzer.dimensional_shifts :=
            fst (TIDEAnalyzer.calculate_dimensional_shifts test_session);
          TIDEAnalyzer.rsa_patterns := tt;
          TIDEAnalyzer.feature_trajectories :=
            {| trajectories := []; stability := [] |};
          TIDEAnalyzer.pattern_evolution :=
            TIDEAnalyzer.analyze_pattern_signatures test_session;
          TIDEAnalyzer.coherence_score := c |} |}.

Definition batch : list (TIDEAnalyzer.FullResult unit) :=
  [analysed "A" 0.8; analysed "B" 0.2; analysed "A" 0.9].

(** *** binary64 *)

(** [len(l)] as a float. *)
Definition of_nat (n : nat) : float :=
  PrimFloat.of_uint63 (Uint63.of_Z (BinInt.Z.of_nat n)).

(** [np.mean] of fewer than eight float64 values: numpy adds them from
    left to right and divides by their number. *)
Definition mean64 (l : list float) : float :=
  (fold_left PrimFloat.add l 0 / of_nat (List.length l))%float.

(** binary64 with that mean. *)
Definition float64 : Arithmetic float := binary64 mean64.


(** A batch of one response in which each of the fourteen features has
    the value [v]. *)
Definition uniform_batch (v : float) : list (SessionResult float) :=
  [{| result_model := "test-model";
      data :=
        {| s_timestamp := "2024-01-01";
           model := "test-model";
           responses :=
             [("concrete",
               [{| prompt := "test"; response := "test response";
                   features :=
                     map (fun f => (f, v))
                         (TIDEAnalyzer.internal_features
                          ++ TIDEAnalyzer.external_features
                          ++ TIDEAnalyzer.concrete_features)%list;
                   pattern := "CCDF"; timestamp := None;
                   task_type := None |}])] |} |}].

(** A shift with the given internal and external deltas. *)
Definition shift64 (internal external : float) : DimensionalShiftOf float :=
  {| transition := "concrete → internal";
     internal_delta := internal;
     external_delta := external;
     concrete_delta := 0%float;
     pattern_change := "CCDF → AADS" |}.


(** The words of the two texts of [test_session], as [text.lower().split()]
    gives them; no other text is needed. *)
Definition words_of_test (text : string) : list string :=
  if String.eqb text "test response" then ["test"; "response"]
  else if String.eqb text "test response 2" then ["test"; "response"; "2"]
  else [].
End Examples.

(** ** What the specification says, in its own words *)

Module Spec.
Import TIDEAnalyzer.

(** The value of a feature in a feature vector, 0 when absent. *)
Definition value (fv : Dict R) (f : string) : R :=
  match get fv f with
  | Some v => v
  | None => 0
  end.

(** The mean score of each of the three factor groups. *)
Definition internal_score (fv : Dict R) : R :=
  (value fv "social" + value fv "emotion" + value fv "polarity"
   + value fv "morality" + value fv "thought" + value fv "self_motion") / 6.

Definition external_score (fv : Dict R) : R :=
  (value fv "space" + value fv "time" + value fv "number") / 3.

Definition concrete_score (fv : Dict R) : R :=
  (value fv "visual" + value fv "color" + value fv "auditory"
   + value fv "smell_taste" + value fv "tactile") / 5.

(** The responses of one task type; none when the session has no such
    entry. *)
Definition of_task (data : Session) (t : string) : list Response :=
  match get (responses data) t with
  | Some l => l
  | None => []
  end.

(** The flattened responses: concrete, then internal, then external. *)
Definition flattened (data : Session) : list Response :=
  (of_task data "concrete" ++ of_task data "internal"
   ++ of_task data "external")%list.

(** The pattern labels of a session, in flattening order. *)
Definition labels (data : Session) : list string :=
  map pattern (flattened data).

Definition occurrences (p : string) (l : list string) : nat :=
  count_occ string_dec l p.

Definition max_occurrences (l : list string) : nat :=
  List.list_max (map (fun p => occurrences p l) l).

(** The dominant label: going through the labels in order of first
    encounter, the first one whose count is the maximum. *)
Definition dominant (l : list string) : option string :=
  find (fun p => Nat.eqb (occurrences p l) (max_occurrences l)) (distinct l).

(** The three factor groups, in the order of the classification, and
    their features. *)
Definition modes : list string := ["internal"; "external"; "concrete"].

Definition group (g : string) : list string :=
  if String.eqb g "internal" then internal_features
  else if String.eqb g "external" then external_features
  else concrete_features.

(** Every response of every session of a batch. *)
Definition batch_responses {F : Type} (all_results : list (SessionResult F))
    : list (ResponseOf F) :=
  flat_map (fun r => List.concat (map snd (responses (data r)))) all_results.

(** The score of a factor group in a feature vector: the mean of the
    values of its features, an absent feature counting as 0. *)
Definition group_score {F : Type} (A : Arithmetic F) (g : string)
    (fv : Dict F) : F :=
  np_mean A (map (fun f => match get fv f with
                           | Some v => v
                           | None => zero A
                           end) (group g)).

(** The mean of a factor group over every response of a batch; 0 for a
    batch without responses. *)
Definition batch_mean {F : Type} (A : Arithmetic F) (g : string)
    (all_results : list (SessionResult F)) : F :=
  match batch_responses all_results with
  | [] => zero A
  | l => np_mean A (map (fun resp => group_score A g (features resp)) l)
  end.

(** No factor group has a greater mean than [g]. *)
Definition maximal {F : Type} (A : Arithmetic F)
    (all_results : list (SessionResult F)) (g : string) : Prop :=
  forall g', In g' modes ->
    gt A (batch_mean A g' all_results) (batch_mean A g all_results) = false.

(** The position of a group in the order of the classification. *)
Definition rank (g : string) : nat :=
  if String.eqb g "internal" then 0
  else if String.eqb g "external" then 1
  else 2.

(** [g] comes before [g'] in the order of the classification. *)
Definition before (g g' : string) : Prop :=
  In g modes /\ (rank g < rank g')%nat.

(** All the values of a trajectory are the same number. *)
Definition all_equal (l : list R) : Prop :=
  forall a b, In a l -> In b l -> a = b.

(** The Euclidean norm of a vector. *)
Definition norm (u : list R) : R := sqrt (dot u u).

(** The cosine similarity of two feature vectors, both taken over the
    union of their keys with an absent feature as 0; by definition 0 when
    either vector is entirely zero. *)
Definition cosine_similarity (features1 features2 : Dict R) : R :=
  let union := distinct (keys features1 ++ keys features2)%list in
  let u := map (value features1) union in
  let v := map (value features2) union in
  if np_any u && np_any v then dot u v / (norm u * norm v) else 0.

(** All the unordered pairs of positions below [n]: the pairs [(i, j)]
    with [i < j]. *)
Definition index_pairs (n : nat) : list (nat * nat) :=
  filter (fun ij => Nat.ltb (fst ij) (snd ij))
         (list_prod (seq 0 n) (seq 0 n)).

(** The mean similarity over all unordered pairs of the responses. *)
Definition mean_pairwise_similarity (resps : list Response) : R :=
  let fvs := map features resps in
  let sims :=
    map (fun ij => cosine_similarity (nth (fst ij) fvs []) (nth (snd ij) fvs []))
        (index_pairs (List.length resps)) in
  sum sims / INR (List.length sims).

(** The dimensional alignment: the mean, over all responses, of the mean
    score of the factor group of the response's own task type. *)
Definition alignment (data : Session) : R :=
  let scores :=
    (map (fun resp => concrete_score (features resp)) (of_task data "concrete")
     ++ map (fun resp => internal_score (features resp))
            (of_task data "internal")
     ++ map (fun resp => external_score (features resp))
            (of_task data "external"))%list in
  match scores with
  | [] => 0
  | _ => sum scores / INR (List.length scores)
  end.

(** The factors of the coherence: one per task type with at least two
    responses, and the alignment. *)
Definition coherence_factors (data : Session) : list R :=
  (flat_map
     (fun t =>
        if Nat.leb 2 (List.length (of_task data t))
        then [mean_pairwise_similarity (of_task data t)]
        else [])
     ["concrete"; "internal"; "external"]
   ++ [alignment data])%list.

Definition coherence (data : Session) : R :=
  sum (coherence_factors data) / INR (List.length (coherence_factors data)).

(** The coherence samples of a model in a batch, in batch order. *)
Definition samples (m : string)
    (all_sessions : list ScientificSummary.StoredSession) : list R :=
  flat_map
    (fun session =>
       if String.eqb (ScientificSummary.model_of session) m then
         match ScientificSummary.stored_coherence session with
         | Some c => [c]
         | None => []
         end
       else [])
    all_sessions.

(** The distinct models of a batch. *)
Definition models (all_sessions : list ScientificSummary.StoredSession)
    : list string :=
  distinct (map ScientificSummary.model_of all_sessions).

(** At least two distinct models each have at least two samples. *)
Definition two_sampled_models
    (all_sessions : list ScientificSummary.StoredSession) : Prop :=
  (2 <= List.length
          (filter (fun m => Nat.leb 2 (List.length (samples m all_sessions)))
                  (models all_sessions)))%nat.

(** There are at least two distinct models and every model of the batch
    has at least two samples. *)
Definition all_models_sampled
    (all_sessions : list ScientificSummary.StoredSession) : Prop :=
  (2 <= List.length (models all_sessions))%nat
  /\ forall m, In m (models all_sessions) ->
               (2 <= List.length (samples m all_sessions))%nat.
End Spec.

(** ** Auxiliary definitions *)

(** A response of the flattened session, with its task type written. *)
Definition tag_pair (tr : string * Response) : Response :=
  set_task_type (snd tr) (fst tr).

(** One step of a histogram loop. *)
Definition count_step (counts : Dict nat) (k : string) : Dict nat :=
  dict_set counts k (getd counts k 0%nat + 1)%nat.

(** Reading an index pair as [i < j], and moving it one position up. *)
Definition lt_pair (ij : nat * nat) : bool := Nat.ltb (fst ij) (snd ij).

Definition shift_pair (ij : nat * nat) : nat * nat := (S (fst ij), S (snd ij)).

(** The fourteen features, in the order of the keys of
    [feature_trajectories]. *)
Definition canonical_features : list string :=
  (TIDEAnalyzer.internal_features ++ TIDEAnalyzer.external_features
   ++ TIDEAnalyzer.concrete_features)%list.

(** The values that a feature vector holds for a feature: one value when
    the feature is present, none when it is absent. *)
Definition carried (f : string) (fv : Dict R) : list R :=
  map snd (filter (fun item => String.eqb (fst item) f) fv).

(** Two responses that differ at most in their ['task_type']. *)
Definition same_content (resp resp' : Response) : Prop :=
  prompt resp' = prompt resp
  /\ response resp' = response resp
  /\ features resp' = features resp
  /\ pattern resp' = pattern resp
  /\ timestamp resp' = timestamp resp.

(** The frequency that a histogram gives to a key, over all its items. *)
Definition frequency_in (t : string) (frequencies : Dict nat) : nat :=
  list_sum (map snd (filter (fun item => String.eqb (fst item) t) frequencies)).

(** The summed frequency of a transition over the sessions of a batch. *)
Definition total_frequency {RSA : Type} (t : string)
    (all_results : list (TIDEAnalyzer.FullResult RSA)) : nat :=
  list_sum
    (map (fun result =>
            frequency_in t
              (transition_frequencies
                 (TIDEAnalyzer.evolution_of_result RSA result)))
         all_results).

(** The sessions of a model in a batch, in batch order. *)
Definition sessions_of {RSA : Type} (m : string)
    (all_results : list (TIDEAnalyzer.FullResult RSA))
    : list (TIDEAnalyzer.FullResult RSA) :=
  filter (fun result => String.eqb (TIDEAnalyzer.fr_model RSA result) m)
         all_results.

(** The loop of [analyze_cross_session_patterns], from any accumulator. *)
Definition merged {RSA : Type}
    (all_results : list (TIDEAnalyzer.FullResult RSA)) (acc : Dict nat)
    : Dict nat :=
  fold_left
    (fun all_transitions result =>
       fold_left TIDEAnalyzer.merge_transition
                 (transition_frequencies
                    (TIDEAnalyzer.evolution_of_result RSA result))
                 all_transitions)
    all_results acc.

(** The entry that [compare_models] builds from the two collected lists. *)
Definition model_stats_of (collected : list R * list nat)
    : TIDEAnalyzer.ModelStats :=
  {| TIDEAnalyzer.ms_coherence_scores := fst collected;
     TIDEAnalyzer.ms_shift_magnitudes := [];
     TIDEAnalyzer.ms_pattern_diversity := snd collected;
     TIDEAnalyzer.ms_avg_coherence :=
       TIDEAnalyzer.mean_or_zero (fst collected);
     TIDEAnalyzer.ms_avg_diversity :=
       TIDEAnalyzer.mean_or_zero (map INR (snd collected)) |}.

(** [rdm[i, j]] *)
Definition entry (rdm : list (list pyfloat)) (i j : nat) : pyfloat :=
  nth j (nth i rdm []) (Num 0).

(** An [n] by [n] matrix. *)
Definition square (n : nat) (rdm : list (list pyfloat)) : Prop :=
  List.length rdm = n /\ forall row, In row rdm -> List.length row = n.

(** One iteration of the double loop of a [create_*_rdm] method. *)
Definition fill_step (distance : nat -> nat -> pyfloat)
    (rdm : list (list pyfloat)) (ij : nat * nat) : list (list pyfloat) :=
  RSAEngine.set_entry
    (RSAEngine.set_entry rdm (fst ij) (snd ij) (distance (fst ij) (snd ij)))
    (snd ij) (fst ij) (distance (fst ij) (snd ij)).

(** The distance that [create_feature_rdm] computes for two positions;
    [NaN] stands in where [cosine] raises. *)
Definition feature_distance (vectors : list (list R)) (i j : nat) : pyfloat :=
  match cosine (nth i vectors []) (nth j vectors []) with
  | Ok d => d
  | Raised _ => NaN
  end.

(** The numbers of [l] are ordered by [gt] as numbers are: no two are
    each greater than the other, and a number that is not greater than
    another is exceeded by whatever exceeds that one.  Float64 numbers
    other than [nan] are so ordered. *)
Definition ordered {F : Type} (gt : F -> F -> bool) (l : list F) : Prop :=
  forall a b c, In a l -> In b l -> In c l ->
    (gt a b = true -> gt b a = false)
    /\ (gt a b = true -> gt b c = true -> gt a c = true)
    /\ (gt a b = true -> gt a c = true \/ gt c b = true).


(** The last step of [calculate_comprehensive_stats]: the test, from the
    list of the models and [coherence_by_model]. *)
Definition significance_test (f_oneway : list (list R) -> pyfloat * pyfloat)
    (unique_models : list string) (coherence_by_model : Dict (list R))
    : option ScientificSummary.Anova :=
  if Nat.leb 2 (List.length unique_models)
     && forallb (fun m =>
          Nat.leb 2 (List.length (getd coherence_by_model m [])))
          unique_models
  then
    let model_groups :=
      map (fun m => getd coherence_by_model m [])
          (filter (contains coherence_by_model) unique_models) in
    if forallb (fun g => Nat.ltb 0 (List.length g)) model_groups then
      let '(f_stat, p_value) := f_oneway model_groups in
      Some {| ScientificSummary.f_statistic := f_stat;
              ScientificSummary.p_value := p_value;
              ScientificSummary.significant :=
                ScientificSummary.float_lt p_value 0.05 |}
    else None
  else None.

(** The three task types of the response distribution. *)
Definition known_tasks : list string := ["internal"; "external"; "concrete"].

(** The response entries of the stored sessions of a batch. *)
Definition responses_of
    (all_sessions : list ScientificSummary.StoredSession)
    : list (option (Dict (list ScientificSummary.StoredResponse))) :=
  map ScientificSummary.stored_responses all_sessions.

(** The task-type entries of the sessions of a batch that have any. *)
Definition task_items
    (all_sessions : list (option (Dict (list ScientificSummary.StoredResponse))))
    : Dict (list ScientificSummary.StoredResponse) :=
  flat_map (fun session => match session with
                           | Some resps => resps
                           | None => []
                           end) all_sessions.

(** The invariant of the response statistics: the three counters of the
    distribution, the list of patterns and the pattern histogram all
    account for the same responses. *)
Definition consistent (stats : ScientificSummary.ResponseStats) : Prop :=
  keys (ScientificSummary.response_distribution stats)
  = ["internal"; "external"; "concrete"]
  /\ list_sum (values (ScientificSummary.response_distribution stats))
     = ScientificSummary.total_responses stats
  /\ List.length (ScientificSummary.all_patterns stats)
     = ScientificSummary.total_responses stats
  /\ list_sum (values (ScientificSummary.pattern_counts stats))
     = ScientificSummary.total_responses stats.

(** ** Dictionaries *)

Lemma get_dict_set_same {V : Type} (d : Dict V) (k : string) (v : V) :
  get (dict_set d k v) k = Some v.
Proof.
  induction d as [|[k' v'] d IH]; simpl.
  - now rewrite String.eqb_refl.
  - destruct (String.eqb k' k) eqn:E; simpl; rewrite E; auto.
Qed.

Lemma get_dict_set_other {V : Type} (d : Dict V) (k k' : string) (v : V) :
  k <> k' -> get (dict_set d k v) k' = get d k'.
Proof.
  intros Hne. induction d as [|[k0 v0] d IH]; simpl.
  - destruct (String.eqb k k') eqn:E; [|reflexivity].
    apply String.eqb_eq in E. contradiction.
  - destruct (String.eqb k0 k) eqn:E; simpl.
    + apply String.eqb_eq in E. subst k0.
      destruct (String.eqb k k') eqn:E'; [|reflexivity].
      apply String.eqb_eq in E'. contradiction.
    + now rewrite IH.
Qed.

Lemma get_Some_In {V : Type} (d : Dict V) (k : string) (v : V) :
  get d k = Some v -> In (k, v) d.
Proof.
  induction d as [|[k' v'] d IH]; simpl; [discriminate|].
  destruct (String.eqb k' k) eqn:E.
  - apply String.eqb_eq in E. intros [= ->]. subst. now left.
  - intros H. right. auto.
Qed.

Lemma In_get_Some {V : Type} (d : Dict V) (k : string) (v : V) :
  NoDup (keys d) -> In (k, v) d -> get d k = Some v.
Proof.
  induction d as [|[k' v'] d IH]; simpl; [tauto|].
  intros Hnd [Heq|Hin].
  - inversion Heq; subst. now rewrite String.eqb_refl.
  - inversion Hnd as [|? ? Hnotin Hnd']; subst.
    destruct (String.eqb k' k) eqn:E.
    + apply String.eqb_eq in E. subst k'. exfalso. apply Hnotin.
      change k with (fst (k, v)). now apply in_map.
    + now apply IH.
Qed.

Lemma get_None_not_In {V : Type} (d : Dict V) (k : string) :
  get d k = None -> ~ In k (keys d).
Proof.
  induction d as [|[k' v'] d IH]; simpl; [tauto|].
  destruct (String.eqb k' k) eqn:E; [discriminate|].
  intros H [Heq|Hin]; [|now apply IH].
  subst. now rewrite String.eqb_refl in E.
Qed.

(** A dictionary is its set of items: the order of insertion does not
    change a lookup. *)
Lemma get_Permutation {V : Type} (d d' : Dict V) (k : string) :
  NoDup (keys d) -> Permutation d d' -> get d' k = get d k.
Proof.
  intros Hnd Hp.
  assert (Hnd' : NoDup (keys d')).
  { eapply Permutation_NoDup; [|exact Hnd]. now apply Permutation_map. }
  destruct (get d k) as [v|] eqn:E.
  - apply In_get_Some; [assumption|].
    eapply Permutation_in; [exact Hp|]. now apply get_Some_In.
  - destruct (get d' k) as [v'|] eqn:E'; [|reflexivity].
    exfalso. apply (get_None_not_In _ _ E).
    apply get_Some_In in E'.
    apply Permutation_sym in Hp.
    apply (Permutation_in _ Hp) in E'.
    change k with (fst (k, v')). now apply in_map.
Qed.

(** ** Factor-group means *)

Lemma getd_value (fv : Dict R) (f : string) : getd fv f 0 = Spec.value fv f.
Proof. reflexivity. Qed.

Lemma feature_mean_internal (fv : Dict R) :
  TIDEAnalyzer.feature_mean fv TIDEAnalyzer.internal_features
  = Spec.internal_score fv.
Proof.
  unfold TIDEAnalyzer.feature_mean, mean, sum, Spec.internal_score.
  simpl. rewrite !getd_value. lra.
Qed.

Lemma feature_mean_external (fv : Dict R) :
  TIDEAnalyzer.feature_mean fv TIDEAnalyzer.external_features
  = Spec.external_score fv.
Proof.
  unfold TIDEAnalyzer.feature_mean, mean, sum, Spec.external_score.
  simpl. rewrite !getd_value. lra.
Qed.

Lemma feature_mean_concrete (fv : Dict R) :
  TIDEAnalyzer.feature_mean fv TIDEAnalyzer.concrete_features
  = Spec.concrete_score fv.
Proof.
  unfold TIDEAnalyzer.feature_mean, mean, sum, Spec.concrete_score.
  simpl. rewrite !getd_value. lra.
Qed.

(** ** Lists *)

Lemma flat_map_ext_In {A B : Type} (f g : A -> list B) (l : list A) :
  (forall a, In a l -> f a = g a) -> flat_map f l = flat_map g l.
Proof.
  induction l as [|a l IH]; intros H; simpl; [reflexivity|].
  rewrite (H a (or_introl eq_refl)). f_equal.
  apply IH. intros b Hb. apply H. now right.
Qed.

Lemma mem_In (x : string) (l : list string) : mem x l = true <-> In x l.
Proof.
  unfold mem. rewrite existsb_exists. split.
  - intros (y & Hy & E). apply String.eqb_eq in E. now subst.
  - intros H. exists x. split; [assumption|apply String.eqb_refl].
Qed.

(** ** Dimensional shifts *)

(** The list that the first loop of [calculate_dimensional_shifts] builds:
    each task type is looked up in the session as it was on entry. *)
Lemma collect_tagged_fst (tasks : list string) (resps : Dict (list Response)) :
  NoDup tasks ->
  fst (TIDEAnalyzer.collect_tagged tasks resps)
  = flat_map (fun t => map (fun resp => set_task_type resp t) (getd resps t []))
             tasks.
Proof.
  intros Hnd. revert resps.
  induction Hnd as [|t ts Hnotin Hnd IH]; intros resps; simpl; [reflexivity|].
  unfold getd at 1.
  destruct (get resps t) as [l|] eqn:E.
  - specialize (IH (dict_set resps t (map (fun resp => set_task_type resp t) l))).
    destruct (TIDEAnalyzer.collect_tagged ts _) as [rest resps'] eqn:Ec.
    simpl in *. rewrite IH. f_equal.
    apply flat_map_ext_In. intros t' Hin. f_equal.
    unfold getd. rewrite get_dict_set_other; [reflexivity|].
    intros ->. contradiction.
  - simpl. apply IH.
Qed.

Lemma task_order_NoDup : NoDup TIDEAnalyzer.task_order.
Proof.
  unfold TIDEAnalyzer.task_order.
  repeat constructor; simpl; intuition discriminate.
Qed.

Lemma shifts_of_flattened (session : Session) :
  fst (TIDEAnalyzer.calculate_dimensional_shifts session)
  = TIDEAnalyzer.consecutive_shifts
      (map tag_pair (TIDEAnalyzer.responses_in_order session)).
Proof.
  unfold TIDEAnalyzer.calculate_dimensional_shifts.
  pose proof (collect_tagged_fst TIDEAnalyzer.task_order (responses session)
                task_order_NoDup) as H.
  destruct (TIDEAnalyzer.collect_tagged _ _) as [all_responses resps'].
  simpl in H. simpl. rewrite H.
  unfold TIDEAnalyzer.responses_in_order. simpl.
  rewrite !app_nil_r, !map_app, !map_map. reflexivity.
Qed.

Lemma flattened_in_order (session : Session) :
  Spec.flattened session = map snd (TIDEAnalyzer.responses_in_order session).
Proof.
  unfold Spec.flattened, Spec.of_task, TIDEAnalyzer.responses_in_order.
  simpl. rewrite !app_nil_r, !map_app, !map_map. simpl.
  rewrite !map_id. reflexivity.
Qed.

Lemma consecutive_shifts_length (l : list Response) :
  List.length (TIDEAnalyzer.consecutive_shifts l) = (List.length l - 1)%nat.
Proof.
  induction l as [|b [|a rest] IH]; simpl in *; try reflexivity.
  rewrite IH. lia.
Qed.

Lemma consecutive_shifts_nth (l : list Response) (i : nat) (b a : Response) :
  nth_error l i = Some b -> nth_error l (S i) = Some a ->
  nth_error (TIDEAnalyzer.consecutive_shifts l) i
  = Some (TIDEAnalyzer.shift_data b a).
Proof.
  revert i. induction l as [|x [|y rest] IH]; intros i Hb Ha.
  - destruct i; discriminate.
  - destruct i; simpl in Ha; [discriminate|destruct i; discriminate].
  - destruct i as [|i].
    + simpl in Hb, Ha. injection Hb as ->. injection Ha as ->. reflexivity.
    + change (TIDEAnalyzer.consecutive_shifts (x :: y :: rest))
        with (TIDEAnalyzer.shift_data x y
              :: TIDEAnalyzer.consecutive_shifts (y :: rest)).
      simpl nth_error. apply IH; assumption.
Qed.

Lemma responses_in_order_Permutation (s s' : Session) :
  NoDup (keys (responses s)) -> Permutation (responses s) (responses s') ->
  TIDEAnalyzer.responses_in_order s' = TIDEAnalyzer.responses_in_order s.
Proof.
  intros Hnd Hp. unfold TIDEAnalyzer.responses_in_order, getd.
  apply flat_map_ext_In. intros t _.
  now rewrite (get_Permutation _ _ t Hnd Hp).
Qed.

(** C1: the shifts are those of the adjacent pairs of the responses
    flattened in the order concrete, internal, external, whatever the order
    of the session map: one shift per adjacent pair, each delta being the
    mean of the factor group in the after-response minus that mean in the
    before-response, with an absent feature counted as 0; with fewer than
    two responses there is no shift. *)
Theorem dimensional_shifts_of_adjacent_pairs (session : Session) :
  let flat := Spec.flattened session in
  let shifts := fst (TIDEAnalyzer.calculate_dimensional_shifts session) in
  List.length shifts = (List.length flat - 1)%nat
  /\ (forall i before after,
        nth_error flat i = Some before ->
        nth_error flat (S i) = Some after ->
        exists shift,
          nth_error shifts i = Some shift
          /\ internal_delta shift
             = Spec.internal_score (features after)
               - Spec.internal_score (features before)
          /\ external_delta shift
             = Spec.external_score (features after)
               - Spec.external_score (features before)
          /\ concrete_delta shift
             = Spec.concrete_score (features after)
               - Spec.concrete_score (features before))
  /\ ((List.length flat < 2)%nat -> shifts = [])
  /\ (forall session',
        NoDup (keys (responses session)) ->
        Permutation (responses session) (responses session') ->
        fst (TIDEAnalyzer.calculate_dimensional_shifts session') = shifts).
Proof.
  intros flat shifts. subst flat shifts.
  rewrite shifts_of_flattened, flattened_in_order.
  set (l := TIDEAnalyzer.responses_in_order session).
  assert (Hlen : List.length (TIDEAnalyzer.consecutive_shifts (map tag_pair l))
                 = (List.length (map snd l) - 1)%nat).
  { rewrite consecutive_shifts_length. now rewrite !length_map. }
  split; [exact Hlen|]. split; [|split].
  - intros i before after Hb Ha.
    rewrite nth_error_map in Hb, Ha.
    destruct (nth_error l i) as [tb|] eqn:Eb; [|discriminate].
    destruct (nth_error l (S i)) as [ta|] eqn:Ea; [|discriminate].
    simpl in Hb, Ha. injection Hb as <-. injection Ha as <-.
    exists (TIDEAnalyzer.shift_data (tag_pair tb) (tag_pair ta)). split.
    + apply consecutive_shifts_nth; rewrite nth_error_map.
      * now rewrite Eb.
      * now rewrite Ea.
    + unfold TIDEAnalyzer.shift_data, TIDEAnalyzer.calculate_factor_shift.
      simpl.
      now rewrite !feature_mean_internal, !feature_mean_external,
        !feature_mean_concrete.
  - intros Hlt.
    destruct (TIDEAnalyzer.consecutive_shifts (map tag_pair l)); [reflexivity|].
    simpl in Hlen. lia.
  - intros session' Hnd Hp. rewrite shifts_of_flattened.
    now rewrite (responses_in_order_Permutation _ _ Hnd Hp).
Qed.

(** On the session of [test_fix.py] and on the same session with its
    entries swapped. *)
Lemma dimensional_shifts_of_adjacent_pairs_witness :
  (exists shift,
     nth_error
       (fst (TIDEAnalyzer.calculate_dimensional_shifts Examples.test_session))
       0 = Some shift
     /\ internal_delta shift
        = Spec.internal_score (Examples.four_features 0.7)
          - Spec.internal_score (Examples.four_features 0.5))
  /\ fst (TIDEAnalyzer.calculate_dimensional_shifts
            Examples.test_session_swapped)
     = fst (TIDEAnalyzer.calculate_dimensional_shifts Examples.test_session).
Proof.
  destruct (dimensional_shifts_of_adjacent_pairs Examples.test_session)
    as (_ & Hnth & _ & Hperm).
  split.
  - destruct (Hnth 0%nat
                (Examples.response_with (Examples.four_features 0.5) "CCDF")
                {| prompt := "test2"; response := "test response 2";
                   features := Examples.four_features 0.7; pattern := "AADS";
                   timestamp := None; task_type := None |}
                eq_refl eq_refl) as (shift & H0 & Hi & _).
    exists shift. split; assumption.
  - apply Hperm.
    + repeat constructor; simpl; intuition discriminate.
    + apply Permutation_rev.
Defined.

(** ** The session after an analysis *)

(** What the first loop of [calculate_dimensional_shifts] leaves in the
    session: the responses of the three task types carry their task type,
    every other entry is as before. *)
Lemma collect_tagged_snd (tasks : list string) (resps : Dict (list Response))
    (t : string) :
  NoDup tasks ->
  get (snd (TIDEAnalyzer.collect_tagged tasks resps)) t
  = if mem t tasks
    then option_map (map (fun resp => set_task_type resp t)) (get resps t)
    else get resps t.
Proof.
  intros Hnd. revert resps.
  induction Hnd as [|t0 ts Hnotin Hnd IH]; intros resps; [reflexivity|].
  assert (Hmem : mem t0 ts = false).
  { destruct (mem t0 ts) eqn:E; [|reflexivity].
    apply mem_In in E. contradiction. }
  simpl TIDEAnalyzer.collect_tagged.
  change (mem t (t0 :: ts)) with (String.eqb t t0 || mem t ts)%bool.
  destruct (get resps t0) as [l|] eqn:E.
  - specialize (IH (dict_set resps t0
                      (map (fun resp => set_task_type resp t0) l))).
    destruct (TIDEAnalyzer.collect_tagged ts _) as [rest resps'].
    simpl in *. rewrite IH.
    destruct (String.eqb t t0) eqn:Et.
    + apply String.eqb_eq in Et. subst t0.
      now rewrite Hmem, get_dict_set_same, E.
    + apply String.eqb_neq in Et.
      rewrite get_dict_set_other by congruence. reflexivity.
  - rewrite IH. destruct (String.eqb t t0) eqn:Et; [|reflexivity].
    apply String.eqb_eq in Et. subst t0. now rewrite Hmem, E.
Qed.

(** The session after an analysis: its model and timestamp are unchanged,
    and each task-type entry holds the same responses, those of the three
    task types with their ['task_type'] set. *)
Lemma analyze_session_frame (RSA : Type) (rsa_summary : Session -> result RSA)
    (session : Session) :
  let after := snd (TIDEAnalyzer.analyze_session RSA rsa_summary session) in
  model after = model session
  /\ s_timestamp after = s_timestamp session
  /\ forall t,
       get (responses after) t
       = if mem t TIDEAnalyzer.task_order
         then option_map (map (fun resp => set_task_type resp t))
                         (get (responses session) t)
         else get (responses session) t.
Proof.
  unfold TIDEAnalyzer.analyze_session,
    TIDEAnalyzer.calculate_dimensional_shifts.
  pose proof (fun t => collect_tagged_snd TIDEAnalyzer.task_order
                         (responses session) t task_order_NoDup) as H.
  destruct (TIDEAnalyzer.collect_tagged _ _) as [all_responses resps'].
  simpl in *. repeat split. exact H.
Qed.

(** C9 (violated by the code): after [analyze_session] on the session of
    [test_fix.py] the concrete response has gained the field ['task_type'],
    which it did not have before; so the session is not left unchanged,
    whatever the similarity analysis returns. *)
Theorem analyze_session_writes_task_type
    (RSA : Type) (rsa_summary : Session -> result RSA) :
  let after :=
    snd (TIDEAnalyzer.analyze_session RSA rsa_summary Examples.test_session) in
  map task_type (Spec.of_task Examples.test_session "concrete") = [None]
  /\ map task_type (Spec.of_task after "concrete") = [Some "concrete"]
  /\ after <> Examples.test_session.
Proof.
  cbv zeta. split; [reflexivity|]. split; [reflexivity|].
  intros H. apply (f_equal (fun s => map task_type (Spec.of_task s "concrete"))) in H.
  discriminate H.
Qed.

(** ** Feature trajectories *)

(** C3 (violated by the code): on the session of [test_fix.py], which has
    two responses, the trajectory of a feature that both responses carry
    has two values, but the trajectory of a feature that they lack is
    empty: no 0 is recorded for an absent feature. *)
Theorem track_feature_changes_skips_absent :
  exists trajs,
    TIDEAnalyzer.track_feature_changes Examples.test_session = Ok trajs
    /\ List.length (Spec.flattened Examples.test_session) = 2%nat
    /\ get (trajectories trajs) "visual" = Some [0.5; 0.7]
    /\ get (trajectories trajs) "space" = Some [].
Proof.
  eexists. split; [reflexivity|]. repeat split.
Qed.

(** ** Feature dissimilarity matrix *)

(** C7 (violated by the code): each response is vectorised over its own
    sorted keys, so two responses with different key sets give vectors of
    different lengths and the distance computation raises. *)
Theorem create_feature_rdm_raises_on_ragged :
  map RSAEngine.feature_vec
      (List.concat (values (responses Examples.ragged_session)))
  = [[0.5]; [0.5; 0.5]]
  /\ RSAEngine.create_feature_rdm Examples.ragged_session = Raised ValueError.
Proof.
  split; reflexivity.
Qed.

(** ** Pattern evolution *)

Lemma In_distinct (l : list string) (x : string) : In x (distinct l) <-> In x l.
Proof.
  induction l as [|a l IH]; simpl; [tauto|].
  rewrite filter_In, IH.
  destruct (String.eqb a x) eqn:E; simpl.
  - apply String.eqb_eq in E. intuition.
  - apply String.eqb_neq in E. intuition.
Qed.

Lemma NoDup_distinct (l : list string) : NoDup (distinct l).
Proof.
  induction l as [|a l IH]; simpl; constructor.
  - rewrite filter_In. intros [_ H]. now rewrite String.eqb_refl in H.
  - now apply NoDup_filter.
Qed.

Lemma distinct_snoc (l : list string) (x : string) :
  distinct (l ++ [x])
  = if mem x l then distinct l else (distinct l ++ [x])%list.
Proof.
  induction l as [|a l IH]; simpl; [reflexivity|].
  rewrite IH. unfold mem in *. simpl.
  destruct (String.eqb x a) eqn:Exa; simpl.
  - apply String.eqb_eq in Exa. subst a.
    destruct (existsb (String.eqb x) l); [reflexivity|].
    rewrite filter_app. simpl. rewrite String.eqb_refl. simpl.
    now rewrite app_nil_r.
  - destruct (existsb (String.eqb x) l); [reflexivity|].
    rewrite filter_app. simpl.
    rewrite String.eqb_sym, Exa. reflexivity.
Qed.

Lemma contains_In_keys {V : Type} (d : Dict V) (k : string) :
  contains d k = mem k (keys d).
Proof.
  unfold contains, mem.
  induction d as [|[k' v] d IH]; simpl; [reflexivity|].
  rewrite (String.eqb_sym k k').
  destruct (String.eqb k' k); simpl; [reflexivity|exact IH].
Qed.

Lemma keys_dict_set {V : Type} (d : Dict V) (k : string) (v : V) :
  keys (dict_set d k v) = if contains d k then keys d else (keys d ++ [k])%list.
Proof.
  unfold contains.
  induction d as [|[k' v'] d IH]; simpl; [reflexivity|].
  destruct (String.eqb k' k) eqn:E; simpl; [reflexivity|].
  rewrite IH. now destruct (get d k).
Qed.

Lemma count_all_snoc (l : list string) (x : string) :
  TIDEAnalyzer.count_all (l ++ [x])
  = count_step (TIDEAnalyzer.count_all l) x.
Proof.
  unfold TIDEAnalyzer.count_all. now rewrite fold_left_app.
Qed.

(** The keys of the histogram are the labels in order of first encounter. *)
Lemma keys_count_all (l : list string) :
  keys (TIDEAnalyzer.count_all l) = distinct l.
Proof.
  induction l as [|x l IH] using rev_ind; [reflexivity|].
  rewrite count_all_snoc, distinct_snoc. unfold count_step.
  rewrite keys_dict_set, contains_In_keys, IH.
  destruct (mem x l) eqn:E.
  - assert (H : mem x (distinct l) = true).
    { apply mem_In. apply In_distinct. apply mem_In. exact E. }
    now rewrite H.
  - assert (H : mem x (distinct l) = false).
    { destruct (mem x (distinct l)) eqn:E'; [|reflexivity].
      apply mem_In in E'. apply (proj1 (In_distinct l x)) in E'.
      apply (proj2 (mem_In x l)) in E'. congruence. }
    now rewrite H.
Qed.

(** The histogram holds the number of occurrences of each label. *)
Lemma getd_count_all (l : list string) (p : string) :
  getd (TIDEAnalyzer.count_all l) p 0%nat = Spec.occurrences p l.
Proof.
  unfold Spec.occurrences.
  induction l as [|x l IH] using rev_ind; [reflexivity|].
  rewrite count_all_snoc, count_occ_app. simpl. unfold count_step, getd in *.
  destruct (string_dec x p) as [->|Hne].
  - rewrite get_dict_set_same. rewrite IH. reflexivity.
  - rewrite get_dict_set_other by assumption. rewrite IH. lia.
Qed.

(** [max] with a key returns the first element whose key is maximal. *)
Lemma max_from_first (A : Type) (key : A -> nat) (l : list A) (best : A) :
  exists l1 l2,
    (best :: l = l1 ++ max_from Nat.ltb key best l :: l2)%list
    /\ (forall x, In x l1 -> (key x < key (max_from Nat.ltb key best l))%nat)
    /\ (forall x, In x (best :: l) ->
                  (key x <= key (max_from Nat.ltb key best l))%nat).
Proof.
  revert best. induction l as [|x t IH]; intros best; simpl max_from.
  - exists [], []. repeat split; simpl; intuition (subst; lia).
  - destruct (Nat.ltb (key best) (key x)) eqn:E.
    + apply Nat.ltb_lt in E.
      destruct (IH x) as (l1 & l2 & Heq & Hlt & Hle).
      exists (best :: l1), l2. split; [simpl; now rewrite Heq|]. split.
      * intros y [<-|Hy]; [|now apply Hlt].
        specialize (Hle x (or_introl eq_refl)). lia.
      * intros y [<-|Hy]; [|now apply Hle].
        specialize (Hle x (or_introl eq_refl)). lia.
    + apply Nat.ltb_ge in E.
      destruct (IH best) as (l1 & l2 & Heq & Hlt & Hle).
      destruct l1 as [|b l1].
      * simpl in Heq. injection Heq as Hb Ht.
        exists [], (x :: t). split; [simpl; now rewrite <- Hb|]. split.
        -- intros y [].
        -- intros y [<-|[<-|Hy]].
           ++ apply Hle. now left.
           ++ rewrite <- Hb. exact E.
           ++ apply Hle. now right.
      * simpl in Heq. injection Heq as Hb Ht. subst b.
        exists (best :: x :: l1), l2.
        split; [simpl; do 2 f_equal; exact Ht|]. split.
        -- intros y [<-|[<-|Hy]].
           ++ apply Hlt. now left.
           ++ specialize (Hlt best (or_introl eq_refl)). lia.
           ++ apply Hlt. now right.
        -- intros y [<-|[<-|Hy]].
           ++ apply Hle. now left.
           ++ specialize (Hlt best (or_introl eq_refl)). lia.
           ++ apply Hle. now right.
Qed.

Lemma find_first (A : Type) (f : A -> bool) (l1 l2 : list A) (x : A) :
  (forall y, In y l1 -> f y = false) -> f x = true ->
  find f (l1 ++ x :: l2) = Some x.
Proof.
  intros Hl1 Hx. induction l1 as [|a l1 IH]; simpl.
  - now rewrite Hx.
  - rewrite (Hl1 a (or_introl eq_refl)). apply IH.
    intros y Hy. apply Hl1. now right.
Qed.

Lemma list_max_attained (A : Type) (f : A -> nat) (l : list A) (r : A) :
  In r l -> (forall x, In x l -> (f x <= f r)%nat) ->
  List.list_max (map f l) = f r.
Proof.
  intros Hin Hle. apply Nat.le_antisymm.
  - apply List.list_max_le, Forall_forall.
    intros n Hn. apply in_map_iff in Hn as (x & <- & Hx). now apply Hle.
  - assert (H : Forall (fun k => (k <= List.list_max (map f l))%nat) (map f l)).
    { now apply List.list_max_le. }
    rewrite Forall_forall in H. apply H. now apply in_map.
Qed.

Lemma labels_in_order (session : Session) :
  map fst (map (fun tr : string * Response => (pattern (snd tr), fst tr))
               (TIDEAnalyzer.responses_in_order session))
  = Spec.labels session.
Proof.
  unfold Spec.labels. rewrite flattened_in_order, !map_map. reflexivity.
Qed.

(** C5: for a session with at least one response the dominant pattern is
    the first label, in order of first encounter in the flattened session,
    whose number of occurrences is the maximum; it depends on the
    flattened labels only, not on the order of the session map; and the
    pattern diversity is the number of distinct labels. *)
Theorem dominant_pattern_first_maximal (session : Session) :
  Spec.flattened session <> [] ->
  let summary := TIDEAnalyzer.analyze_pattern_signatures session in
  Spec.dominant (Spec.labels session) = Some (dominant_pattern summary)
  /\ (forall session',
        Spec.labels session' = Spec.labels session ->
        dominant_pattern (TIDEAnalyzer.analyze_pattern_signatures session')
        = dominant_pattern summary)
  /\ (exists ds,
        NoDup ds /\ (forall p, In p ds <-> In p (Spec.labels session))
        /\ pattern_diversity summary = List.length ds).
Proof.
  intros Hne summary. subst summary.
  unfold TIDEAnalyzer.analyze_pattern_signatures. cbn [dominant_pattern pattern_diversity].
  split; [|split].
  - rewrite labels_in_order.
    set (l := Spec.labels session).
    assert (Hl : l <> []).
    { unfold l, Spec.labels. destruct (Spec.flattened session); [congruence|discriminate]. }
    rewrite keys_count_all. unfold Spec.dominant.
    destruct (distinct l) as [|d ds] eqn:Ed.
    { destruct l as [|a l']; [congruence|discriminate]. }
    cbn [py_max].
    set (key := fun p => getd (TIDEAnalyzer.count_all l) p 0%nat).
    destruct (max_from_first string key ds d) as (l1 & l2 & Heq & Hlt & Hle).
    rewrite Heq.
    assert (Hkey : forall p, key p = Spec.occurrences p l).
    { intros p. apply getd_count_all. }
    assert (Hin : In (max_from Nat.ltb key d ds) l).
    { apply In_distinct. rewrite Ed, Heq. apply in_elt. }
    assert (Hmax : Spec.max_occurrences l
                   = Spec.occurrences (max_from Nat.ltb key d ds) l).
    { unfold Spec.max_occurrences.
      apply (list_max_attained string (fun p => Spec.occurrences p l)).
      - exact Hin.
      - intros x Hx. rewrite <- !Hkey. apply Hle.
        rewrite <- Ed. now apply In_distinct. }
    apply find_first.
    + intros y Hy. rewrite Hmax, <- !Hkey. apply Nat.eqb_neq.
      specialize (Hlt y Hy). lia.
    + rewrite Hmax. apply Nat.eqb_refl.
  - intros session' Hl. unfold TIDEAnalyzer.analyze_pattern_signatures.
    cbn [dominant_pattern]. now rewrite !labels_in_order, Hl.
  - rewrite labels_in_order. exists (distinct (Spec.labels session)).
    split; [apply NoDup_distinct|]. split; [|reflexivity].
    intros p. apply In_distinct.
Qed.

(** On the session of [test_fix.py]: both labels occur once and the first
    one encountered, that of the concrete response, is dominant. *)
Lemma dominant_pattern_first_maximal_witness :
  Spec.flattened Examples.test_session <> []
  /\ Spec.dominant (Spec.labels Examples.test_session)
     = Some (dominant_pattern
               (TIDEAnalyzer.analyze_pattern_signatures Examples.test_session))
  /\ dominant_pattern
       (TIDEAnalyzer.analyze_pattern_signatures Examples.test_session)
     = "CCDF".
Proof.
  split; [discriminate|]. split; [|reflexivity].
  apply (dominant_pattern_first_maximal Examples.test_session). discriminate.
Defined.

(** ** Dominant processing mode *)

Section DominantMode.
Context {F : Type}.
Variable A : Arithmetic F.

Lemma average_batch_mean (all_results : list (SessionResult F)) (g : string) :
  TIDEAnalyzer.average A
    (map (fun resp => TIDEAnalyzer.factor_score A (features resp) (Spec.group g))
         (flat_map (fun r => List.concat (values (responses (data r))))
                   all_results))
  = Spec.batch_mean A g all_results.
Proof.
  unfold Spec.batch_mean, Spec.batch_responses, values.
  destruct (flat_map _ all_results) as [|resp l]; reflexivity.
Qed.

Lemma identify_dominant_processing_mode_eq
    (all_results : list (SessionResult F)) :
  TIDEAnalyzer.identify_dominant_processing_mode A all_results
  = let mi := Spec.batch_mean A "internal" all_results in
    let me := Spec.batch_mean A "external" all_results in
    let mc := Spec.batch_mean A "concrete" all_results in
    if gt A me mi
    then if gt A mc me then "concrete" else "external"
    else if gt A mc mi then "concrete" else "internal".
Proof.
  unfold TIDEAnalyzer.identify_dominant_processing_mode. cbv zeta.
  change TIDEAnalyzer.internal_features with (Spec.group "internal").
  change TIDEAnalyzer.external_features with (Spec.group "external").
  change TIDEAnalyzer.concrete_features with (Spec.group "concrete").
  rewrite !average_batch_mean.
  unfold py_max, keys, getd. simpl.
  destruct (gt A _ _); simpl; reflexivity.
Qed.

(** C10: the dominant processing mode of a batch is always one of
    internal, external, concrete.  When the three means of the batch, as
    the program computes them, are ordered as numbers are, it is a group
    that no group exceeds, and every group before it in the order
    internal, external, concrete is exceeded by some group: on a tie for
    the greatest mean it is the first such group.  A batch without
    responses, whose means are all 0, gives internal. *)
Theorem dominant_mode_first_maximal (all_results : list (SessionResult F)) :
  let mode := TIDEAnalyzer.identify_dominant_processing_mode A all_results in
  (mode = "internal" \/ mode = "external" \/ mode = "concrete")
  /\ (ordered (gt A)
              (map (fun g => Spec.batch_mean A g all_results) Spec.modes) ->
      Spec.maximal A all_results mode
      /\ forall g, Spec.before g mode -> ~ Spec.maximal A all_results g)
  /\ (Spec.batch_responses all_results = [] ->
      gt A (zero A) (zero A) = false -> mode = "internal").
Proof.
  cbv zeta. rewrite identify_dominant_processing_mode_eq. cbv zeta.
  split; [|split].
  - repeat match goal with
           | |- context [if ?b then _ else _] => destruct b
           end; auto.
  - intros Hord. unfold Spec.maximal, Spec.before.
    set (mi := Spec.batch_mean A "internal" all_results) in *.
    set (me := Spec.batch_mean A "external" all_results) in *.
    set (mc := Spec.batch_mean A "concrete" all_results) in *.
    assert (Hi : In mi [mi; me; mc]) by (simpl; auto).
    assert (He : In me [mi; me; mc]) by (simpl; auto).
    assert (Hc : In mc [mi; me; mc]) by (simpl; auto).
    change (map _ Spec.modes) with [mi; me; mc] in Hord.
    assert (Hirr : forall a, In a [mi; me; mc] -> gt A a a = false).
    { intros a Ha. destruct (gt A a a) eqn:E; [|reflexivity].
      now rewrite (proj1 (Hord a a a Ha Ha Ha) E) in E. }
    assert (Hasym : forall a b, In a [mi; me; mc] -> In b [mi; me; mc] ->
                      gt A a b = true -> gt A b a = false).
    { intros a b Ha Hb. exact (proj1 (Hord a b b Ha Hb Hb)). }
    assert (Htrans : forall a b c, In a [mi; me; mc] -> In b [mi; me; mc] ->
                       In c [mi; me; mc] ->
                       gt A a b = true -> gt A b c = true -> gt A a c = true).
    { intros a b c Ha Hb Hc'. exact (proj1 (proj2 (Hord a b c Ha Hb Hc'))). }
    assert (Hneg : forall a b c, In a [mi; me; mc] -> In b [mi; me; mc] ->
                     In c [mi; me; mc] ->
                     gt A a b = true -> gt A a c = true \/ gt A c b = true).
    { intros a b c Ha Hb Hc'. exact (proj2 (proj2 (Hord a b c Ha Hb Hc'))). }
    destruct (gt A me mi) eqn:Eei.
    + destruct (gt A mc me) eqn:Ece.
      * (* concrete, above external, above internal *)
        split.
        -- intros g' [<-|[<-|[<-|[]]]]; fold mi me mc.
           ++ apply Hasym; auto. apply (Htrans mc me mi); auto.
           ++ apply Hasym; auto.
           ++ apply Hirr; auto.
        -- intros g [[<-|[<-|[<-|[]]]] Hlt]; unfold Spec.rank in Hlt; simpl in Hlt; try lia;
             intros Hmax.
           ++ specialize (Hmax "external" (or_intror (or_introl eq_refl))).
              fold mi me in Hmax. congruence.
           ++ specialize (Hmax "concrete"
                            (or_intror (or_intror (or_introl eq_refl)))).
              fold me mc in Hmax. congruence.
      * (* external, above internal, not below concrete *)
        split.
        -- intros g' [<-|[<-|[<-|[]]]]; fold mi me mc.
           ++ apply Hasym; auto.
           ++ apply Hirr; auto.
           ++ exact Ece.
        -- intros g [[<-|[<-|[<-|[]]]] Hlt]; unfold Spec.rank in Hlt; simpl in Hlt; try lia;
             intros Hmax.
           specialize (Hmax "external" (or_intror (or_introl eq_refl))).
           fold mi me in Hmax. congruence.
    + destruct (gt A mc mi) eqn:Eci.
      * (* concrete, above internal, which external does not exceed *)
        split.
        -- intros g' [<-|[<-|[<-|[]]]]; fold mi me mc.
           ++ apply Hasym; auto.
           ++ destruct (gt A me mc) eqn:Eec; [|reflexivity].
              rewrite (Htrans me mc mi) in Eei; auto.
           ++ apply Hirr; auto.
        -- intros g [[<-|[<-|[<-|[]]]] Hlt]; unfold Spec.rank in Hlt; simpl in Hlt; try lia;
             intros Hmax.
           ++ specialize (Hmax "concrete"
                            (or_intror (or_intror (or_introl eq_refl)))).
              fold mi mc in Hmax. congruence.
           ++ specialize (Hmax "concrete"
                            (or_intror (or_intror (or_introl eq_refl)))).
              fold me mc in Hmax.
              destruct (Hneg mc mi me Hc Hi He Eci); congruence.
      * (* internal, which neither of the others exceeds *)
        split.
        -- intros g' [<-|[<-|[<-|[]]]]; fold mi me mc.
           ++ apply Hirr; auto.
           ++ exact Eei.
           ++ exact Eci.
        -- intros g [[<-|[<-|[<-|[]]]] Hlt]; unfold Spec.rank in Hlt; simpl in Hlt; lia.
  - intros Hnil Hzero. unfold Spec.batch_mean. rewrite Hnil.
    now rewrite Hzero.
Qed.
End DominantMode.

(** *** The order of binary64

    The comparison of two float64 numbers is that of their
    specification, which orders all of them but [nan]. *)

Ltac compare_cases :=
  repeat match goal with
         | H : context [BinInt.Z.compare ?a ?b] |- _ =>
             destruct (BinInt.Z.compare_spec a b); simpl in H
         | |- context [BinInt.Z.compare ?a ?b] =>
             destruct (BinInt.Z.compare_spec a b); simpl
         | H : context [BinPos.Pos.compare_cont Eq ?a ?b] |- _ =>
             rewrite (BinPos.Pos.compare_cont_spec a b Eq) in H; simpl in H
         | |- context [BinPos.Pos.compare_cont Eq ?a ?b] =>
             rewrite (BinPos.Pos.compare_cont_spec a b Eq); simpl
         | H : context [BinPos.Pos.compare ?a ?b] |- _ =>
             destruct (BinPos.Pos.compare_spec a b); simpl in H
         | |- context [BinPos.Pos.compare ?a ?b] =>
             destruct (BinPos.Pos.compare_spec a b); simpl
         end.

Lemma SFltb_asym (x y : SpecFloat.spec_float) :
  SpecFloat.SFltb x y = true -> SpecFloat.SFltb y x = false.
Proof.
  unfold SpecFloat.SFltb, SpecFloat.SFcompare.
  destruct x as [sx|sx| |sx mx ex], y as [sy|sy| |sy my ey];
    try destruct sx; try destruct sy; simpl; try congruence;
    intros H; compare_cases; subst; try congruence; try lia.
Qed.

Lemma SFltb_trans (x y z : SpecFloat.spec_float) :
  SpecFloat.SFltb x y = true -> SpecFloat.SFltb y z = true ->
  SpecFloat.SFltb x z = true.
Proof.
  unfold SpecFloat.SFltb, SpecFloat.SFcompare.
  destruct x as [sx|sx| |sx mx ex], y as [sy|sy| |sy my ey],
    z as [sz|sz| |sz mz ez];
    try destruct sx; try destruct sy; try destruct sz; simpl; try congruence;
    intros H1 H2; compare_cases; subst; try congruence; try lia.
Qed.

Lemma SFltb_between (x y z : SpecFloat.spec_float) :
  z <> SpecFloat.S754_nan ->
  SpecFloat.SFltb x y = true ->
  SpecFloat.SFltb x z = true \/ SpecFloat.SFltb z y = true.
Proof.
  unfold SpecFloat.SFltb, SpecFloat.SFcompare.
  destruct x as [sx|sx| |sx mx ex], y as [sy|sy| |sy my ey],
    z as [sz|sz| |sz mz ez];
    try destruct sx; try destruct sy; try destruct sz; simpl; try congruence;
    intros Hz H1; auto; compare_cases; subst; auto; try congruence; try lia.
Qed.

Lemma is_nan_false (x : float) :
  PrimFloat.is_nan x = false -> FloatOps.Prim2SF x <> SpecFloat.S754_nan.
Proof.
  unfold PrimFloat.is_nan. rewrite FloatAxioms.eqb_spec. intros H E.
  rewrite E in H. discriminate H.
Qed.

(** Float64 numbers none of which is [nan] are ordered by [>]. *)
Lemma ordered_binary64 (np_mean : list float -> float) (l : list float) :
  (forall x, In x l -> PrimFloat.is_nan x = false) ->
  ordered (gt (binary64 np_mean)) l.
Proof.
  intros Hnan a b c Ha Hb Hc. cbn [gt binary64].
  rewrite !FloatAxioms.ltb_spec.
  split; [|split].
  - apply SFltb_asym.
  - intros H1 H2. now apply (SFltb_trans _ (FloatOps.Prim2SF b)).
  - intros H. destruct (SFltb_between _ _ (FloatOps.Prim2SF c)
                          (is_nan_false c (Hnan c Hc)) H); auto.
Qed.

(** In binary64.  When every feature of the only response is 0.5 the three
    means tie at 0.5 and the mode is internal.  When every feature is 0.1
    the means of six, three and five values come out as
    0.09999999999999999, 0.10000000000000002 and 0.1: they do not tie, and
    the mode is external. *)
Lemma dominant_mode_first_maximal_witness :
  ordered (gt Examples.float64)
          (map (fun g => Spec.batch_mean Examples.float64 g
                           (Examples.uniform_batch 0.5))
               Spec.modes)
  /\ TIDEAnalyzer.identify_dominant_processing_mode
       Examples.float64 (Examples.uniform_batch 0.5) = "internal"
  /\ Spec.maximal Examples.float64 (Examples.uniform_batch 0.5) "internal"
  /\ Spec.maximal Examples.float64 (Examples.uniform_batch 0.5) "external"
  /\ TIDEAnalyzer.identify_dominant_processing_mode
       Examples.float64 (Examples.uniform_batch 0.1) = "external"
  /\ Spec.maximal Examples.float64 (Examples.uniform_batch 0.1) "external"
  /\ ~ Spec.maximal Examples.float64 (Examples.uniform_batch 0.1) "internal"
  /\ TIDEAnalyzer.identify_dominant_processing_mode Examples.float64 []
     = "internal".
Proof.
  assert (H5 : ordered (gt Examples.float64)
                 (map (fun g => Spec.batch_mean Examples.float64 g
                                  (Examples.uniform_batch 0.5))
                      Spec.modes)).
  { apply ordered_binary64.
    intros x [<-|[<-|[<-|[]]]]; vm_compute; reflexivity. }
  assert (H1 : ordered (gt Examples.float64)
                 (map (fun g => Spec.batch_mean Examples.float64 g
                                  (Examples.uniform_batch 0.1))
                      Spec.modes)).
  { apply ordered_binary64.
    intros x [<-|[<-|[<-|[]]]]; vm_compute; reflexivity. }
  assert (E5 : TIDEAnalyzer.identify_dominant_processing_mode
                 Examples.float64 (Examples.uniform_batch 0.5) = "internal").
  { vm_compute. reflexivity. }
  assert (E1 : TIDEAnalyzer.identify_dominant_processing_mode
                 Examples.float64 (Examples.uniform_batch 0.1) = "external").
  { vm_compute. reflexivity. }
  destruct (dominant_mode_first_maximal Examples.float64
              (Examples.uniform_batch 0.5)) as (_ & M5 & _).
  destruct (dominant_mode_first_maximal Examples.float64
              (Examples.uniform_batch 0.1)) as (_ & M1 & _).
  destruct (dominant_mode_first_maximal Examples.float64 [])
    as (_ & _ & M0).
  destruct (M5 H5) as [M5a _]. destruct (M1 H1) as [M1a M1b].
  rewrite E5 in M5a. rewrite E1 in M1a, M1b.
  split; [exact H5|]. split; [exact E5|]. split; [exact M5a|].
  split.
  { intros g' Hg'. vm_compute in Hg'.
    destruct Hg' as [<-|[<-|[<-|[]]]]; vm_compute; reflexivity. }
  split; [exact E1|]. split; [exact M1a|]. split.
  { apply M1b. split; [simpl; auto|unfold Spec.rank; simpl; lia]. }
  apply M0; reflexivity.
Defined.

(** ** Trend of a trajectory *)

Lemma Req_bool_true (x y : R) : Req_bool x y = true <-> x = y.
Proof. unfold Req_bool. destruct (Req_dec_T x y); intuition discriminate. Qed.

Lemma Req_bool_false (x y : R) : Req_bool x y = false <-> x <> y.
Proof. unfold Req_bool. destruct (Req_dec_T x y); intuition discriminate. Qed.

Lemma Rlt_bool_true (x y : R) : Rlt_bool x y = true <-> x < y.
Proof. unfold Rlt_bool. destruct (Rlt_dec x y); intuition discriminate. Qed.

Lemma Rlt_bool_false (x y : R) : Rlt_bool x y = false <-> y <= x.
Proof.
  unfold Rlt_bool. destruct (Rlt_dec x y); split; intros H;
    try discriminate; try reflexivity; lra.
Qed.

Lemma In_distinct_R (l : list R) (x : R) : In x (distinct_R l) <-> In x l.
Proof.
  induction l as [|a l IH]; simpl; [tauto|].
  rewrite filter_In, IH.
  destruct (Req_bool a x) eqn:E; simpl.
  - apply Req_bool_true in E. intuition.
  - apply Req_bool_false in E. intuition.
Qed.

(** [len(set(values)) == 1] holds exactly when all the values are equal. *)
Lemma one_distinct_all_equal (l : list R) :
  l <> [] ->
  (Nat.eqb (List.length (distinct_R l)) 1 = true <-> Spec.all_equal l).
Proof.
  destruct l as [|x t]; [congruence|]. intros _. simpl.
  rewrite Nat.eqb_eq. split.
  - intros Hlen.
    assert (Hnil : filter (fun y => negb (Req_bool x y)) (distinct_R t) = []).
    { destruct (filter _ _); [reflexivity|discriminate]. }
    assert (Hx : forall y, In y t -> y = x).
    { intros y Hy. destruct (Req_dec_T x y) as [->|Hne]; [reflexivity|].
      assert (Hin : In y (filter (fun y => negb (Req_bool x y)) (distinct_R t))).
      { apply filter_In. split; [now apply In_distinct_R|].
        apply Req_bool_false in Hne. now rewrite Hne. }
      rewrite Hnil in Hin. destruct Hin. }
    intros a b [<-|Ha] [<-|Hb]; try reflexivity.
    + symmetry. now apply Hx.
    + now apply Hx.
    + rewrite (Hx a Ha). symmetry. now apply Hx.
  - intros Heq.
    destruct (filter _ _) as [|y f] eqn:Ef; [reflexivity|].
    assert (Hin : In y (filter (fun y => negb (Req_bool x y)) (distinct_R t))).
    { rewrite Ef. now left. }
    apply filter_In in Hin as [Hin Hneq].
    apply (proj1 (In_distinct_R t y)) in Hin.
    assert (x = y) by (apply Heq; simpl; auto).
    apply (proj2 (Req_bool_true x y)) in H. rewrite H in Hneq. discriminate.
Qed.

Lemma constant_R_all_equal (l : list R) :
  constant_R l = true <-> Spec.all_equal l.
Proof.
  destruct l as [|x t]; simpl.
  - split; [intros _ a b []|reflexivity].
  - rewrite forallb_forall. split.
    + intros H.
      assert (Hx : forall y, In y t -> x = y).
      { intros y Hy. apply Req_bool_true. now apply H. }
      intros a b [<-|Ha] [<-|Hb]; try reflexivity.
      * now apply Hx.
      * symmetry. now apply Hx.
      * rewrite <- (Hx a Ha). now apply Hx.
    + intros H y Hy. apply Req_bool_true. apply H; simpl; auto.
Qed.

Lemma arange_length (n : nat) : List.length (arange n) = n.
Proof. unfold arange. now rewrite length_map, length_seq. Qed.

Lemma arange_not_constant (n : nat) : (2 <= n)%nat -> constant_R (arange n) = false.
Proof.
  intros Hn. destruct n as [|[|n]]; try lia.
  unfold arange. simpl.
  assert (H : Req_bool 0 1 = false) by (apply Req_bool_false; lra).
  now rewrite H.
Qed.



(** On a trajectory of at least two values that are not all equal, the
    correlation routine succeeds with the correlation coefficient. *)
Lemma pearsonr_positions (values : list R) :
  (2 <= List.length values)%nat -> ~ Spec.all_equal values ->
  pearsonr (arange (List.length values)) values
  = Ok (Num (clip (-1) 1 (pearson_r (arange (List.length values)) values))).
Proof.
  intros Hlen Hne. unfold pearsonr.
  rewrite arange_length, Nat.eqb_refl. simpl.
  destruct (Nat.ltb (List.length values) 2) eqn:E.
  { apply Nat.ltb_lt in E. lia. }
  rewrite arange_not_constant by assumption.
  destruct (constant_R values) eqn:Ec; [|reflexivity].
  apply constant_R_all_equal in Ec. contradiction.
Qed.



Lemma pearson_r_falling :
  pearson_r (arange (List.length Examples.falling)) Examples.falling = -1.
Proof.
  unfold pearson_r.
  set (xm := map _ (arange _)). set (ym := map _ Examples.falling).
  assert (Hxy : dot xm ym = -1).
  { unfold xm, ym, dot, mean, sum, arange, Examples.falling. simpl. lra. }
  assert (Hxx : dot xm xm = 10).
  { unfold xm, dot, mean, sum, arange, Examples.falling. simpl. lra. }
  assert (Hyy : dot ym ym = / 10).
  { unfold ym, dot, mean, sum, Examples.falling. simpl. lra. }
  rewrite Hxy, Hxx, Hyy, <- sqrt_mult by lra.
  replace (10 * / 10) with 1 by lra. rewrite sqrt_1. lra.
Qed.



(** ** Cosine similarity *)

Lemma dot_self_nonneg (u : list R) : 0 <= dot u u.
Proof.
  unfold dot, sum. induction u as [|x u IH]; simpl; [lra|].
  pose proof (Rle_0_sqr x) as Hx. unfold Rsqr in Hx. lra.
Qed.

Lemma dot_self_pos (u : list R) : np_any u = true -> 0 < dot u u.
Proof.
  unfold np_any. induction u as [|x u IH]; simpl; [discriminate|].
  intros H. pose proof (dot_self_nonneg u) as Hu.
  change (dot (x :: u) (x :: u)) with (x * x + dot u u).
  destruct (Req_bool x 0) eqn:E; simpl in H.
  - specialize (IH H). pose proof (Rle_0_sqr x) as Hx. unfold Rsqr in Hx. lra.
  - apply Req_bool_false in E.
    pose proof (Rsqr_pos_lt x E) as Hx. unfold Rsqr in Hx. lra.
Qed.

Lemma np_any_false (u : list R) :
  (forall x, In x u -> x = 0) -> np_any u = false.
Proof.
  intros H. unfold np_any.
  destruct (existsb _ u) eqn:E; [|reflexivity].
  apply existsb_exists in E as (x & Hx & Hne).
  apply (proj2 (Req_bool_true x 0)) in H; [|exact Hx].
  rewrite H in Hne. discriminate.
Qed.

Lemma sum_Permutation (l l' : list R) : Permutation l l' -> sum l = sum l'.
Proof.
  unfold sum. induction 1; simpl; lra.
Qed.

Lemma dot_map (g1 g2 : string -> R) (ks : list string) :
  dot (map g1 ks) (map g2 ks) = sum (map (fun k => g1 k * g2 k) ks).
Proof.
  unfold dot. induction ks as [|k ks IH]; simpl; [reflexivity|].
  unfold sum in *. simpl. now rewrite IH.
Qed.

Lemma np_any_Permutation (l l' : list R) :
  Permutation l l' -> np_any l = np_any l'.
Proof.
  intros Hp. unfold np_any.
  destruct (existsb _ l) eqn:E; symmetry.
  - apply existsb_exists in E as (x & Hx & Hnz).
    apply existsb_exists. exists x. split; [|exact Hnz].
    now apply (Permutation_in _ Hp).
  - destruct (existsb _ l') eqn:E'; [|reflexivity].
    apply existsb_exists in E' as (x & Hx & Hnz).
    assert (H : existsb (fun x => negb (Req_bool x 0)) l = true).
    { apply existsb_exists. exists x. split; [|exact Hnz].
      now apply (Permutation_in _ (Permutation_sym Hp)). }
    congruence.
Qed.

(** The similarity does not depend on the order in which the union of the
    keys is enumerated. *)
Lemma similarity_over_Permutation (ks ks' : list string)
    (features1 features2 : Dict R) :
  Permutation ks ks' ->
  TIDEAnalyzer.similarity_over ks features1 features2
  = TIDEAnalyzer.similarity_over ks' features1 features2.
Proof.
  intros Hp. unfold TIDEAnalyzer.similarity_over, cosine. cbv zeta.
  rewrite !length_map, !dot_map.
  rewrite (np_any_Permutation _ _
             (Permutation_map (fun f => getd features1 f 0) Hp)).
  rewrite (np_any_Permutation _ _
             (Permutation_map (fun f => getd features2 f 0) Hp)).
  rewrite (Permutation_length Hp).
  rewrite (sum_Permutation _ _
             (Permutation_map
                (fun k => getd features1 k 0 * getd features1 k 0) Hp)).
  rewrite (sum_Permutation _ _
             (Permutation_map
                (fun k => getd features2 k 0 * getd features2 k 0) Hp)).
  rewrite (sum_Permutation _ _
             (Permutation_map
                (fun k => getd features1 k 0 * getd features2 k 0) Hp)).
  reflexivity.
Qed.

(** The distance of a non-zero vector from itself is 0. *)
Lemma cosine_self (u : list R) :
  np_any u = true -> cosine u u = Ok (Num 0).
Proof.
  intros H. pose proof (dot_self_pos u H) as Hpos.
  unfold cosine. rewrite Nat.eqb_refl. simpl.
  assert (Hne : Req_bool (dot u u * dot u u) 0 = false).
  { apply Req_bool_false. nra. }
  rewrite Hne, sqrt_square by lra.
  do 2 f_equal. field. lra.
Qed.

Lemma get_In_keys {V : Type} (d : Dict V) (k : string) (v : V) :
  get d k = Some v -> In k (keys d).
Proof.
  intros H. apply get_Some_In in H.
  change k with (fst (k, v)). now apply in_map.
Qed.




(** ** Coherence *)

(** The similarity that the analyzer computes is the cosine similarity. *)
Lemma calculate_feature_similarity_cosine (features1 features2 : Dict R) :
  TIDEAnalyzer.calculate_feature_similarity features1 features2
  = Spec.cosine_similarity features1 features2.
Proof.
  unfold TIDEAnalyzer.calculate_feature_similarity,
    TIDEAnalyzer.similarity_over, Spec.cosine_similarity,
    TIDEAnalyzer.all_keys.
  set (ks := distinct _).
  change (map (Spec.value features1) ks)
    with (map (fun f => getd features1 f 0) ks).
  change (map (Spec.value features2) ks)
    with (map (fun f => getd features2 f 0) ks).
  set (u := map (fun f => getd features1 f 0) ks).
  set (v := map (fun f => getd features2 f 0) ks).
  destruct (np_any u) eqn:Eu; [|reflexivity].
  destruct (np_any v) eqn:Ev; [|reflexivity].
  simpl. pose proof (dot_self_pos u Eu) as Hu.
  pose proof (dot_self_pos v Ev) as Hv.
  unfold cosine.
  assert (Hlen : Nat.eqb (List.length u) (List.length v) = true).
  { apply Nat.eqb_eq. unfold u, v. now rewrite !length_map. }
  rewrite Hlen. simpl.
  assert (Hne : Req_bool (dot u u * dot v v) 0 = false).
  { apply Req_bool_false. nra. }
  rewrite Hne. unfold Spec.norm. rewrite sqrt_mult by lra.
  pose proof (sqrt_lt_R0 _ Hu). pose proof (sqrt_lt_R0 _ Hv).
  field. split; lra.
Qed.

Lemma filter_all {A : Type} (f : A -> bool) (l : list A) :
  (forall x, In x l -> f x = true) -> filter f l = l.
Proof.
  induction l as [|a l IH]; intros H; simpl; [reflexivity|].
  rewrite (H a (or_introl eq_refl)). f_equal. apply IH.
  intros x Hx. apply H. now right.
Qed.

Lemma filter_lt_shift_row (a : nat) (l : list nat) :
  filter lt_pair (map (pair (S a)) (map S l))
  = map shift_pair (filter lt_pair (map (pair a) l)).
Proof.
  induction l as [|b l IH]; simpl; [reflexivity|].
  change (lt_pair (S a, S b)) with (lt_pair (a, b)).
  destruct (lt_pair (a, b)); simpl; now rewrite IH.
Qed.

Lemma filter_lt_shift (l l' : list nat) :
  filter lt_pair (list_prod (map S l) (0%nat :: map S l'))
  = map shift_pair (filter lt_pair (list_prod l l')).
Proof.
  induction l as [|a l IH]; [reflexivity|].
  change (list_prod (map S (a :: l)) (0%nat :: map S l'))
    with ((S a, 0%nat) :: map (pair (S a)) (map S l')
          ++ list_prod (map S l) (0%nat :: map S l'))%list.
  change (list_prod (a :: l) l')
    with (map (pair a) l' ++ list_prod l l')%list.
  simpl filter at 1. rewrite !filter_app, map_app, IH, filter_lt_shift_row.
  reflexivity.
Qed.

(** The pairs below [n + 1]: position 0 with every later position, then
    the pairs of the later positions. *)
Lemma index_pairs_S (n : nat) :
  Spec.index_pairs (S n)
  = (map (pair 0%nat) (seq 1 n) ++ map shift_pair (Spec.index_pairs n))%list.
Proof.
  unfold Spec.index_pairs. fold lt_pair.
  change (seq 0 (S n)) with (0%nat :: seq 1 n).
  change (list_prod (0%nat :: seq 1 n) (0%nat :: seq 1 n))
    with ((0%nat, 0%nat) :: map (pair 0%nat) (seq 1 n)
          ++ list_prod (seq 1 n) (0%nat :: seq 1 n))%list.
  simpl filter at 1. rewrite filter_app. f_equal.
  - apply filter_all. intros [i j] Hin.
    apply in_map_iff in Hin as (k & [= <- <-] & Hk).
    apply in_seq in Hk. unfold lt_pair. simpl. apply Nat.ltb_lt. lia.
  - rewrite <- seq_shift. apply filter_lt_shift.
Qed.

Lemma index_pairs_spec (n i j : nat) :
  In (i, j) (Spec.index_pairs n) <-> (i < j < n)%nat.
Proof.
  unfold Spec.index_pairs. rewrite filter_In, in_prod_iff, !in_seq.
  simpl. rewrite Nat.ltb_lt. lia.
Qed.

Lemma map_nth_seq {A : Type} (l : list A) (d : A) :
  map (fun j => nth j l d) (seq 0 (List.length l)) = l.
Proof.
  induction l as [|a l IH]; [reflexivity|].
  simpl. f_equal. rewrite <- seq_shift, map_map. exact IH.
Qed.

(** The double loop of [calculate_coherence] visits every unordered pair
    of responses of a task type. *)
Lemma pair_similarities_index_pairs (fvs : list (Dict R)) :
  TIDEAnalyzer.pair_similarities fvs
  = map (fun ij => Spec.cosine_similarity (nth (fst ij) fvs [])
                                          (nth (snd ij) fvs []))
        (Spec.index_pairs (List.length fvs)).
Proof.
  induction fvs as [|x t IH]; [reflexivity|].
  simpl TIDEAnalyzer.pair_similarities. simpl List.length.
  rewrite index_pairs_S, map_app, !map_map, IH. f_equal.
  rewrite <- seq_shift, map_map. simpl.
  rewrite <- (map_nth_seq t []) at 1. rewrite map_map.
  apply map_ext. intros j. apply calculate_feature_similarity_cosine.
Qed.

Lemma calculate_dimensional_alignment_eq (session : Session) :
  TIDEAnalyzer.calculate_dimensional_alignment session
  = Spec.alignment session.
Proof.
  unfold TIDEAnalyzer.calculate_dimensional_alignment, Spec.alignment.
  cbv zeta.
  rewrite (map_ext (fun resp => TIDEAnalyzer.feature_mean
                                  (features resp) TIDEAnalyzer.concrete_features)
                   (fun resp => Spec.concrete_score (features resp)))
    by (intros; apply feature_mean_concrete).
  rewrite (map_ext (fun resp => TIDEAnalyzer.feature_mean
                                  (features resp) TIDEAnalyzer.internal_features)
                   (fun resp => Spec.internal_score (features resp)))
    by (intros; apply feature_mean_internal).
  rewrite (map_ext (fun resp => TIDEAnalyzer.feature_mean
                                  (features resp) TIDEAnalyzer.external_features)
                   (fun resp => Spec.external_score (features resp)))
    by (intros; apply feature_mean_external).
  reflexivity.
Qed.

(** The factor that one task type contributes. *)
Lemma within_task_factor (session : Session) (t : string) :
  match get (responses session) t with
  | Some resps =>
      if Nat.ltb 1 (List.length (map features resps)) then
        match TIDEAnalyzer.pair_similarities (map features resps) with
        | [] => []
        | sim :: sims => [mean (sim :: sims)]
        end
      else []
  | None => []
  end
  = if Nat.leb 2 (List.length (Spec.of_task session t))
    then [Spec.mean_pairwise_similarity (Spec.of_task session t)]
    else [].
Proof.
  unfold Spec.of_task.
  destruct (get (responses session) t) as [resps|]; [|reflexivity].
  rewrite length_map.
  destruct resps as [|x [|y rest]]; try reflexivity.
  change (Nat.ltb 1 (List.length (x :: y :: rest))) with true.
  change (Nat.leb 2 (List.length (x :: y :: rest))) with true.
  cbv iota.
  unfold Spec.mean_pairwise_similarity. cbv zeta.
  rewrite <- (length_map features (x :: y :: rest)).
  rewrite <- pair_similarities_index_pairs.
  destruct (TIDEAnalyzer.pair_similarities (map features (x :: y :: rest)))
    eqn:E; [discriminate E|reflexivity].
Qed.

Lemma calculate_coherence_eq (session : Session) :
  TIDEAnalyzer.calculate_coherence session = Spec.coherence session.
Proof.
  unfold TIDEAnalyzer.calculate_coherence, Spec.coherence,
    Spec.coherence_factors, TIDEAnalyzer.task_order.
  cbv zeta. rewrite calculate_dimensional_alignment_eq.
  rewrite (flat_map_ext _ _ (within_task_factor session)).
  destruct (_ ++ [Spec.alignment session])%list eqn:E; [|reflexivity].
  apply app_eq_nil in E. destruct E as [_ E]. discriminate E.
Qed.



(** ** Further evaluations *)

(** A feature outside the fourteen makes [track_feature_changes] raise. *)
Example track_feature_changes_unknown_feature :
  TIDEAnalyzer.track_feature_changes Examples.unknown_feature_session
  = Raised KeyError.
Proof. reflexivity. Qed.

(** Two responses with one feature each, not the same one: their vectors
    are both [[1]], at distance 0, whereas over the common key set
    [social, space] they are orthogonal, with similarity 0. *)
Example create_feature_rdm_misaligned :
  RSAEngine.create_feature_rdm Examples.disjoint_session
  = Ok [[Num 0; Num 0]; [Num 0; Num 0]]
  /\ Spec.cosine_similarity [("social", 1)] [("space", 1)] = 0.
Proof.
  split.
  - unfold RSAEngine.create_feature_rdm. simpl.
    unfold cosine, dot, sum. simpl.
    change (getd [("social", 1)] "social" 0) with 1.
    change (getd [("space", 1)] "space" 0) with 1.
    assert (E : Req_bool ((1 * 1 + 0) * (1 * 1 + 0)) 0 = false).
    { apply Req_bool_false. lra. }
    rewrite E. simpl.
    replace ((1 * 1 + 0) * (1 * 1 + 0)) with (1 * 1) by lra.
    rewrite sqrt_square by lra.
    replace (1 - (1 * 1 + 0) / 1) with 0 by lra.
    reflexivity.
  - unfold Spec.cosine_similarity, Spec.norm, Spec.value, np_any, dot, sum.
    simpl.
    assert (E0 : Req_bool 0 0 = true) by now apply Req_bool_true.
    assert (E1 : Req_bool 1 0 = false) by (apply Req_bool_false; lra).
    rewrite E0, E1. simpl. lra.
Qed.

(** The trajectories of the specification's examples. *)
Example trend_of_falling :
  TIDEAnalyzer.calculate_trend Examples.falling = "decreasing".
Proof.
  assert (Hne : ~ Spec.all_equal Examples.falling).
  { intros H.
    specialize (H 0.5 0.4 (or_introl eq_refl) (or_intror (or_introl eq_refl))).
    lra. }
  assert (Hlen : (2 <= List.length Examples.falling)%nat) by (simpl; lia).
  assert (Hd : Nat.eqb (List.length (distinct_R Examples.falling)) 1 = false).
  { destruct (Nat.eqb _ 1) eqn:E; [|reflexivity].
    apply one_distinct_all_equal in E; [contradiction|discriminate]. }
  unfold TIDEAnalyzer.calculate_trend, TIDEAnalyzer.calculate_trend_with.
  rewrite Hd, (pearsonr_positions _ Hlen Hne), pearson_r_falling.
  change (Nat.ltb (List.length Examples.falling) 2) with false. cbv iota.
  assert (Hup : Rlt_bool 0.3 (clip (-1) 1 (-1)) = false).
  { apply Rlt_bool_false. unfold clip, Rmax, Rmin.
    destruct (Rle_dec (-1) 1); destruct (Rle_dec (-1) _); lra. }
  assert (Hdown : Rlt_bool (clip (-1) 1 (-1)) (-0.3) = true).
  { apply Rlt_bool_true. unfold clip, Rmax, Rmin.
    destruct (Rle_dec (-1) 1); destruct (Rle_dec (-1) _); lra. }
  now rewrite Hup, Hdown.
Qed.

Example trend_of_level :
  TIDEAnalyzer.calculate_trend Examples.level = "stable".
Proof.
  assert (Heq : Spec.all_equal Examples.level).
  { intros a b Ha Hb. simpl in Ha, Hb.
    repeat (destruct Ha as [<-|Ha]; [|]); try contradiction;
      repeat (destruct Hb as [<-|Hb]; [|]); try contradiction; reflexivity. }
  apply one_distinct_all_equal in Heq; [|discriminate].
  unfold TIDEAnalyzer.calculate_trend, TIDEAnalyzer.calculate_trend_with.
  rewrite Heq. reflexivity.
Qed.

(** * Further properties of the analyzer *)

(** ** Feature trajectories, in general *)

Lemma for_each_app {A B : Type} (f : A -> B -> result A) (l1 l2 : list B)
    (acc : A) :
  for_each f (l1 ++ l2) acc = bind (for_each f l1 acc) (for_each f l2).
Proof.
  revert acc. induction l1 as [|x l1 IH]; intros acc; simpl; [reflexivity|].
  destruct (f acc x) as [acc'|e]; simpl; [apply IH|reflexivity].
Qed.

Lemma for_each_nested {A B C : Type} (g : A -> C -> result A)
    (h : B -> list C) (l : list B) (acc : A) :
  for_each (fun a x => for_each g (h x) a) l acc
  = for_each g (flat_map h l) acc.
Proof.
  revert acc. induction l as [|x l IH]; intros acc; simpl; [reflexivity|].
  rewrite for_each_app.
  destruct (for_each g (h x) acc) as [acc'|e]; simpl; [apply IH|reflexivity].
Qed.

Lemma contains_true_get {V : Type} (d : Dict V) (k : string) :
  contains d k = true -> exists v, get d k = Some v.
Proof.
  unfold contains. destruct (get d k) as [v|]; [eauto|discriminate].
Qed.

Lemma carried_cons (f : string) (k : string) (v : R) (items : Dict R) :
  carried f ((k, v) :: items)
  = ((if String.eqb k f then [v] else []) ++ carried f items)%list.
Proof.
  unfold carried. simpl. now destruct (String.eqb k f).
Qed.

(** Appending a list of items whose keys are all present succeeds, keeps
    the keys and extends each trajectory by the values of its feature. *)
Lemma append_all_ok (items : Dict R) (trajs : Dict (list R)) :
  (forall item, In item items -> contains trajs (fst item) = true) ->
  exists trajs',
    for_each TIDEAnalyzer.append_value items trajs = Ok trajs'
    /\ keys trajs' = keys trajs
    /\ forall f, getd trajs' f [] = (getd trajs f [] ++ carried f items)%list.
Proof.
  revert trajs. induction items as [|[k v] items IH]; intros trajs Hin.
  - exists trajs. simpl. repeat split. intros f. unfold carried. simpl.
    now rewrite app_nil_r.
  - assert (Hk : contains trajs k = true) by (apply (Hin (k, v)); now left).
    destruct (contains_true_get _ _ Hk) as [l Hl].
    set (trajs1 := dict_set trajs k (l ++ [v])%list).
    assert (Hkeys : keys trajs1 = keys trajs).
    { unfold trajs1. now rewrite keys_dict_set, Hk. }
    destruct (IH trajs1) as (trajs' & Hrun & Hkeys' & Hget).
    { intros item Hitem. rewrite contains_In_keys, Hkeys, <- contains_In_keys.
      apply Hin. now right. }
    exists trajs'. split; [|split].
    + simpl. unfold TIDEAnalyzer.append_value at 1. simpl. rewrite Hl.
      simpl. exact Hrun.
    + now rewrite Hkeys'.
    + intros f. rewrite Hget, carried_cons, app_assoc. f_equal.
      unfold trajs1, getd.
      destruct (String.eqb k f) eqn:E.
      * apply String.eqb_eq in E. subst f.
        now rewrite get_dict_set_same, Hl.
      * apply String.eqb_neq in E.
        rewrite get_dict_set_other by assumption. now rewrite app_nil_r.
Qed.

(** Appending a list of items one of whose keys is absent raises. *)
Lemma append_all_raises (items : Dict R) (trajs : Dict (list R)) :
  (exists item, In item items /\ contains trajs (fst item) = false) ->
  for_each TIDEAnalyzer.append_value items trajs = Raised KeyError.
Proof.
  revert trajs. induction items as [|[k v] items IH]; intros trajs Hbad.
  - destruct Hbad as (item & [] & _).
  - simpl. unfold TIDEAnalyzer.append_value at 1. simpl.
    destruct (get trajs k) as [l|] eqn:Hl; simpl; [|reflexivity].
    apply IH. destruct Hbad as (item & [<-|Hin] & Hc).
    + unfold contains in Hc. simpl in Hc. rewrite Hl in Hc. discriminate.
    + exists item. split; [exact Hin|].
      rewrite contains_In_keys, keys_dict_set in *.
      unfold contains. now rewrite Hl.
Qed.

Lemma keys_initial_trajectories :
  keys (map (fun feature : string => (feature, @nil R)) canonical_features)
  = canonical_features.
Proof. reflexivity. Qed.

Lemma canonical_features_NoDup : NoDup canonical_features.
Proof.
  unfold canonical_features. simpl.
  repeat constructor; simpl; intuition discriminate.
Qed.

Lemma flattened_items (session : Session) :
  flat_map (fun tr : string * Response => features (snd tr))
           (TIDEAnalyzer.responses_in_order session)
  = flat_map features (Spec.flattened session).
Proof.
  rewrite flattened_in_order.
  induction (TIDEAnalyzer.responses_in_order session) as [|tr l IH];
    simpl; [reflexivity|now rewrite IH].
Qed.

Lemma carried_flat_map (f : string) (resps : list Response) :
  carried f (flat_map features resps)
  = flat_map (fun resp => carried f (features resp)) resps.
Proof.
  unfold carried. induction resps as [|resp resps IH]; simpl; [reflexivity|].
  now rewrite filter_app, map_app, IH.
Qed.

Lemma getd_initial_trajectories (f : string) :
  getd (map (fun feature : string => (feature, @nil R)) canonical_features)
       f [] = [].
Proof.
  unfold getd.
  induction canonical_features as [|g l IH]; simpl; [reflexivity|].
  now destruct (String.eqb g f).
Qed.

(** What [track_feature_changes] returns when every key is one of the
    fourteen. *)
Lemma track_feature_changes_ok (session : Session) :
  (forall resp k, In resp (Spec.flattened session) ->
                  In k (keys (features resp)) -> In k canonical_features) ->
  exists trajs,
    TIDEAnalyzer.track_feature_changes session = Ok trajs
    /\ keys (trajectories trajs) = canonical_features
    /\ (forall f, getd (trajectories trajs) f []
                  = flat_map (fun resp => carried f (features resp))
                             (Spec.flattened session))
    /\ stability trajs
       = map (fun ft => (fst ft, TIDEAnalyzer.stability_of (snd ft)))
             (filter (fun ft => Nat.ltb 1 (List.length (snd ft)))
                     (trajectories trajs)).
Proof.
  intros Hcanon. unfold TIDEAnalyzer.track_feature_changes.
  fold canonical_features. cbv zeta.
  rewrite for_each_nested, flattened_items.
  destruct (append_all_ok (flat_map features (Spec.flattened session))
              (map (fun feature : string => (feature, @nil R))
                   canonical_features))
    as (trajs' & Hrun & Hkeys & Hget).
  { intros [k v] Hitem. rewrite contains_In_keys, keys_initial_trajectories.
    apply mem_In. apply in_flat_map in Hitem as (resp & Hresp & Hkv).
    apply (Hcanon resp k Hresp).
    change k with (fst (k, v)). now apply in_map. }
  rewrite Hrun. simpl. eexists. split; [reflexivity|]. simpl.
  split; [now rewrite Hkeys, keys_initial_trajectories|].
  split; [|reflexivity].
  intros f. now rewrite Hget, getd_initial_trajectories, carried_flat_map.
Qed.

Lemma forallb_false_exists {A : Type} (f : A -> bool) (l : list A) :
  forallb f l = false -> exists x, In x l /\ f x = false.
Proof.
  induction l as [|a l IH]; simpl; [discriminate|].
  destruct (f a) eqn:E; simpl.
  - intros H. destruct (IH H) as (x & Hx & Hf). exists x. auto.
  - intros _. exists a. auto.
Qed.

(** The two outcomes of [track_feature_changes]. *)
Lemma track_feature_changes_cases (session : Session) :
  ((forall resp k, In resp (Spec.flattened session) ->
                   In k (keys (features resp)) -> In k canonical_features)
   /\ exists trajs,
        TIDEAnalyzer.track_feature_changes session = Ok trajs
        /\ keys (trajectories trajs) = canonical_features
        /\ (forall f, getd (trajectories trajs) f []
                      = flat_map (fun resp => carried f (features resp))
                                 (Spec.flattened session))
        /\ stability trajs
           = map (fun ft => (fst ft, TIDEAnalyzer.stability_of (snd ft)))
                 (filter (fun ft => Nat.ltb 1 (List.length (snd ft)))
                         (trajectories trajs)))
  \/ ((exists resp k, In resp (Spec.flattened session)
                      /\ In k (keys (features resp))
                      /\ ~ In k canonical_features)
      /\ TIDEAnalyzer.track_feature_changes session = Raised KeyError).
Proof.
  destruct (forallb (fun resp => forallb (fun k => mem k canonical_features)
                                         (keys (features resp)))
                    (Spec.flattened session)) eqn:E.
  - left. rewrite forallb_forall in E.
    assert (H : forall resp k, In resp (Spec.flattened session) ->
                  In k (keys (features resp)) -> In k canonical_features).
    { intros resp k Hresp Hk. specialize (E resp Hresp).
      rewrite forallb_forall in E. apply mem_In. now apply E. }
    split; [exact H|]. now apply track_feature_changes_ok.
  - right. apply forallb_false_exists in E as (resp & Hresp & E).
    apply forallb_false_exists in E as (k & Hk & E).
    assert (Hnot : ~ In k canonical_features).
    { intros Hin. apply (proj2 (mem_In k canonical_features)) in Hin.
      congruence. }
    split; [exists resp, k; auto|].
    unfold TIDEAnalyzer.track_feature_changes. fold canonical_features.
    cbv zeta. rewrite for_each_nested, flattened_items.
    rewrite append_all_raises; [reflexivity|].
    apply in_map_iff in Hk as ([k' v] & Hfst & Hitem). simpl in Hfst. subst k'.
    exists (k, v). split.
    + apply in_flat_map. exists resp. auto.
    + rewrite contains_In_keys, keys_initial_trajectories. exact E.
Qed.

(** X1: [track_feature_changes] raises [KeyError] exactly when a response
    of one of the three task types has a feature that is not one of the
    fourteen; otherwise it returns a trajectory for each of the fourteen
    features, in their fixed order. *)
Theorem track_feature_changes_raises_iff (session : Session) :
  (TIDEAnalyzer.track_feature_changes session = Raised KeyError
   <-> exists resp k, In resp (Spec.flattened session)
                      /\ In k (keys (features resp))
                      /\ ~ In k canonical_features)
  /\ ((exists trajs,
         TIDEAnalyzer.track_feature_changes session = Ok trajs
         /\ keys (trajectories trajs) = canonical_features)
      <-> forall resp k, In resp (Spec.flattened session) ->
                         In k (keys (features resp)) ->
                         In k canonical_features).
Proof.
  destruct (track_feature_changes_cases session)
    as [[Hall (trajs & Hok & Hkeys & _)] | [Hbad Hraise]].
  - split; split.
    + rewrite Hok. discriminate.
    + intros (resp & k & Hresp & Hk & Hnot). exfalso. eauto.
    + intros _. exact Hall.
    + intros _. eauto.
  - split; split.
    + intros _. exact Hbad.
    + intros _. exact Hraise.
    + intros (trajs & Hok & _). rewrite Hraise in Hok. discriminate.
    + intros Hall. destruct Hbad as (resp & k & Hresp & Hk & Hnot).
      exfalso. eauto.
Qed.

(** On the session of [test_fix.py], whose responses have four of the
    fourteen features, the tracking succeeds. *)
Lemma track_feature_changes_raises_iff_witness :
  exists trajs,
    TIDEAnalyzer.track_feature_changes Examples.test_session = Ok trajs
    /\ keys (trajectories trajs) = canonical_features.
Proof.
  apply (proj2 (proj2 (track_feature_changes_raises_iff Examples.test_session))).
  intros resp k Hr Hk. simpl in Hr.
  destruct Hr as [<-|[<-|[]]]; simpl in Hk;
    repeat (destruct Hk as [<-|Hk]; [simpl; tauto|]); destruct Hk.
Defined.

(** X2: when [track_feature_changes] succeeds, the trajectory of a feature
    holds the values of that feature in the responses that carry it, in
    flattening order; a response that lacks the feature contributes
    nothing, so a trajectory is never longer than the number of items of
    that feature. *)
Theorem trajectory_of_carried_values (session : Session) (trajs : Trajectories)
    (f : string) :
  TIDEAnalyzer.track_feature_changes session = Ok trajs ->
  In f canonical_features ->
  get (trajectories trajs) f
  = Some (flat_map (fun resp => carried f (features resp))
                   (Spec.flattened session)).
Proof.
  intros Hok Hf.
  destruct (track_feature_changes_cases session)
    as [[_ (trajs' & Hok' & Hkeys & Hget & _)] | [_ Hraise]].
  - rewrite Hok in Hok'. injection Hok' as <-.
    specialize (Hget f). unfold getd in Hget.
    destruct (get (trajectories trajs) f) as [l|] eqn:E; [now rewrite Hget|].
    apply get_None_not_In in E. rewrite Hkeys in E. contradiction.
  - rewrite Hraise in Hok. discriminate.
Qed.

Lemma carried_present (f : string) (fv : Dict R) (v : R) :
  NoDup (keys fv) -> get fv f = Some v -> carried f fv = [v].
Proof.
  induction fv as [|[k w] fv IH]; simpl; [discriminate|].
  intros Hnd Hget. inversion Hnd as [|? ? Hnotin Hnd']; subst.
  rewrite carried_cons.
  destruct (String.eqb k f) eqn:E.
  - injection Hget as ->. apply String.eqb_eq in E. subst k.
    assert (Hnone : carried f fv = []).
    { unfold carried. clear IH Hnd Hnd'.
      induction fv as [|[k' w'] fv IH]; simpl; [reflexivity|].
      simpl in Hnotin.
      destruct (String.eqb k' f) eqn:E'.
      - apply String.eqb_eq in E'. subst k'. exfalso. apply Hnotin. now left.
      - apply IH. intros H. apply Hnotin. now right. }
    now rewrite Hnone.
  - simpl. now apply IH.
Qed.

(** X3: when every response carries each of the fourteen features once and
    nothing else, as the collector builds them, every trajectory has one
    value per response: the value of the feature in that response. *)
Theorem trajectories_of_full_vectors (session : Session) :
  (forall resp, In resp (Spec.flattened session) ->
     NoDup (keys (features resp))
     /\ forall k, In k (keys (features resp)) <-> In k canonical_features) ->
  exists trajs,
    TIDEAnalyzer.track_feature_changes session = Ok trajs
    /\ forall f, In f canonical_features ->
         get (trajectories trajs) f
         = Some (map (fun resp => Spec.value (features resp) f)
                     (Spec.flattened session)).
Proof.
  intros Hfull.
  destruct (track_feature_changes_ok session)
    as (trajs & Hok & Hkeys & Hget & _).
  { intros resp k Hresp Hk. now apply (Hfull resp Hresp). }
  exists trajs. split; [exact Hok|]. intros f Hf.
  specialize (Hget f). unfold getd in Hget.
  destruct (get (trajectories trajs) f) as [l|] eqn:E.
  - rewrite Hget. f_equal.
    assert (H : forall resps,
               (forall resp, In resp resps -> In resp (Spec.flattened session)) ->
               flat_map (fun resp => carried f (features resp)) resps
               = map (fun resp => Spec.value (features resp) f) resps).
    { induction resps as [|resp resps IH]; intros Hin; [reflexivity|].
      simpl. rewrite IH by (intros r Hr; apply Hin; now right).
      destruct (Hfull resp (Hin resp (or_introl eq_refl))) as [Hnd Hk].
      unfold Spec.value.
      destruct (get (features resp) f) as [v|] eqn:Ev.
      - now rewrite (carried_present f _ v Hnd Ev).
      - apply get_None_not_In in Ev. exfalso. apply Ev. now apply Hk. }
    apply H. auto.
  - apply get_None_not_In in E. rewrite Hkeys in E. contradiction.
Qed.

(** On the session of [test_fix.py] and the feature visual. *)
Lemma trajectory_of_carried_values_witness :
  exists trajs,
    TIDEAnalyzer.track_feature_changes Examples.test_session = Ok trajs
    /\ get (trajectories trajs) "visual" = Some [0.5; 0.7].
Proof.
  eexists. split; [reflexivity|].
  apply (trajectory_of_carried_values Examples.test_session _ "visual").
  - reflexivity.
  - unfold canonical_features. simpl. auto 20.
Defined.

Lemma full_session_full :
  forall resp, In resp (Spec.flattened Examples.full_session) ->
    NoDup (keys (features resp))
    /\ forall k, In k (keys (features resp)) <-> In k canonical_features.
Proof.
  intros resp [<-|[<-|[<-|[]]]]; (split; [exact canonical_features_NoDup|]);
    intros k; reflexivity.
Qed.

(** On a session of three responses with full feature vectors. *)
Lemma trajectories_of_full_vectors_witness :
  exists trajs,
    TIDEAnalyzer.track_feature_changes Examples.full_session = Ok trajs
    /\ get (trajectories trajs) "space"
       = Some (map (fun resp => Spec.value (features resp) "space")
                   (Spec.flattened Examples.full_session)).
Proof.
  destruct (trajectories_of_full_vectors Examples.full_session
              full_session_full) as (trajs & Hok & Hget).
  exists trajs. split; [exact Hok|]. apply Hget.
  unfold canonical_features. simpl. auto 20.
Defined.

(** ** Stability metrics *)

Lemma not_In_get_None {V : Type} (d : Dict V) (k : string) :
  ~ In k (keys d) -> get d k = None.
Proof.
  intros H. destruct (get d k) as [v|] eqn:E; [|reflexivity].
  exfalso. apply H. now apply (get_In_keys d k v).
Qed.

Lemma keys_map_filter_incl {V W : Type} (g : V -> W) (p : V -> bool)
    (d : Dict V) (k : string) :
  In k (keys (map (fun kv => (fst kv, g (snd kv)))
                  (filter (fun kv => p (snd kv)) d))) ->
  In k (keys d).
Proof.
  unfold keys. rewrite map_map. simpl. intros H.
  apply in_map_iff in H as (kv & <- & Hkv). apply filter_In in Hkv as [Hkv _].
  now apply in_map.
Qed.

(** Looking up a key in a filtered and mapped dictionary. *)
Lemma get_map_filter {V W : Type} (g : V -> W) (p : V -> bool) (d : Dict V)
    (k : string) :
  NoDup (keys d) ->
  get (map (fun kv => (fst kv, g (snd kv))) (filter (fun kv => p (snd kv)) d)) k
  = match get d k with
    | Some v => if p v then Some (g v) else None
    | None => None
    end.
Proof.
  induction d as [|[k0 v0] d IH]; intros Hnd; [reflexivity|].
  inversion Hnd as [|? ? Hnotin Hnd']; subst. simpl.
  destruct (String.eqb k0 k) eqn:E.
  - apply String.eqb_eq in E. subst k0.
    destruct (p v0); simpl.
    + now rewrite String.eqb_refl.
    + apply not_In_get_None. intros H. apply Hnotin.
      now apply (keys_map_filter_incl g p d k).
  - destruct (p v0); simpl; [rewrite E|]; now apply IH.
Qed.

Lemma fold_left_Rmax_ge (l : list R) (x : R) : x <= fold_left Rmax l x.
Proof.
  revert x. induction l as [|a l IH]; intros x; simpl; [lra|].
  eapply Rle_trans; [apply (Rmax_l x a)|apply IH].
Qed.

Lemma fold_left_Rmin_le (l : list R) (x : R) : fold_left Rmin l x <= x.
Proof.
  revert x. induction l as [|a l IH]; intros x; simpl; [lra|].
  eapply Rle_trans; [apply IH|apply (Rmin_l x a)].
Qed.

Lemma min_of_le_max_of (l : list R) : min_of l <= max_of l.
Proof.
  destruct l as [|x l]; simpl; [lra|].
  eapply Rle_trans; [apply fold_left_Rmin_le|apply fold_left_Rmax_ge].
Qed.

Lemma calculate_trend_defined (values : list R) :
  (2 <= List.length values)%nat ->
  TIDEAnalyzer.calculate_trend values = "increasing"
  \/ TIDEAnalyzer.calculate_trend values = "decreasing"
  \/ TIDEAnalyzer.calculate_trend values = "stable".
Proof.
  intros Hlen.
  unfold TIDEAnalyzer.calculate_trend, TIDEAnalyzer.calculate_trend_with.
  assert (Hlt : Nat.ltb (List.length values) 2 = false)
    by now apply Nat.ltb_ge.
  rewrite Hlt. destruct (Nat.eqb _ 1); [auto|].
  destruct (pearsonr _ values) as [[r|]|e]; auto.
  destruct (Rlt_bool 0.3 r); [auto|]. destruct (Rlt_bool r (-0.3)); auto.
Qed.

(** X4: a feature has stability metrics exactly when its trajectory has at
    least two values; the metrics have a non-negative standard deviation
    and range, and a trend that is increasing, decreasing or stable, never
    unknown. *)
Theorem stability_entries (session : Session) (trajs : Trajectories)
    (f : string) (trajectory : list R) :
  TIDEAnalyzer.track_feature_changes session = Ok trajs ->
  get (trajectories trajs) f = Some trajectory ->
  ((List.length trajectory < 2)%nat -> get (stability trajs) f = None)
  /\ ((2 <= List.length trajectory)%nat ->
      exists metrics,
        get (stability trajs) f = Some metrics
        /\ stab_mean metrics = mean trajectory
        /\ 0 <= stab_std metrics
        /\ stab_range metrics = max_of trajectory - min_of trajectory
        /\ 0 <= stab_range metrics
        /\ (stab_trend metrics = "increasing"
            \/ stab_trend metrics = "decreasing"
            \/ stab_trend metrics = "stable")).
Proof.
  intros Hok Hget.
  destruct (track_feature_changes_cases session)
    as [[_ (trajs' & Hok' & Hkeys & _ & Hstab)] | [_ Hraise]];
    [|rewrite Hraise in Hok; discriminate].
  rewrite Hok in Hok'. injection Hok' as <-.
  assert (Hnd : NoDup (keys (trajectories trajs))).
  { rewrite Hkeys. exact canonical_features_NoDup. }
  rewrite Hstab.
  rewrite (get_map_filter TIDEAnalyzer.stability_of
             (fun l => Nat.ltb 1 (List.length l)) _ f Hnd), Hget.
  split.
  - intros Hlt.
    assert (E : Nat.ltb 1 (List.length trajectory) = false)
      by (apply Nat.ltb_ge; lia).
    now rewrite E.
  - intros Hge.
    assert (E : Nat.ltb 1 (List.length trajectory) = true)
      by (apply Nat.ltb_lt; lia).
    rewrite E.
    eexists. split; [reflexivity|]. simpl.
    split; [reflexivity|]. split; [apply sqrt_pos|].
    split; [reflexivity|].
    split; [pose proof (min_of_le_max_of trajectory); lra|].
    now apply calculate_trend_defined.
Qed.

(** On the session of [test_fix.py]: visual has two values, space none. *)
Lemma stability_entries_witness :
  exists trajs,
    TIDEAnalyzer.track_feature_changes Examples.test_session = Ok trajs
    /\ get (stability trajs) "space" = None
    /\ exists metrics,
         get (stability trajs) "visual" = Some metrics
         /\ 0 <= stab_range metrics.
Proof.
  eexists. split; [reflexivity|]. split.
  - apply (proj1 (stability_entries Examples.test_session _ "space" []
                    eq_refl eq_refl)).
    simpl. lia.
  - destruct (proj2 (stability_entries Examples.test_session _ "visual"
                       [0.5; 0.7] eq_refl eq_refl))
      as (metrics & Hm & _ & _ & _ & Hr & _); [simpl; lia|].
    exists metrics. split; assumption.
Defined.

(** ** Pattern evolution, in general *)

Lemma transitions_of_shifts (l : list (string * Response)) :
  map pattern_change (TIDEAnalyzer.consecutive_shifts (map tag_pair l))
  = TIDEAnalyzer.transitions_of
      (map (fun tr : string * Response => (pattern (snd tr), fst tr)) l).
Proof.
  induction l as [|a [|b t] IH]; try reflexivity.
  change (map tag_pair (a :: b :: t))
    with (tag_pair a :: map tag_pair (b :: t)).
  change (map (fun tr : string * Response => (pattern (snd tr), fst tr))
              (a :: b :: t))
    with ((pattern (snd a), fst a)
          :: map (fun tr : string * Response => (pattern (snd tr), fst tr))
                 (b :: t)).
  simpl TIDEAnalyzer.consecutive_shifts.
  simpl TIDEAnalyzer.transitions_of.
  simpl map at 1. f_equal. exact IH.
Qed.

(** X5: the transitions of the pattern summary are the pattern changes of
    the dimensional shifts of the same session, one per adjacent pair of
    responses. *)
Theorem transitions_are_pattern_changes (session : Session) :
  transitions (TIDEAnalyzer.analyze_pattern_signatures session)
  = map pattern_change
        (fst (TIDEAnalyzer.calculate_dimensional_shifts session))
  /\ List.length (transitions (TIDEAnalyzer.analyze_pattern_signatures session))
     = (List.length (Spec.flattened session) - 1)%nat.
Proof.
  assert (H : transitions (TIDEAnalyzer.analyze_pattern_signatures session)
              = map pattern_change
                    (fst (TIDEAnalyzer.calculate_dimensional_shifts session))).
  { rewrite shifts_of_flattened, transitions_of_shifts. reflexivity. }
  split; [exact H|].
  rewrite H, length_map, shifts_of_flattened, consecutive_shifts_length,
    flattened_in_order, !length_map.
  reflexivity.
Qed.

Lemma list_sum_count_step (d : Dict nat) (k : string) :
  list_sum (values (count_step d k)) = (list_sum (values d) + 1)%nat.
Proof.
  unfold count_step, values, getd.
  induction d as [|[k' v'] d IH]; simpl; [reflexivity|].
  destruct (String.eqb k' k) eqn:E; simpl; [lia|].
  rewrite IH. lia.
Qed.

Lemma list_sum_count_all (l : list string) :
  list_sum (values (TIDEAnalyzer.count_all l)) = List.length l.
Proof.
  induction l as [|x l IH] using rev_ind; [reflexivity|].
  rewrite count_all_snoc, list_sum_count_step, IH, length_app. simpl. lia.
Qed.

(** X6: the transition frequencies form a histogram of the transitions:
    its keys are the distinct transitions, each with its number of
    occurrences (at least 1), and the frequencies add up to the number of
    transitions. *)
Theorem transition_frequencies_histogram (session : Session) :
  let summary := TIDEAnalyzer.analyze_pattern_signatures session in
  NoDup (keys (transition_frequencies summary))
  /\ (forall t, In t (keys (transition_frequencies summary))
                <-> In t (transitions summary))
  /\ (forall t, getd (transition_frequencies summary) t 0%nat
                = count_occ string_dec (transitions summary) t)
  /\ (forall t, In t (transitions summary) ->
                (1 <= getd (transition_frequencies summary) t 0)%nat)
  /\ list_sum (values (transition_frequencies summary))
     = List.length (transitions summary).
Proof.
  cbv zeta. unfold TIDEAnalyzer.analyze_pattern_signatures.
  cbn [transition_frequencies transitions].
  set (ts := TIDEAnalyzer.transitions_of _).
  split; [rewrite keys_count_all; apply NoDup_distinct|].
  split; [intros t; rewrite keys_count_all; apply In_distinct|].
  split; [intros t; apply getd_count_all|].
  split; [|apply list_sum_count_all].
  intros t Hin. rewrite getd_count_all. unfold Spec.occurrences.
  now apply (proj1 (count_occ_In string_dec ts t)) in Hin.
Qed.

Lemma distinct_length_le (l : list string) :
  (List.length (distinct l) <= List.length l)%nat.
Proof.
  apply NoDup_incl_length; [apply NoDup_distinct|].
  intros x Hx. now apply In_distinct.
Qed.

(** X7: the pattern diversity is at most the number of responses and at
    least 1 when there is a response; a session without responses has
    diversity 0, no transition, and the dominant pattern ["None"]. *)
Theorem pattern_diversity_bounds (session : Session) :
  let summary := TIDEAnalyzer.analyze_pattern_signatures session in
  (pattern_diversity summary <= List.length (Spec.flattened session))%nat
  /\ (Spec.flattened session <> [] -> (1 <= pattern_diversity summary)%nat)
  /\ (Spec.flattened session = [] ->
      pattern_diversity summary = 0%nat
      /\ transitions summary = []
      /\ transition_frequencies summary = []
      /\ dominant_pattern summary = "None").
Proof.
  cbv zeta. unfold TIDEAnalyzer.analyze_pattern_signatures.
  cbn [pattern_diversity transitions transition_frequencies dominant_pattern].
  rewrite labels_in_order. unfold Spec.labels.
  repeat split.
  - rewrite <- (length_map pattern (Spec.flattened session)).
    apply distinct_length_le.
  - intros Hne. destruct (Spec.flattened session) as [|r l]; [congruence|].
    simpl. lia.
  - now rewrite H.
  - rewrite flattened_in_order in H.
    destruct (TIDEAnalyzer.responses_in_order session); [reflexivity|].
    discriminate H.
  - rewrite flattened_in_order in H.
    destruct (TIDEAnalyzer.responses_in_order session); [reflexivity|].
    discriminate H.
  - now rewrite H.
Qed.

(** On the session of [test_fix.py] and on the session without
    responses. *)
Lemma pattern_diversity_bounds_witness :
  (1 <= pattern_diversity
          (TIDEAnalyzer.analyze_pattern_signatures Examples.test_session))%nat
  /\ dominant_pattern
       (TIDEAnalyzer.analyze_pattern_signatures Examples.empty_session)
     = "None".
Proof.
  split.
  - apply (proj1 (proj2 (pattern_diversity_bounds Examples.test_session))).
    discriminate.
  - apply (proj2 (proj2 (pattern_diversity_bounds Examples.empty_session))).
    reflexivity.
Defined.

(** ** The dimensional shifts, in general *)

Lemma dict_set_same_value {V : Type} (d : Dict V) (k : string) (v : V) :
  get d k = Some v -> dict_set d k v = d.
Proof.
  induction d as [|[k' v'] d IH]; simpl; [discriminate|].
  destruct (String.eqb k' k) eqn:E.
  - intros [= ->]. reflexivity.
  - intros H. now rewrite IH.
Qed.

(** On a session whose responses already carry their task type the first
    loop changes nothing. *)
Lemma collect_tagged_fixed (tasks : list string) (resps : Dict (list Response)) :
  (forall t l, In t tasks -> get resps t = Some l ->
               map (fun resp => set_task_type resp t) l = l) ->
  TIDEAnalyzer.collect_tagged tasks resps
  = (flat_map (fun t => getd resps t []) tasks, resps).
Proof.
  induction tasks as [|t ts IH]; intros Hfix; [reflexivity|].
  simpl. unfold getd at 1.
  destruct (get resps t) as [l|] eqn:E.
  - rewrite (Hfix t l (or_introl eq_refl) E).
    rewrite (dict_set_same_value resps t l E).
    rewrite IH by (intros t' l' Ht'; apply Hfix; now right).
    reflexivity.
  - rewrite IH by (intros t' l' Ht'; apply Hfix; now right).
    reflexivity.
Qed.

(** X8: [calculate_dimensional_shifts] is idempotent on the session: on
    the session that a first call leaves behind, a second call returns the
    same shifts and changes nothing. *)
Theorem calculate_dimensional_shifts_idempotent (session : Session) :
  TIDEAnalyzer.calculate_dimensional_shifts
    (snd (TIDEAnalyzer.calculate_dimensional_shifts session))
  = TIDEAnalyzer.calculate_dimensional_shifts session.
Proof.
  unfold TIDEAnalyzer.calculate_dimensional_shifts.
  pose proof (collect_tagged_fst TIDEAnalyzer.task_order (responses session)
                task_order_NoDup) as Hfst.
  pose proof (fun t => collect_tagged_snd TIDEAnalyzer.task_order
                         (responses session) t task_order_NoDup) as Hsnd.
  destruct (TIDEAnalyzer.collect_tagged TIDEAnalyzer.task_order
              (responses session)) as [all_responses resps'].
  cbn [fst snd] in Hfst, Hsnd. cbn [fst snd responses set_responses].
  assert (Hin : forall t, In t TIDEAnalyzer.task_order ->
            get resps' t
            = option_map (map (fun resp => set_task_type resp t))
                         (get (responses session) t)).
  { intros t Ht. rewrite Hsnd.
    apply (proj2 (mem_In t TIDEAnalyzer.task_order)) in Ht. now rewrite Ht. }
  rewrite collect_tagged_fixed.
  - f_equal. f_equal. rewrite Hfst.
    apply flat_map_ext_In. intros t Ht. unfold getd. rewrite (Hin t Ht).
    now destruct (get (responses session) t).
  - intros t l Ht Hl. rewrite (Hin t Ht) in Hl.
    destruct (get (responses session) t) as [l0|]; [|discriminate].
    injection Hl as <-. rewrite map_map. reflexivity.
Qed.

Lemma keys_collect_tagged (tasks : list string) (resps : Dict (list Response)) :
  keys (snd (TIDEAnalyzer.collect_tagged tasks resps)) = keys resps.
Proof.
  revert resps. induction tasks as [|t ts IH]; intros resps; [reflexivity|].
  simpl. destruct (get resps t) as [l|] eqn:E; [|apply IH].
  specialize (IH (dict_set resps t (map (fun resp => set_task_type resp t) l))).
  destruct (TIDEAnalyzer.collect_tagged ts _) as [rest resps'].
  simpl in *. rewrite IH, keys_dict_set. unfold contains. now rewrite E.
Qed.

Lemma same_content_tagged (t : string) (l : list Response) :
  Forall2 same_content l (map (fun resp => set_task_type resp t) l).
Proof.
  induction l as [|resp l IH]; constructor; [|exact IH].
  unfold same_content. simpl. auto.
Qed.

Lemma same_content_refl (l : list Response) : Forall2 same_content l l.
Proof.
  induction l as [|resp l IH]; constructor; [|exact IH].
  unfold same_content. auto.
Qed.

(** X9: whatever the analysis returns, it leaves the session with the
    same model, timestamp and task-type keys, and under each key the same
    responses with the same prompt, text, features, pattern and timestamp:
    only ['task_type'] is written, and only under the three task types. *)
Theorem analyze_session_writes_task_type_only
    (RSA : Type) (rsa_summary : Session -> result RSA) (session : Session) :
  let after := snd (TIDEAnalyzer.analyze_session RSA rsa_summary session) in
  model after = model session
  /\ s_timestamp after = s_timestamp session
  /\ keys (responses after) = keys (responses session)
  /\ forall t,
       match get (responses session) t with
       | Some l =>
           exists l', get (responses after) t = Some l'
                      /\ Forall2 same_content l l'
                      /\ (~ In t TIDEAnalyzer.task_order -> l' = l)
       | None => get (responses after) t = None
       end.
Proof.
  unfold TIDEAnalyzer.analyze_session,
    TIDEAnalyzer.calculate_dimensional_shifts.
  pose proof (fun t => collect_tagged_snd TIDEAnalyzer.task_order
                         (responses session) t task_order_NoDup) as Hsnd.
  pose proof (keys_collect_tagged TIDEAnalyzer.task_order (responses session))
    as Hkeys.
  destruct (TIDEAnalyzer.collect_tagged _ _) as [all_responses resps'].
  cbn [fst snd model s_timestamp responses set_responses] in *.
  repeat split; [exact Hkeys|].
  intros t. rewrite Hsnd.
  destruct (mem t TIDEAnalyzer.task_order) eqn:Em.
  - destruct (get (responses session) t) as [l|]; [|reflexivity].
    eexists. split; [reflexivity|]. split; [apply same_content_tagged|].
    intros Hnot. exfalso. apply Hnot. now apply mem_In.
  - destruct (get (responses session) t) as [l|]; [|reflexivity].
    exists l. split; [reflexivity|]. split; [apply same_content_refl|].
    reflexivity.
Qed.

Lemma last_map {A B : Type} (f : A -> B) (l : list A) (d : A) :
  last (map f l) (f d) = f (last l d).
Proof.
  induction l as [|a [|b l] IH]; try reflexivity.
  exact IH.
Qed.

Lemma last_features_tagged (l : list (string * Response)) (d : string * Response) :
  features (last (map tag_pair l) (tag_pair d))
  = features (last (map snd l) (snd d)).
Proof. now rewrite !last_map. Qed.

(** The deltas of consecutive shifts telescope. *)
Lemma consecutive_shifts_telescope (delta : DimensionalShift -> R)
    (score : Dict R -> R) (first : Response) (rest : list Response) :
  (forall before after,
     delta (TIDEAnalyzer.shift_data before after)
     = score (features after) - score (features before)) ->
  sum (map delta (TIDEAnalyzer.consecutive_shifts (first :: rest)))
  = score (features (last rest first)) - score (features first).
Proof.
  intros Hdelta. revert first.
  induction rest as [|next rest IH]; intros first.
  - simpl. unfold sum. simpl. lra.
  - change (TIDEAnalyzer.consecutive_shifts (first :: next :: rest))
      with (TIDEAnalyzer.shift_data first next
            :: TIDEAnalyzer.consecutive_shifts (next :: rest)).
    change (sum (map delta (TIDEAnalyzer.shift_data first next
                            :: TIDEAnalyzer.consecutive_shifts (next :: rest))))
      with (delta (TIDEAnalyzer.shift_data first next)
            + sum (map delta (TIDEAnalyzer.consecutive_shifts (next :: rest)))).
    rewrite IH, Hdelta.
    replace (last (next :: rest) first) with (last rest next).
    + lra.
    + clear. revert next. induction rest as [|a rest IH]; intros next;
        [reflexivity|]. simpl in *. destruct rest; [reflexivity|]. apply IH.
Qed.

(** X10: the deltas of the shifts of a session add up, for each factor
    group, to the difference between the group mean of the last response
    and that of the first response of the flattened session. *)
Theorem shifts_telescope (session : Session) (first : Response)
    (rest : list Response) :
  Spec.flattened session = first :: rest ->
  let shifts := fst (TIDEAnalyzer.calculate_dimensional_shifts session) in
  sum (map internal_delta shifts)
  = Spec.internal_score (features (last rest first))
    - Spec.internal_score (features first)
  /\ sum (map external_delta shifts)
     = Spec.external_score (features (last rest first))
       - Spec.external_score (features first)
  /\ sum (map concrete_delta shifts)
     = Spec.concrete_score (features (last rest first))
       - Spec.concrete_score (features first).
Proof.
  intros Hflat. cbv zeta. rewrite shifts_of_flattened.
  rewrite flattened_in_order in Hflat.
  destruct (TIDEAnalyzer.responses_in_order session) as [|tr l]; [discriminate|].
  simpl in Hflat. injection Hflat as <- <-.
  change (map tag_pair (tr :: l)) with (tag_pair tr :: map tag_pair l).
  assert (Hlast : features (last (map tag_pair l) (tag_pair tr))
                  = features (last (map snd l) (snd tr)))
    by apply last_features_tagged.
  repeat split.
  - rewrite (consecutive_shifts_telescope internal_delta Spec.internal_score).
    + now rewrite Hlast.
    + intros b a. unfold TIDEAnalyzer.shift_data,
        TIDEAnalyzer.calculate_factor_shift. simpl.
      now rewrite !feature_mean_internal.
  - rewrite (consecutive_shifts_telescope external_delta Spec.external_score).
    + now rewrite Hlast.
    + intros b a. unfold TIDEAnalyzer.shift_data,
        TIDEAnalyzer.calculate_factor_shift. simpl.
      now rewrite !feature_mean_external.
  - rewrite (consecutive_shifts_telescope concrete_delta Spec.concrete_score).
    + now rewrite Hlast.
    + intros b a. unfold TIDEAnalyzer.shift_data,
        TIDEAnalyzer.calculate_factor_shift. simpl.
      now rewrite !feature_mean_concrete.
Qed.

(** On the session of [test_fix.py]. *)
Lemma shifts_telescope_witness :
  sum (map internal_delta
           (fst (TIDEAnalyzer.calculate_dimensional_shifts
                   Examples.test_session)))
  = Spec.internal_score (Examples.four_features 0.7)
    - Spec.internal_score (Examples.four_features 0.5).
Proof.
  exact (proj1 (shifts_telescope Examples.test_session _ _ eq_refl)).
Defined.

(** ** Cosine similarity, in general *)

Lemma dot_comm (u v : list R) : dot u v = dot v u.
Proof.
  unfold dot, sum. revert v.
  induction u as [|x u IH]; intros [|y v]; simpl; try reflexivity.
  rewrite IH. lra.
Qed.

Lemma cosine_comm (u v : list R) : cosine u v = cosine v u.
Proof.
  unfold cosine. rewrite (Nat.eqb_sym (List.length v) (List.length u)).
  rewrite (dot_comm v u), (Rmult_comm (dot v v) (dot u u)). reflexivity.
Qed.

Lemma all_keys_Permutation (features1 features2 : Dict R) :
  Permutation (TIDEAnalyzer.all_keys features1 features2)
              (TIDEAnalyzer.all_keys features2 features1).
Proof.
  unfold TIDEAnalyzer.all_keys.
  apply NoDup_Permutation; try apply NoDup_distinct.
  intros k. rewrite !In_distinct, !in_app_iff. tauto.
Qed.

(** X11: the similarity of two feature vectors does not depend on the
    order of the two vectors. *)
Theorem calculate_feature_similarity_symmetric (features1 features2 : Dict R) :
  TIDEAnalyzer.calculate_feature_similarity features1 features2
  = TIDEAnalyzer.calculate_feature_similarity features2 features1.
Proof.
  unfold TIDEAnalyzer.calculate_feature_similarity.
  rewrite (similarity_over_Permutation _ _ features1 features2
             (all_keys_Permutation features1 features2)).
  unfold TIDEAnalyzer.similarity_over. cbv zeta.
  rewrite andb_comm, cosine_comm. reflexivity.
Qed.

(** The Cauchy-Schwarz inequality for two families indexed by a list. *)
Lemma cauchy_schwarz (g1 g2 : string -> R) (ks : list string) :
  0 <= sum (map (fun k => g1 k * g1 k) ks)
  /\ 0 <= sum (map (fun k => g2 k * g2 k) ks)
  /\ sum (map (fun k => g1 k * g2 k) ks) * sum (map (fun k => g1 k * g2 k) ks)
     <= sum (map (fun k => g1 k * g1 k) ks)
        * sum (map (fun k => g2 k * g2 k) ks).
Proof.
  unfold sum. induction ks as [|k ks (HA & HB & HS)]; simpl; [lra|].
  set (A := fold_right Rplus 0 (map (fun k => g1 k * g1 k) ks)) in *.
  set (B := fold_right Rplus 0 (map (fun k => g2 k * g2 k) ks)) in *.
  set (s := fold_right Rplus 0 (map (fun k => g1 k * g2 k) ks)) in *.
  set (x := g1 k). set (y := g2 k).
  pose proof (Rle_0_sqr x) as Hxx. pose proof (Rle_0_sqr y) as Hyy.
  unfold Rsqr in Hxx, Hyy.
  split; [lra|]. split; [lra|].
  assert (Hcross : 0 <= x * x * B + A * (y * y) - 2 * (x * y * s)).
  { destruct (Req_dec_T A 0) as [HA0|HA0].
    - assert (Hs0 : s = 0).
      { pose proof (Rle_0_sqr s) as Hs. unfold Rsqr in Hs.
        rewrite HA0 in HS. apply Rsqr_0_uniq. unfold Rsqr. lra. }
      rewrite HA0, Hs0. pose proof (Rle_0_sqr x) as Hx. unfold Rsqr in Hx.
      assert (0 <= x * x * B) by (apply Rmult_le_pos; lra). lra.
    - assert (HApos : 0 < A) by lra.
      assert (H : 0 <= A * (x * x * B + A * (y * y) - 2 * (x * y * s))).
      { pose proof (Rle_0_sqr (A * y - x * s)) as H1. unfold Rsqr in H1.
        assert (H2 : 0 <= x * x * (A * B - s * s)).
        { apply Rmult_le_pos; [|lra].
          pose proof (Rle_0_sqr x) as Hx. unfold Rsqr in Hx. exact Hx. }
        lra. }
      apply (Rmult_le_reg_l A); [exact HApos|]. lra. }
  lra.
Qed.

Lemma sum_nonneg (l : list R) : (forall x, In x l -> 0 <= x) -> 0 <= sum l.
Proof.
  unfold sum. induction l as [|a l IH]; intros H; simpl; [lra|].
  assert (0 <= a) by (apply H; now left).
  assert (0 <= fold_right Rplus 0 l) by (apply IH; intros x Hx; apply H; now right).
  lra.
Qed.

(** The cosine similarity lies between -1 and 1, and is not negative when
    no value is negative. *)
Lemma cosine_similarity_bounds (features1 features2 : Dict R) :
  -1 <= Spec.cosine_similarity features1 features2 <= 1
  /\ ((forall k, 0 <= Spec.value features1 k) ->
      (forall k, 0 <= Spec.value features2 k) ->
      0 <= Spec.cosine_similarity features1 features2).
Proof.
  unfold Spec.cosine_similarity, Spec.norm. cbv zeta.
  set (ks := distinct _).
  destruct (np_any (map (Spec.value features1) ks)) eqn:E1;
    [|simpl; split; [lra|intros; lra]].
  destruct (np_any (map (Spec.value features2) ks)) eqn:E2;
    [|simpl; split; [lra|intros; lra]].
  simpl.
  pose proof (dot_self_pos _ E1) as HA. pose proof (dot_self_pos _ E2) as HB.
  rewrite !dot_map in *.
  destruct (cauchy_schwarz (Spec.value features1) (Spec.value features2) ks)
    as (_ & _ & HS).
  set (A := sum (map (fun k => Spec.value features1 k * Spec.value features1 k)
                     ks)) in *.
  set (B := sum (map (fun k => Spec.value features2 k * Spec.value features2 k)
                     ks)) in *.
  set (s := sum (map (fun k => Spec.value features1 k * Spec.value features2 k)
                     ks)) in *.
  pose proof (sqrt_lt_R0 A HA) as HsA. pose proof (sqrt_lt_R0 B HB) as HsB.
  assert (HD : 0 < sqrt A * sqrt B) by nra.
  assert (Hsq : (sqrt A * sqrt B) * (sqrt A * sqrt B) = A * B).
  { pose proof (sqrt_sqrt A (Rlt_le _ _ HA)).
    pose proof (sqrt_sqrt B (Rlt_le _ _ HB)). nra. }
  assert (Hs : - (sqrt A * sqrt B) <= s <= sqrt A * sqrt B) by nra.
  split.
  - split.
    + apply Rmult_le_reg_r with (sqrt A * sqrt B); [exact HD|].
      unfold Rdiv. rewrite Rmult_assoc, Rinv_l by lra. lra.
    + apply Rmult_le_reg_r with (sqrt A * sqrt B); [exact HD|].
      unfold Rdiv. rewrite Rmult_assoc, Rinv_l by lra. lra.
  - intros H1 H2.
    assert (H0 : 0 <= s).
    { apply sum_nonneg. intros x Hx.
      apply in_map_iff in Hx as (k & <- & _).
      specialize (H1 k). specialize (H2 k). nra. }
    apply Rmult_le_reg_r with (sqrt A * sqrt B); [exact HD|].
    unfold Rdiv. rewrite Rmult_assoc, Rinv_l by lra. lra.
Qed.

Lemma value_nonneg (fv : Dict R) :
  (forall k v, get fv k = Some v -> 0 <= v) -> forall k, 0 <= Spec.value fv k.
Proof.
  intros H k. unfold Spec.value.
  destruct (get fv k) as [v|] eqn:E; [now apply (H k)|lra].
Qed.

(** X12: the similarity of two feature vectors lies between -1 and 1; when
    neither vector has a negative value it lies between 0 and 1. *)
Theorem calculate_feature_similarity_bounds (features1 features2 : Dict R) :
  -1 <= TIDEAnalyzer.calculate_feature_similarity features1 features2 <= 1
  /\ ((forall k v, get features1 k = Some v -> 0 <= v) ->
      (forall k v, get features2 k = Some v -> 0 <= v) ->
      0 <= TIDEAnalyzer.calculate_feature_similarity features1 features2).
Proof.
  rewrite calculate_feature_similarity_cosine.
  destruct (cosine_similarity_bounds features1 features2) as [Hb Hn].
  split; [exact Hb|].
  intros H1 H2. apply Hn; now apply value_nonneg.
Qed.

(** On two vectors without negative values. *)
Lemma calculate_feature_similarity_bounds_witness :
  0 <= TIDEAnalyzer.calculate_feature_similarity
         Examples.social_space Examples.space_social.
Proof.
  apply (proj2 (calculate_feature_similarity_bounds
                  Examples.social_space Examples.space_social)).
  - intros k v. unfold Examples.social_space, get.
    destruct (String.eqb "social" k); [intros [= <-]; lra|].
    destruct (String.eqb "space" k); [intros [= <-]; lra|discriminate].
  - intros k v. unfold Examples.space_social, get.
    destruct (String.eqb "space" k); [intros [= <-]; lra|].
    destruct (String.eqb "social" k); [intros [= <-]; lra|discriminate].
Defined.

(** ** Coherence, in general *)

Lemma sum_between (l : list R) (lo hi : R) :
  (forall x, In x l -> lo <= x <= hi) ->
  INR (List.length l) * lo <= sum l <= INR (List.length l) * hi.
Proof.
  unfold sum. induction l as [|a l IH]; intros H.
  - simpl. lra.
  - assert (lo <= a <= hi) by (apply H; now left).
    assert (Hl : INR (List.length l) * lo <= fold_right Rplus 0 l
                 <= INR (List.length l) * hi)
      by (apply IH; intros x Hx; apply H; now right).
    change (List.length (a :: l)) with (S (List.length l)).
    rewrite S_INR. simpl fold_right. lra.
Qed.

(** The mean of a non-empty list lies within the bounds of its elements. *)
Lemma mean_between (l : list R) (lo hi : R) :
  l <> [] -> (forall x, In x l -> lo <= x <= hi) ->
  lo <= sum l / INR (List.length l) <= hi.
Proof.
  intros Hne H. pose proof (sum_between l lo hi H) as Hs.
  assert (Hn : 0 < INR (List.length l)).
  { destruct l; [congruence|]. apply lt_0_INR. simpl. lia. }
  split.
  - apply Rmult_le_reg_r with (INR (List.length l)); [exact Hn|].
    unfold Rdiv. rewrite Rmult_assoc, Rinv_l by lra. lra.
  - apply Rmult_le_reg_r with (INR (List.length l)); [exact Hn|].
    unfold Rdiv. rewrite Rmult_assoc, Rinv_l by lra. lra.
Qed.

Lemma of_task_flattened (session : Session) (t : string) (resp : Response) :
  In t TIDEAnalyzer.task_order -> In resp (Spec.of_task session t) ->
  In resp (Spec.flattened session).
Proof.
  unfold Spec.flattened. intros [<-|[<-|[<-|[]]]] H; rewrite !in_app_iff; auto.
Qed.

(** The coherence lies between [lo] and 1 when the feature values and the
    pairwise similarities do. *)
Lemma coherence_between (session : Session) (lo : R) :
  lo <= 0 ->
  (forall resp k v, In resp (Spec.flattened session) ->
                    get (features resp) k = Some v -> lo <= v <= 1) ->
  (forall fv1 fv2,
     (forall k v, get fv1 k = Some v -> lo <= v <= 1) ->
     (forall k v, get fv2 k = Some v -> lo <= v <= 1) ->
     lo <= Spec.cosine_similarity fv1 fv2 <= 1) ->
  lo <= Spec.coherence session <= 1.
Proof.
  intros Hlo Hval Hsim.
  assert (Hv : forall resp f, In resp (Spec.flattened session) ->
                 lo <= Spec.value (features resp) f <= 1).
  { intros resp f Hresp. unfold Spec.value.
    destruct (get (features resp) f) as [v|] eqn:E; [now apply (Hval resp f)|].
    lra. }
  unfold Spec.coherence. apply mean_between.
  { unfold Spec.coherence_factors. intros H. apply app_eq_nil in H as [_ H].
    discriminate H. }
  intros x Hx. unfold Spec.coherence_factors in Hx.
  apply in_app_iff in Hx as [Hx|[<-|[]]].
  - apply in_flat_map in Hx as (t & Ht & Hx).
    destruct (Nat.leb 2 (List.length (Spec.of_task session t))) eqn:E;
      [|destruct Hx].
    destruct Hx as [<-|[]]. apply Nat.leb_le in E.
    unfold Spec.mean_pairwise_similarity. cbv zeta. apply mean_between.
    + intros H. apply map_eq_nil in H.
      assert (Hin : In (0%nat, 1%nat)
                       (Spec.index_pairs (List.length (Spec.of_task session t))))
        by (apply index_pairs_spec; lia).
      rewrite H in Hin. destruct Hin.
    + intros y Hy. apply in_map_iff in Hy as ([i j] & <- & _). simpl.
      assert (Hnth : forall i k v,
                get (nth i (map features (Spec.of_task session t)) []) k
                = Some v -> lo <= v <= 1).
      { intros i' k v.
        destruct (nth_in_or_default i' (map features (Spec.of_task session t))
                    []) as [Hin|Hd].
        - apply in_map_iff in Hin as (resp & Hresp & Hin).
          rewrite <- Hresp. apply Hval.
          now apply (of_task_flattened session t).
        - rewrite Hd. discriminate. }
      apply Hsim; apply Hnth.
  - unfold Spec.alignment. cbv zeta.
    set (scores := (_ ++ _ ++ _)%list).
    assert (Hscores : forall x, In x scores -> lo <= x <= 1).
    { intros x Hx. unfold scores in Hx.
      rewrite !in_app_iff, !in_map_iff in Hx.
      destruct Hx as [(resp & <- & Hr)|[(resp & <- & Hr)|(resp & <- & Hr)]].
      - assert (Hf : In resp (Spec.flattened session))
          by (apply (of_task_flattened session "concrete"); simpl; auto).
        unfold Spec.concrete_score.
        pose proof (Hv resp "visual" Hf). pose proof (Hv resp "color" Hf).
        pose proof (Hv resp "auditory" Hf).
        pose proof (Hv resp "smell_taste" Hf).
        pose proof (Hv resp "tactile" Hf). lra.
      - assert (Hf : In resp (Spec.flattened session))
          by (apply (of_task_flattened session "internal"); simpl; auto).
        unfold Spec.internal_score.
        pose proof (Hv resp "social" Hf). pose proof (Hv resp "emotion" Hf).
        pose proof (Hv resp "polarity" Hf). pose proof (Hv resp "morality" Hf).
        pose proof (Hv resp "thought" Hf).
        pose proof (Hv resp "self_motion" Hf). lra.
      - assert (Hf : In resp (Spec.flattened session))
          by (apply (of_task_flattened session "external"); simpl; auto).
        unfold Spec.external_score.
        pose proof (Hv resp "space" Hf). pose proof (Hv resp "time" Hf).
        pose proof (Hv resp "number" Hf). lra. }
    destruct scores as [|a scores'] eqn:Es; [lra|].
    apply mean_between; [discriminate|exact Hscores].
Qed.

(** X13: when every feature value of the session lies between -1 and 1
    the coherence lies between -1 and 1, and when every value lies between
    0 and 1 the coherence lies between 0 and 1. *)
Theorem coherence_bounds (session : Session) :
  ((forall resp k v, In resp (Spec.flattened session) ->
                     get (features resp) k = Some v -> -1 <= v <= 1) ->
   -1 <= TIDEAnalyzer.calculate_coherence session <= 1)
  /\ ((forall resp k v, In resp (Spec.flattened session) ->
                        get (features resp) k = Some v -> 0 <= v <= 1) ->
      0 <= TIDEAnalyzer.calculate_coherence session <= 1).
Proof.
  rewrite calculate_coherence_eq. split; intros Hval.
  - apply coherence_between; [lra|exact Hval|].
    intros fv1 fv2 _ _. apply cosine_similarity_bounds.
  - apply coherence_between; [lra|exact Hval|].
    intros fv1 fv2 H1 H2.
    destruct (cosine_similarity_bounds fv1 fv2) as [[_ Hhi] Hn].
    split; [|exact Hhi].
    apply Hn; apply value_nonneg; intros k v Hk.
    + now apply (H1 k v).
    + now apply (H2 k v).
Qed.

Lemma test_session_values_in_unit :
  forall resp k v, In resp (Spec.flattened Examples.test_session) ->
    get (features resp) k = Some v -> 0 <= v <= 1.
Proof.
  intros resp k v [<-|[<-|[]]]; simpl; unfold Examples.four_features, get;
    repeat (match goal with
            | |- (if ?b then _ else _) = _ -> _ => destruct b
            end; [intros [= <-]; lra|]);
    discriminate.
Qed.

(** On the session of [test_fix.py], whose values are 0.5 and 0.7. *)
Lemma coherence_bounds_witness :
  0 <= TIDEAnalyzer.calculate_coherence Examples.test_session <= 1.
Proof.
  exact (proj2 (coherence_bounds Examples.test_session)
               test_session_values_in_unit).
Defined.

(** * Properties of the cross-session analysis *)

(** ** Internal/external balance *)

Lemma filter_none {A : Type} (f : A -> bool) (l : list A) :
  (forall x, In x l -> f x = false) -> filter f l = [].
Proof.
  induction l as [|a l IH]; intros H; simpl; [reflexivity|].
  rewrite (H a (or_introl eq_refl)). apply IH. intros x Hx. apply H. now right.
Qed.


Section Balance.
Context {F : Type}.
Variable A : Arithmetic F.

End Balance.


(** In binary64 the factor 1.5 is applied with rounding: the internal
    average 0.45 is greater than 0.3 * 1.5, which is 0.44999999999999996,
    so the batch is internal-dominant; the shift below the threshold does
    not count. *)
Example balance_rounds_the_product :
  (0.3 * 1.5)%float = 0.44999999999999996%float
  /\ TIDEAnalyzer.calculate_internal_external_balance Examples.float64
       [{| result_shifts := [Examples.shift64 0.45 0.3;
                             Examples.shift64 0.05 0.1] |}]
     = "Internal-dominant".
Proof. split; vm_compute; reflexivity. Qed.

(** ** Dominant transition of a batch *)

Lemma getd_merge_transitions (items acc : Dict nat) (t : string) :
  getd (fold_left TIDEAnalyzer.merge_transition items acc) t 0%nat
  = (getd acc t 0 + frequency_in t items)%nat.
Proof.
  revert acc. unfold frequency_in.
  induction items as [|[k c] items IH]; intros acc; simpl; [lia|].
  rewrite IH. unfold TIDEAnalyzer.merge_transition, getd. simpl.
  destruct (String.eqb k t) eqn:E.
  - apply String.eqb_eq in E. subst k. rewrite get_dict_set_same. simpl. lia.
  - apply String.eqb_neq in E. rewrite get_dict_set_other by assumption. lia.
Qed.

Lemma keys_merge_transitions (items acc : Dict nat) (t : string) :
  In t (keys (fold_left TIDEAnalyzer.merge_transition items acc))
  <-> In t (keys acc) \/ In t (keys items).
Proof.
  revert acc. induction items as [|[k c] items IH]; intros acc; simpl.
  - tauto.
  - rewrite IH. unfold TIDEAnalyzer.merge_transition. simpl.
    rewrite keys_dict_set. destruct (contains acc k) eqn:E.
    + rewrite contains_In_keys in E. apply mem_In in E.
      split; [tauto|]. intros [H|[<-|H]]; auto.
    + rewrite in_app_iff. simpl. tauto.
Qed.

Section CrossPatterns.
Variable RSA : Type.

Lemma getd_merged (all_results : list (TIDEAnalyzer.FullResult RSA))
    (acc : Dict nat) (t : string) :
  getd (merged all_results acc) t 0%nat
  = (getd acc t 0 + total_frequency t all_results)%nat.
Proof.
  revert acc. unfold merged, total_frequency.
  induction all_results as [|r l IH]; intros acc; simpl; [lia|].
  rewrite IH, getd_merge_transitions. lia.
Qed.

Lemma keys_merged (all_results : list (TIDEAnalyzer.FullResult RSA))
    (acc : Dict nat) (t : string) :
  In t (keys (merged all_results acc))
  <-> In t (keys acc)
      \/ exists result,
           In result all_results
           /\ In t (keys (transition_frequencies
                            (TIDEAnalyzer.evolution_of_result RSA result))).
Proof.
  revert acc. unfold merged.
  induction all_results as [|r l IH]; intros acc; simpl.
  - split; [tauto|]. intros [H|(result & [] & _)]. exact H.
  - rewrite IH, keys_merge_transitions. split.
    + intros [[H|H]|(result & Hr & H)]; eauto.
    + intros [H|(result & [<-|Hr] & H)]; eauto.
Qed.

(** X15: when no session of the batch has a transition the dominant
    transition is ["No clear pattern"]; otherwise it is a transition of
    some session whose frequency, summed over the sessions, is the
    greatest. *)
Theorem dominant_transition_maximal
    (all_results : list (TIDEAnalyzer.FullResult RSA)) :
  let best := TIDEAnalyzer.analyze_cross_session_patterns RSA all_results in
  ((forall result, In result all_results ->
      transition_frequencies (TIDEAnalyzer.evolution_of_result RSA result) = []) ->
   best = "No clear pattern")
  /\ ((exists result t,
         In result all_results
         /\ In t (keys (transition_frequencies
                          (TIDEAnalyzer.evolution_of_result RSA result)))) ->
      (exists result,
         In result all_results
         /\ In best (keys (transition_frequencies
                             (TIDEAnalyzer.evolution_of_result RSA result))))
      /\ forall t, (total_frequency t all_results
                    <= total_frequency best all_results)%nat).
Proof.
  cbv zeta. unfold TIDEAnalyzer.analyze_cross_session_patterns. cbv zeta.
  fold (merged all_results []).
  set (d := merged all_results []).
  assert (Hget : forall t, getd d t 0%nat = total_frequency t all_results).
  { intros t. unfold d. now rewrite getd_merged. }
  assert (Hkeys : forall t, In t (keys d)
            <-> exists result,
                  In result all_results
                  /\ In t (keys (transition_frequencies
                                   (TIDEAnalyzer.evolution_of_result RSA result)))).
  { intros t. unfold d. rewrite keys_merged. simpl. tauto. }
  split.
  - intros Hnone. destruct (keys d) as [|k ks] eqn:E; [reflexivity|].
    assert (Hk : In k (k :: ks)) by now left.
    apply Hkeys in Hk as (result & Hr & Hk).
    rewrite (Hnone result Hr) in Hk. destruct Hk.
  - intros (result & t & Hr & Ht).
    assert (Hin : In t (keys d)) by (apply Hkeys; eauto).
    destruct (keys d) as [|k ks] eqn:E; [destruct Hin|].
    cbn [py_max].
    destruct (max_from_first string (fun t => getd d t 0%nat) ks k)
      as (l1 & l2 & Heq & _ & Hle).
    set (best := max_from Nat.ltb (fun t => getd d t 0%nat) k ks) in *.
    assert (Hbest : In best (k :: ks)).
    { rewrite Heq. apply in_elt. }
    split; [now apply Hkeys|].
    intros t'. rewrite <- !Hget.
    destruct (in_dec string_dec t' (k :: ks)) as [Hin'|Hnot].
    + now apply Hle.
    + rewrite <- E in Hnot. unfold getd at 1.
      rewrite (not_In_get_None d t' Hnot). lia.
Qed.
End CrossPatterns.

(** On a batch of three sessions that each go once from CCDF to AADS. *)
Lemma dominant_transition_maximal_witness :
  let best :=
    TIDEAnalyzer.analyze_cross_session_patterns unit Examples.batch in
  best = arrow "CCDF" "AADS"
  /\ total_frequency best Examples.batch = 3%nat
  /\ (exists result,
        In result Examples.batch
        /\ In best (keys (transition_frequencies
                            (TIDEAnalyzer.evolution_of_result unit result))))
  /\ forall t, (total_frequency t Examples.batch
                <= total_frequency best Examples.batch)%nat.
Proof.
  cbv zeta. split; [reflexivity|]. split; [reflexivity|].
  apply (proj2 (dominant_transition_maximal unit Examples.batch)).
  exists (Examples.analysed "A" 0.8), (arrow "CCDF" "AADS").
  split; [now left|now left].
Defined.

(** ** Per-model statistics *)

Lemma sum_app (l1 l2 : list R) : sum (l1 ++ l2) = sum l1 + sum l2.
Proof.
  unfold sum. induction l1 as [|a l1 IH]; simpl; [lra|]. rewrite IH. lra.
Qed.

Lemma sum_split_key (f : string -> R) (k : string) (d : list string) :
  NoDup d ->
  sum (map f d)
  = (if mem k d then f k else 0)
    + sum (map f (filter (fun m => negb (String.eqb k m)) d)).
Proof.
  unfold sum, mem. induction d as [|a d IH]; intros Hnd; simpl; [lra|].
  inversion Hnd as [|? ? Hnotin Hnd']; subst.
  destruct (String.eqb k a) eqn:E; simpl.
  - apply String.eqb_eq in E. subst a.
    rewrite IH by assumption.
    assert (Hk : existsb (String.eqb k) d = false).
    { destruct (existsb (String.eqb k) d) eqn:Ek; [|reflexivity].
      apply (proj1 (mem_In k d)) in Ek. contradiction. }
    rewrite Hk. lra.
  - rewrite IH by assumption.
    destruct (existsb (String.eqb k) d); lra.
Qed.

Lemma filter_key_absent {A : Type} (key : A -> string) (k : string)
    (l : list A) :
  ~ In k (map key l) -> filter (fun a => String.eqb (key a) k) l = [].
Proof.
  intros H. apply filter_none. intros a Ha.
  apply String.eqb_neq. intros <-. apply H. now apply in_map.
Qed.

(** A sum over a list is the sum, over the distinct keys, of the sums of
    the elements of each key. *)
Lemma sum_by_key {A : Type} (key : A -> string) (val : A -> R) (l : list A) :
  sum (map val l)
  = sum (map (fun m => sum (map val (filter (fun a => String.eqb (key a) m) l)))
             (distinct (map key l))).
Proof.
  induction l as [|a l IH]; [reflexivity|].
  set (f := fun m => sum (map val (filter (fun a => String.eqb (key a) m) l)))
    in *.
  set (f' := fun m =>
         sum (map val (filter (fun a0 => String.eqb (key a0) m) (a :: l)))).
  set (rest := filter (fun y => negb (String.eqb (key a) y))
                      (distinct (map key l))).
  assert (H1 : f' (key a) = val a + f (key a)).
  { unfold f', f. simpl. now rewrite String.eqb_refl. }
  assert (H2 : map f' rest = map f rest).
  { apply map_ext_in. intros m Hm. apply filter_In in Hm as [_ Hm].
    unfold f', f. simpl.
    destruct (String.eqb (key a) m); [discriminate|reflexivity]. }
  assert (H3 : sum (map f' (distinct (map key (a :: l))))
               = f' (key a) + sum (map f' rest)) by reflexivity.
  assert (H4 : sum (map val (a :: l)) = val a + sum (map val l))
    by reflexivity.
  rewrite H3, H4, H1, H2, IH.
  rewrite (sum_split_key f (key a) _ (NoDup_distinct (map key l))).
  fold rest.
  destruct (mem (key a) (distinct (map key l))) eqn:Em; [lra|].
  assert (Hf : f (key a) = 0).
  { unfold f. rewrite filter_key_absent; [reflexivity|].
    intros Hin. apply In_distinct in Hin.
    apply (proj2 (mem_In _ _)) in Hin. congruence. }
  lra.
Qed.

Lemma get_map_values {V W : Type} (g : V -> W) (d : Dict V) (k : string) :
  get (map (fun entry => (fst entry, g (snd entry))) d) k
  = option_map g (get d k).
Proof.
  induction d as [|[k' v] d IH]; simpl; [reflexivity|].
  now destruct (String.eqb k' k).
Qed.

Lemma keys_map_values {V W : Type} (g : V -> W) (d : Dict V) :
  keys (map (fun entry => (fst entry, g (snd entry))) d) = keys d.
Proof. unfold keys. rewrite map_map. reflexivity. Qed.

Lemma mean_or_zero_times (l : list R) :
  INR (List.length l) * TIDEAnalyzer.mean_or_zero l = sum l.
Proof.
  destruct l as [|a l]; [unfold sum; simpl; lra|].
  unfold TIDEAnalyzer.mean_or_zero, mean.
  assert (0 < INR (List.length (a :: l))) by (apply lt_0_INR; simpl; lia).
  field. lra.
Qed.

Section PerModel.
Variable RSA : Type.

Lemma getd_collect_model (model_stats : Dict (list R * list nat))
    (result : TIDEAnalyzer.FullResult RSA) (m : string) :
  getd (TIDEAnalyzer.collect_model RSA model_stats result) m ([], [])
  = if String.eqb (TIDEAnalyzer.fr_model RSA result) m
    then ((fst (getd model_stats m ([], []))
           ++ [TIDEAnalyzer.coherence_of_result RSA result])%list,
          (snd (getd model_stats m ([], []))
           ++ [pattern_diversity
                 (TIDEAnalyzer.evolution_of_result RSA result)])%list)
    else getd model_stats m ([], []).
Proof.
  unfold TIDEAnalyzer.collect_model. cbv zeta.
  set (k := TIDEAnalyzer.fr_model RSA result).
  set (d := if contains model_stats k then model_stats
            else dict_set model_stats k ([], [])).
  assert (Hd : forall m', getd d m' ([], []) = getd model_stats m' ([], [])).
  { intros m'. unfold d, contains, getd.
    destruct (get model_stats k) eqn:Ek; [reflexivity|].
    destruct (string_dec k m') as [<-|Hne].
    - now rewrite get_dict_set_same, Ek.
    - now rewrite get_dict_set_other. }
  destruct (String.eqb k m) eqn:E.
  - apply String.eqb_eq in E. subst m. unfold getd at 1.
    now rewrite get_dict_set_same, Hd.
  - apply String.eqb_neq in E. unfold getd at 1.
    rewrite get_dict_set_other by assumption.
    fold (getd d m ([], [])). apply Hd.
Qed.

Lemma keys_collect_model (model_stats : Dict (list R * list nat))
    (result : TIDEAnalyzer.FullResult RSA) :
  keys (TIDEAnalyzer.collect_model RSA model_stats result)
  = if mem (TIDEAnalyzer.fr_model RSA result) (keys model_stats)
    then keys model_stats
    else (keys model_stats ++ [TIDEAnalyzer.fr_model RSA result])%list.
Proof.
  unfold TIDEAnalyzer.collect_model. cbv zeta.
  set (k := TIDEAnalyzer.fr_model RSA result).
  rewrite keys_dict_set. rewrite <- contains_In_keys.
  destruct (contains model_stats k) eqn:E.
  - now rewrite E.
  - unfold contains at 1. rewrite get_dict_set_same.
    now rewrite keys_dict_set, E.
Qed.

Lemma sessions_of_snoc (m : string) (l : list (TIDEAnalyzer.FullResult RSA))
    (result : TIDEAnalyzer.FullResult RSA) :
  sessions_of m (l ++ [result])
  = (sessions_of m l
     ++ if String.eqb (TIDEAnalyzer.fr_model RSA result) m
        then [result] else [])%list.
Proof. unfold sessions_of. rewrite filter_app. reflexivity. Qed.

(** What the first loop of [compare_models] collects. *)
Lemma collected_models (all_results : list (TIDEAnalyzer.FullResult RSA)) :
  keys (fold_left (TIDEAnalyzer.collect_model RSA) all_results [])
  = distinct (map (TIDEAnalyzer.fr_model RSA) all_results)
  /\ forall m,
       getd (fold_left (TIDEAnalyzer.collect_model RSA) all_results []) m
            ([], [])
       = (map (TIDEAnalyzer.coherence_of_result RSA) (sessions_of m all_results),
          map (fun result =>
                 pattern_diversity (TIDEAnalyzer.evolution_of_result RSA result))
              (sessions_of m all_results)).
Proof.
  induction all_results as [|result l [IHk IHg]] using rev_ind.
  - split; reflexivity.
  - rewrite fold_left_app. simpl fold_left. split.
    + rewrite keys_collect_model, IHk, map_app.
      change (map (TIDEAnalyzer.fr_model RSA) [result])
        with [TIDEAnalyzer.fr_model RSA result].
      rewrite distinct_snoc.
      destruct (mem (TIDEAnalyzer.fr_model RSA result)
                    (map (TIDEAnalyzer.fr_model RSA) l)) eqn:E.
      * assert (H : mem (TIDEAnalyzer.fr_model RSA result)
                        (distinct (map (TIDEAnalyzer.fr_model RSA) l)) = true).
        { apply mem_In. apply In_distinct. now apply mem_In. }
        now rewrite H.
      * assert (H : mem (TIDEAnalyzer.fr_model RSA result)
                        (distinct (map (TIDEAnalyzer.fr_model RSA) l)) = false).
        { destruct (mem _ (distinct _)) eqn:E'; [|reflexivity].
          apply mem_In in E'.
          apply (proj1 (In_distinct _ _)) in E'.
          apply (proj2 (mem_In _ _)) in E'. congruence. }
        now rewrite H.
    + intros m. rewrite getd_collect_model, IHg, sessions_of_snoc, !map_app.
      destruct (String.eqb (TIDEAnalyzer.fr_model RSA result) m);
        simpl; [reflexivity|now rewrite !app_nil_r].
Qed.

(** X16: [compare_models] has one entry per distinct model of the batch,
    in order of first appearance; the entry of a model holds the coherence
    scores and pattern diversities of the sessions of that model in batch
    order, at least one of each, their means, and shift magnitudes that
    are never filled. *)
Theorem compare_models_per_model (all_results : list (TIDEAnalyzer.FullResult RSA)) :
  keys (TIDEAnalyzer.compare_models RSA all_results)
  = distinct (map (TIDEAnalyzer.fr_model RSA) all_results)
  /\ (forall m stats,
        get (TIDEAnalyzer.compare_models RSA all_results) m = Some stats ->
        TIDEAnalyzer.ms_coherence_scores stats
        = map (TIDEAnalyzer.coherence_of_result RSA) (sessions_of m all_results)
        /\ TIDEAnalyzer.ms_pattern_diversity stats
           = map (fun result =>
                    pattern_diversity
                      (TIDEAnalyzer.evolution_of_result RSA result))
                 (sessions_of m all_results)
        /\ TIDEAnalyzer.ms_coherence_scores stats <> []
        /\ TIDEAnalyzer.ms_avg_coherence stats
           = mean (TIDEAnalyzer.ms_coherence_scores stats)
        /\ TIDEAnalyzer.ms_shift_magnitudes stats = [])
  /\ (forall m, In m (map (TIDEAnalyzer.fr_model RSA) all_results) ->
        exists stats,
          get (TIDEAnalyzer.compare_models RSA all_results) m = Some stats).
Proof.
  destruct (collected_models all_results) as [Hkeys Hget].
  unfold TIDEAnalyzer.compare_models.
  set (d := fold_left (TIDEAnalyzer.collect_model RSA) all_results []) in *.
  change (map _ d)
    with (map (fun entry : string * (list R * list nat) =>
                 (fst entry, model_stats_of (snd entry))) d).
  split; [now rewrite keys_map_values|]. split.
  - intros m stats Hm. rewrite get_map_values in Hm.
    destruct (get d m) as [[scores divs]|] eqn:E; [|discriminate].
    simpl in Hm. injection Hm as <-. simpl.
    specialize (Hget m). unfold getd in Hget. rewrite E in Hget.
    injection Hget as Hs Hd.
    assert (Hne : scores <> []).
    { rewrite Hs. apply get_In_keys in E. rewrite Hkeys in E.
      apply (proj1 (In_distinct _ _)) in E.
      apply in_map_iff in E as (result & Hr & Hin).
      intros Hnil. apply map_eq_nil in Hnil.
      assert (H : In result (sessions_of m all_results)).
      { unfold sessions_of. apply filter_In. split; [exact Hin|].
        now apply String.eqb_eq. }
      rewrite Hnil in H. destruct H. }
    repeat split; try assumption.
    destruct scores; [congruence|reflexivity].
  - intros m Hm. rewrite get_map_values.
    destruct (get d m) as [v|] eqn:E; [simpl; eauto|].
    apply get_None_not_In in E. rewrite Hkeys in E.
    exfalso. apply E. now apply In_distinct.
Qed.

(** X17: the models tested are the models of the model comparison, and
    the average coherence of the batch, times the number of sessions, is
    the sum over the models of the average coherence of the model times
    the number of its sessions: the overall average is the
    session-weighted mean of the per-model averages. *)
Theorem average_coherence_weighted (A : Arithmetic R)
    (all_results : list (TIDEAnalyzer.FullResult RSA)) :
  let analysis := TIDEAnalyzer.analyze_all_sessions RSA A all_results in
  (forall m, In m (TIDEAnalyzer.models_tested analysis)
             <-> In m (keys (TIDEAnalyzer.model_comparisons analysis)))
  /\ INR (TIDEAnalyzer.total_sessions analysis)
     * TIDEAnalyzer.avg_pattern_coherence analysis
     = sum (map (fun entry =>
                   INR (List.length
                          (TIDEAnalyzer.ms_coherence_scores (snd entry)))
                   * TIDEAnalyzer.ms_avg_coherence (snd entry))
                (TIDEAnalyzer.model_comparisons analysis)).
Proof.
  cbv zeta. unfold TIDEAnalyzer.analyze_all_sessions. cbv zeta.
  cbn [TIDEAnalyzer.models_tested TIDEAnalyzer.model_comparisons
       TIDEAnalyzer.total_sessions TIDEAnalyzer.avg_pattern_coherence].
  destruct (collected_models all_results) as [Hkeys Hget].
  unfold TIDEAnalyzer.compare_models.
  set (d := fold_left (TIDEAnalyzer.collect_model RSA) all_results []) in *.
  change (map _ d)
    with (map (fun entry : string * (list R * list nat) =>
                 (fst entry, model_stats_of (snd entry))) d).
  split; [intros m; rewrite keys_map_values, Hkeys; reflexivity|].
  rewrite map_map. simpl.
  assert (Hleft : INR (List.length all_results)
                  * TIDEAnalyzer.mean_or_zero
                      (map (TIDEAnalyzer.coherence_of_result RSA) all_results)
                  = sum (map (TIDEAnalyzer.coherence_of_result RSA) all_results)).
  { rewrite <- (length_map (TIDEAnalyzer.coherence_of_result RSA)).
    apply mean_or_zero_times. }
  rewrite Hleft.
  rewrite (sum_by_key (TIDEAnalyzer.fr_model RSA)
             (TIDEAnalyzer.coherence_of_result RSA) all_results).
  rewrite <- Hkeys. unfold keys. rewrite map_map. f_equal.
  apply map_ext_in. intros [m [scores divs]] Hin. simpl.
  assert (Hnd : NoDup (keys d)) by (rewrite Hkeys; apply NoDup_distinct).
  specialize (Hget m). unfold getd in Hget.
  rewrite (In_get_Some d m (scores, divs) Hnd Hin) in Hget.
  injection Hget as Hs _. fold (sessions_of m all_results). rewrite <- Hs.
  symmetry. apply mean_or_zero_times.
Qed.
End PerModel.

(** On a batch of two sessions of model A and one of model B. *)
Lemma compare_models_per_model_witness :
  exists stats,
    get (TIDEAnalyzer.compare_models unit Examples.batch) "A" = Some stats
    /\ TIDEAnalyzer.ms_coherence_scores stats = [0.8; 0.9]
    /\ TIDEAnalyzer.ms_shift_magnitudes stats = [].
Proof.
  destruct (compare_models_per_model unit Examples.batch) as (_ & Hget & Hin).
  destruct (Hin "A") as [stats Hstats]; [simpl; auto|].
  exists stats. split; [exact Hstats|].
  destruct (Hget "A" stats Hstats) as (Hs & _ & _ & _ & Hm).
  split; [exact Hs|exact Hm].
Defined.

(** * Properties of the similarity engine *)

(** ** Filling a matrix *)

Lemma pair_eq_dec (x y : nat * nat) : {x = y} + {x <> y}.
Proof. decide equality; apply Nat.eq_dec. Qed.


Lemma length_set_nth {A : Type} (l : list A) (i : nat) (a : A) :
  List.length (RSAEngine.set_nth l i a) = List.length l.
Proof.
  revert i. induction l as [|x l IH]; intros [|i]; simpl; auto.
Qed.

Lemma nth_set_nth_same {A : Type} (l : list A) (i : nat) (a d : A) :
  (i < List.length l)%nat -> nth i (RSAEngine.set_nth l i a) d = a.
Proof.
  revert i. induction l as [|x l IH]; intros [|i] H; simpl in *; try lia.
  - reflexivity.
  - apply IH. lia.
Qed.

Lemma nth_set_nth_other {A : Type} (l : list A) (i j : nat) (a d : A) :
  i <> j -> nth j (RSAEngine.set_nth l i a) d = nth j l d.
Proof.
  revert i j. induction l as [|x l IH]; intros [|i] [|j] H; simpl;
    try reflexivity; try congruence.
  apply IH. congruence.
Qed.

Lemma In_set_nth {A : Type} (l : list A) (i : nat) (a x : A) :
  In x (RSAEngine.set_nth l i a) -> x = a \/ In x l.
Proof.
  revert i. induction l as [|y l IH]; intros [|i]; simpl; try tauto.
  - intros [<-|H]; auto.
  - intros [<-|H]; auto. destruct (IH i H); auto.
Qed.

Lemma square_set_entry (n : nat) (rdm : list (list pyfloat)) (i j : nat)
    (v : pyfloat) :
  square n rdm -> (i < n)%nat -> square n (RSAEngine.set_entry rdm i j v).
Proof.
  intros [Hlen Hrows] Hi. unfold RSAEngine.set_entry. split.
  - now rewrite length_set_nth.
  - intros row Hrow. apply In_set_nth in Hrow as [->|Hrow]; [|now apply Hrows].
    rewrite length_set_nth. apply Hrows. apply nth_In. lia.
Qed.

Lemma entry_set_entry (n : nat) (rdm : list (list pyfloat)) (i j a b : nat)
    (v : pyfloat) :
  square n rdm -> (i < n)%nat -> (j < n)%nat ->
  entry (RSAEngine.set_entry rdm i j v) a b
  = if Nat.eqb a i && Nat.eqb b j then v else entry rdm a b.
Proof.
  intros [Hlen Hrows] Hi Hj. unfold entry, RSAEngine.set_entry.
  destruct (Nat.eqb a i) eqn:Ea; simpl.
  - apply Nat.eqb_eq in Ea. subst a.
    rewrite nth_set_nth_same by lia.
    destruct (Nat.eqb b j) eqn:Eb.
    + apply Nat.eqb_eq in Eb. subst b. apply nth_set_nth_same.
      rewrite (Hrows (nth i rdm [])); [lia|]. apply nth_In. lia.
    + apply Nat.eqb_neq in Eb. apply nth_set_nth_other. congruence.
  - apply Nat.eqb_neq in Ea. rewrite nth_set_nth_other by congruence.
    reflexivity.
Qed.

(** The matrix after any number of iterations of the double loop. *)
Lemma fill_entries (n : nat) (distance : nat -> nat -> pyfloat)
    (pairs : list (nat * nat)) (rdm : list (list pyfloat)) :
  square n rdm ->
  (forall ij, In ij pairs -> (fst ij < snd ij < n)%nat) ->
  square n (fold_left (fill_step distance) pairs rdm)
  /\ forall a b, (a < n)%nat -> (b < n)%nat ->
       entry (fold_left (fill_step distance) pairs rdm) a b
       = if in_dec pair_eq_dec
                   (Nat.min a b, Nat.max a b) pairs
         then distance (Nat.min a b) (Nat.max a b)
         else entry rdm a b.
Proof.
  revert rdm. induction pairs as [|[i j] pairs IH]; intros rdm Hsq Hpairs.
  - simpl. split; [exact Hsq|reflexivity].
  - assert (Hij : (i < j < n)%nat) by (apply (Hpairs (i, j)); now left).
    assert (Hsq1 : square n (fill_step distance rdm (i, j))).
    { unfold fill_step. simpl. apply square_set_entry;
        [apply square_set_entry|]; [assumption|lia|lia]. }
    destruct (IH (fill_step distance rdm (i, j)) Hsq1) as [Hsq' Hentry].
    { intros ij Hin. apply Hpairs. now right. }
    simpl fold_left. split; [exact Hsq'|].
    intros a b Ha Hb. rewrite (Hentry a b Ha Hb).
    destruct (in_dec _ (Nat.min a b, Nat.max a b) pairs) as [Hin|Hnot].
    + destruct (in_dec _ (Nat.min a b, Nat.max a b) ((i, j) :: pairs))
        as [_|Hnot']; [reflexivity|]. exfalso. apply Hnot'. now right.
    + unfold fill_step. simpl fst. simpl snd.
      rewrite (entry_set_entry n _ j i a b) by
        (try apply square_set_entry; try assumption; lia).
      rewrite (entry_set_entry n _ i j a b) by (try assumption; lia).
      destruct (in_dec _ (Nat.min a b, Nat.max a b) ((i, j) :: pairs))
        as [[Heq|Hin]|Hnot'].
      * injection Heq as Hmin Hmax.
        destruct (Nat.eqb a j && Nat.eqb b i) eqn:E1;
          [now rewrite <- Hmin, <- Hmax|].
        destruct (Nat.eqb a i && Nat.eqb b j) eqn:E2;
          [now rewrite <- Hmin, <- Hmax|].
        exfalso.
        apply andb_false_iff in E1. apply andb_false_iff in E2.
        rewrite !Nat.eqb_neq in E1, E2. lia.
      * contradiction.
      * destruct (Nat.eqb a j && Nat.eqb b i) eqn:E1.
        { exfalso. apply andb_true_iff in E1 as [E1 E1'].
          apply Nat.eqb_eq in E1, E1'. subst a b. apply Hnot'. left.
          f_equal; lia. }
        destruct (Nat.eqb a i && Nat.eqb b j) eqn:E2; [|reflexivity].
        exfalso. apply andb_true_iff in E2 as [E2 E2'].
        apply Nat.eqb_eq in E2, E2'. subst a b. apply Hnot'. left.
        f_equal; lia.
Qed.

Lemma upper_pairs_spec (n i j : nat) :
  In (i, j) (RSAEngine.upper_pairs n) <-> (i < j < n)%nat.
Proof.
  unfold RSAEngine.upper_pairs. rewrite in_flat_map. split.
  - intros (i' & Hi' & Hin). apply in_map_iff in Hin as (j' & [= <- <-] & Hj').
    apply in_seq in Hi', Hj'. lia.
  - intros H. exists i. split; [apply in_seq; lia|].
    apply in_map_iff. exists j. split; [reflexivity|]. apply in_seq. lia.
Qed.

Lemma square_zeros (n : nat) : square n (RSAEngine.zeros n).
Proof.
  unfold RSAEngine.zeros. split; [apply repeat_length|].
  intros row Hrow. apply repeat_spec in Hrow. subst row. apply repeat_length.
Qed.

Lemma entry_zeros (n a b : nat) : entry (RSAEngine.zeros n) a b = Num 0.
Proof.
  unfold entry, RSAEngine.zeros.
  destruct (Nat.lt_ge_cases a n) as [Ha|Ha].
  - rewrite (nth_indep _ [] (repeat (Num 0) n)) by (rewrite repeat_length; lia).
    rewrite nth_repeat. apply nth_repeat.
  - rewrite (nth_overflow _ []) by (rewrite repeat_length; lia).
    now destruct b.
Qed.

(** The matrix that the double loop builds from a distance: it is square,
    its diagonal is 0 and its entries [(i, j)] and [(j, i)] are the
    distance of [i] and [j], for [i < j]. *)
Lemma fill_rdm_entries (n : nat) (distance : nat -> nat -> pyfloat) :
  square n (RSAEngine.fill_rdm n distance)
  /\ forall a b, (a < n)%nat -> (b < n)%nat ->
       entry (RSAEngine.fill_rdm n distance) a b
       = if Nat.eqb a b then Num 0
         else distance (Nat.min a b) (Nat.max a b).
Proof.
  unfold RSAEngine.fill_rdm.
  change (fun rdm ij => RSAEngine.set_entry
            (RSAEngine.set_entry rdm (fst ij) (snd ij)
                                 (distance (fst ij) (snd ij)))
            (snd ij) (fst ij) (distance (fst ij) (snd ij)))
    with (fill_step distance).
  destruct (fill_entries n distance (RSAEngine.upper_pairs n)
              (RSAEngine.zeros n) (square_zeros n)) as [Hsq Hentry].
  { intros [i j] Hin. now apply upper_pairs_spec. }
  split; [exact Hsq|].
  intros a b Ha Hb. rewrite (Hentry a b Ha Hb), entry_zeros.
  destruct (in_dec _ (Nat.min a b, Nat.max a b) (RSAEngine.upper_pairs n))
    as [Hin|Hnot].
  - apply upper_pairs_spec in Hin.
    destruct (Nat.eqb a b) eqn:E; [|reflexivity].
    apply Nat.eqb_eq in E. lia.
  - destruct (Nat.eqb a b) eqn:E; [reflexivity|].
    apply Nat.eqb_neq in E. exfalso. apply Hnot. apply upper_pairs_spec. lia.
Qed.

(** ** Pattern and feature matrices *)

(** X18: the pattern matrix of a session with fewer than two responses is
    the empty array; otherwise it is an n by n matrix whose entry (a, b)
    is 0 when a = b or when the responses a and b have the same pattern,
    and 1 otherwise; so it is symmetric with a zero diagonal. *)
Theorem create_pattern_rdm_entries (session : Session) :
  let patterns :=
    map pattern (List.concat (values (responses session))) in
  let n := List.length patterns in
  let rdm := RSAEngine.create_pattern_rdm session in
  ((n < 2)%nat -> rdm = [])
  /\ ((2 <= n)%nat ->
      square n rdm
      /\ forall a b, (a < n)%nat -> (b < n)%nat ->
           entry rdm a b
           = (if Nat.eqb a b then Num 0
              else if String.eqb (nth a patterns "") (nth b patterns "")
                   then Num 0 else Num 1)
           /\ entry rdm b a = entry rdm a b).
Proof.
  cbv zeta. unfold RSAEngine.create_pattern_rdm. cbv zeta.
  set (patterns := map pattern (List.concat (values (responses session)))).
  set (n := List.length patterns).
  split.
  - intros Hlt. apply Nat.ltb_lt in Hlt. now rewrite Hlt.
  - intros Hge.
    assert (E : Nat.ltb n 2 = false) by (apply Nat.ltb_ge; lia).
    rewrite E.
    destruct (fill_rdm_entries n
                (fun i j => if String.eqb (nth i patterns "") (nth j patterns "")
                            then Num 0 else Num 1)) as [Hsq Hentry].
    split; [exact Hsq|].
    assert (H : forall a b, (a < n)%nat -> (b < n)%nat ->
              entry (RSAEngine.fill_rdm n
                       (fun i j => if String.eqb (nth i patterns "")
                                                 (nth j patterns "")
                                   then Num 0 else Num 1)) a b
              = if Nat.eqb a b then Num 0
                else if String.eqb (nth a patterns "") (nth b patterns "")
                     then Num 0 else Num 1).
    { intros a b Ha Hb. rewrite (Hentry a b Ha Hb).
      destruct (Nat.eqb a b) eqn:Eab; [reflexivity|].
      destruct (Nat.le_ge_cases a b) as [Hle|Hle].
      - now rewrite Nat.min_l, Nat.max_r by assumption.
      - rewrite Nat.min_r, Nat.max_l by assumption.
        now rewrite String.eqb_sym. }
    intros a b Ha Hb. split; [now apply H|].
    rewrite (H a b Ha Hb), (H b a Hb Ha), (Nat.eqb_sym b a).
    now rewrite (String.eqb_sym (nth b patterns "")).
Qed.

(** On the session of [test_fix.py]: two responses, different patterns. *)
Lemma create_pattern_rdm_entries_witness :
  entry (RSAEngine.create_pattern_rdm Examples.test_session) 0 1 = Num 1
  /\ entry (RSAEngine.create_pattern_rdm Examples.test_session) 1 0 = Num 1.
Proof.
  destruct (create_pattern_rdm_entries Examples.test_session) as [_ H].
  destruct (H (le_n 2)) as [_ Hentry].
  destruct (Hentry 0%nat 1%nat (Nat.lt_0_2) (Nat.lt_1_2)) as [H01 H10].
  split; [exact H01|]. rewrite H10. exact H01.
Defined.

Lemma for_each_ok {A B : Type} (f : A -> B -> result A) (g : A -> B -> A)
    (l : list B) (acc : A) :
  (forall x acc', In x l -> f acc' x = Ok (g acc' x)) ->
  for_each f l acc = Ok (fold_left g l acc).
Proof.
  revert acc. induction l as [|x l IH]; intros acc H; simpl; [reflexivity|].
  rewrite (H x acc (or_introl eq_refl)). simpl.
  apply IH. intros y acc' Hy. apply H. now right.
Qed.

Lemma for_each_raises {A B : Type} (f : A -> B -> result A) (e : exn)
    (l : list B) (acc : A) :
  (forall x acc', f acc' x = Raised e \/ exists acc'', f acc' x = Ok acc'') ->
  (exists x, In x l /\ forall acc', f acc' x = Raised e) ->
  for_each f l acc = Raised e.
Proof.
  intros Hall. revert acc. induction l as [|x l IH]; intros acc Hbad.
  - destruct Hbad as (x & [] & _).
  - simpl. destruct (Hall x acc) as [Hr|[acc'' Hok]].
    + now rewrite Hr.
    + rewrite Hok. simpl. apply IH.
      destruct Hbad as (y & [<-|Hy] & Hraise); [|eauto].
      rewrite Hraise in Hok. discriminate.
Qed.

Lemma cosine_outcome (u v : list R) :
  (List.length u = List.length v -> exists d, cosine u v = Ok d)
  /\ (List.length u <> List.length v -> cosine u v = Raised ValueError).
Proof.
  unfold cosine. split; intros H.
  - apply Nat.eqb_eq in H. rewrite H. simpl.
    destruct (Req_bool _ 0); eauto.
  - apply Nat.eqb_neq in H. now rewrite H.
Qed.

Lemma length_insert_sorted (k : string) (l : list string) :
  List.length (RSAEngine.insert_sorted k l) = S (List.length l).
Proof.
  induction l as [|x l IH]; simpl; [reflexivity|].
  destruct (String.leb k x); simpl; [reflexivity|now rewrite IH].
Qed.

Lemma length_feature_vec (resp : Response) :
  List.length (RSAEngine.feature_vec resp) = List.length (features resp).
Proof.
  unfold RSAEngine.feature_vec, RSAEngine.sorted, keys.
  rewrite length_map.
  induction (features resp) as [|kv l IH]; simpl; [reflexivity|].
  now rewrite length_insert_sorted, IH.
Qed.

(** The step of [create_feature_rdm] on one pair of positions. *)
Lemma feature_step_outcome (vectors : list (list R))
    (rdm : list (list pyfloat)) (ij : nat * nat) :
  (List.length (nth (fst ij) vectors []) = List.length (nth (snd ij) vectors [])
   -> (distance <- cosine (nth (fst ij) vectors []) (nth (snd ij) vectors []) ;;
       Ok (RSAEngine.set_entry
             (RSAEngine.set_entry rdm (fst ij) (snd ij) distance)
             (snd ij) (fst ij) distance))
      = Ok (fill_step (feature_distance vectors) rdm ij))
  /\ (List.length (nth (fst ij) vectors [])
      <> List.length (nth (snd ij) vectors [])
      -> (distance <- cosine (nth (fst ij) vectors []) (nth (snd ij) vectors []) ;;
          Ok (RSAEngine.set_entry
                (RSAEngine.set_entry rdm (fst ij) (snd ij) distance)
                (snd ij) (fst ij) distance))
         = Raised ValueError).
Proof.
  split; intros H.
  - destruct (proj1 (cosine_outcome _ _) H) as [d Hd].
    unfold fill_step, feature_distance. now rewrite Hd.
  - now rewrite (proj2 (cosine_outcome _ _) H).
Qed.

(** X19: with fewer than two responses [create_feature_rdm] returns the
    empty array.  With at least two, it succeeds when all responses have
    the same number of features, and then returns an n by n symmetric
    matrix with a zero diagonal whose other entries are the cosine
    distances of the vectors; it raises [ValueError] when two responses
    have different numbers of features. *)
Theorem create_feature_rdm_outcome (session : Session) :
  let resps := List.concat (values (responses session)) in
  let vectors := map RSAEngine.feature_vec resps in
  let n := List.length resps in
  ((n < 2)%nat -> RSAEngine.create_feature_rdm session = Ok [])
  /\ ((2 <= n)%nat ->
      (forall r1 r2, In r1 resps -> In r2 resps ->
         List.length (features r1) = List.length (features r2)) ->
      exists rdm,
        RSAEngine.create_feature_rdm session = Ok rdm
        /\ square n rdm
        /\ forall a b, (a < n)%nat -> (b < n)%nat ->
             (a = b -> entry rdm a b = Num 0)
             /\ (a <> b ->
                 cosine (nth (Nat.min a b) vectors [])
                        (nth (Nat.max a b) vectors [])
                 = Ok (entry rdm a b))
             /\ entry rdm b a = entry rdm a b)
  /\ ((2 <= n)%nat ->
      (exists r1 r2, In r1 resps /\ In r2 resps
         /\ List.length (features r1) <> List.length (features r2)) ->
      RSAEngine.create_feature_rdm session = Raised ValueError).
Proof.
  cbv zeta. unfold RSAEngine.create_feature_rdm. cbv zeta.
  set (resps := List.concat (values (responses session))).
  rewrite !length_map.
  set (vectors := map RSAEngine.feature_vec resps).
  set (n := List.length resps).
  assert (Hvec : forall i, (i < n)%nat ->
            exists r, In r resps
                      /\ List.length (nth i vectors [])
                         = List.length (features r)).
  { intros i Hi. exists (nth i resps (Examples.response_with [] "")). split.
    - apply nth_In. exact Hi.
    - unfold vectors.
      rewrite (nth_indep _ [] (RSAEngine.feature_vec
                                 (Examples.response_with [] "")))
        by (rewrite length_map; exact Hi).
      rewrite map_nth. apply length_feature_vec. }
  split; [|split].
  - intros Hlt. apply Nat.ltb_lt in Hlt. now rewrite Hlt.
  - intros Hge Hsame.
    assert (E : Nat.ltb n 2 = false) by (apply Nat.ltb_ge; lia).
    rewrite E.
    rewrite (for_each_ok _ (fill_step (feature_distance vectors))).
    + destruct (fill_rdm_entries n (feature_distance vectors)) as [Hsq Hentry].
      unfold RSAEngine.fill_rdm in Hsq, Hentry.
      change (fun rdm ij => RSAEngine.set_entry
                (RSAEngine.set_entry rdm (fst ij) (snd ij)
                   (feature_distance vectors (fst ij) (snd ij)))
                (snd ij) (fst ij) (feature_distance vectors (fst ij) (snd ij)))
        with (fill_step (feature_distance vectors)) in Hsq, Hentry.
      eexists. split; [reflexivity|]. split; [exact Hsq|].
      intros a b Ha Hb.
      assert (Hcos : forall i j, (i < n)%nat -> (j < n)%nat ->
                cosine (nth i vectors []) (nth j vectors [])
                = Ok (feature_distance vectors i j)).
      { intros i j Hi Hj. unfold feature_distance.
        destruct (Hvec i Hi) as (r1 & Hr1 & Hl1).
        destruct (Hvec j Hj) as (r2 & Hr2 & Hl2).
        destruct (proj1 (cosine_outcome (nth i vectors []) (nth j vectors [])))
          as [d Hd]; [rewrite Hl1, Hl2; now apply Hsame|].
        now rewrite Hd. }
      split; [|split].
      * intros ->. rewrite (Hentry b b Hb Hb). now rewrite Nat.eqb_refl.
      * intros Hne. rewrite (Hentry a b Ha Hb).
        apply Nat.eqb_neq in Hne. rewrite Hne. apply Hcos; lia.
      * rewrite (Hentry a b Ha Hb), (Hentry b a Hb Ha).
        now rewrite (Nat.eqb_sym b a), Nat.min_comm, Nat.max_comm.
    + intros [i j] acc' Hin. apply upper_pairs_spec in Hin.
      apply (proj1 (feature_step_outcome vectors acc' (i, j))). simpl.
      destruct (Hvec i) as (r1 & Hr1 & Hl1); [lia|].
      destruct (Hvec j) as (r2 & Hr2 & Hl2); [lia|].
      rewrite Hl1, Hl2. now apply Hsame.
  - intros Hge (r1 & r2 & Hr1 & Hr2 & Hne).
    assert (E : Nat.ltb n 2 = false) by (apply Nat.ltb_ge; lia).
    rewrite E.
    apply for_each_raises.
    + intros ij acc'.
      destruct (Nat.eq_dec (List.length (nth (fst ij) vectors []))
                           (List.length (nth (snd ij) vectors []))) as [Heq|Hd].
      * right. eexists.
        apply (proj1 (feature_step_outcome vectors acc' ij) Heq).
      * left. apply (proj2 (feature_step_outcome vectors acc' ij) Hd).
    + destruct (In_nth resps r1 (Examples.response_with [] "") Hr1)
        as (i & Hi & Hnth1).
      destruct (In_nth resps r2 (Examples.response_with [] "") Hr2)
        as (j & Hj & Hnth2).
      assert (Hlen : forall k, (k < n)%nat ->
                List.length (nth k vectors [])
                = List.length
                    (features (nth k resps (Examples.response_with [] "")))).
      { intros k Hk. unfold vectors.
        rewrite (nth_indep _ [] (RSAEngine.feature_vec
                                   (Examples.response_with [] "")))
          by (rewrite length_map; exact Hk).
        rewrite map_nth. apply length_feature_vec. }
      assert (Hij : i <> j) by (intros ->; congruence).
      exists (Nat.min i j, Nat.max i j). split.
      * apply upper_pairs_spec. fold n in Hi, Hj. lia.
      * intros acc'.
        apply (proj2 (feature_step_outcome vectors acc'
                        (Nat.min i j, Nat.max i j))).
        simpl. fold n in Hi, Hj.
        destruct (Nat.le_ge_cases i j) as [Hle|Hle].
        -- rewrite Nat.min_l, Nat.max_r by assumption.
           rewrite (Hlen i Hi), (Hlen j Hj), Hnth1, Hnth2. exact Hne.
        -- rewrite Nat.min_r, Nat.max_l by assumption.
           rewrite (Hlen i Hi), (Hlen j Hj), Hnth1, Hnth2. congruence.
Qed.

(** On the session of [test_fix.py], whose two responses have four
    features each. *)
Lemma create_feature_rdm_outcome_witness :
  exists rdm,
    RSAEngine.create_feature_rdm Examples.test_session = Ok rdm
    /\ square 2 rdm.
Proof.
  destruct (create_feature_rdm_outcome Examples.test_session)
    as (_ & Hok & _).
  assert (Hsame : forall r1 r2,
            In r1 (List.concat (values (responses Examples.test_session))) ->
            In r2 (List.concat (values (responses Examples.test_session))) ->
            List.length (features r1) = List.length (features r2)).
  { intros r1 r2 [<-|[<-|[]]] [<-|[<-|[]]]; reflexivity. }
  destruct (Hok (le_n 2) Hsame) as (rdm & Hrdm & Hsq & _).
  exists rdm. split; [exact Hrdm|exact Hsq].
Defined.

(** ** Lexical distance *)

Section Lexical.
Variable lower_split : string -> list string.

Lemma inter_length_le (w1 w2 : list string) :
  (List.length (filter (fun w => mem w w2) w1)
   <= List.length (w1 ++ filter (fun w => negb (mem w w1)) w2))%nat.
Proof.
  rewrite length_app. pose proof (filter_length_le (fun w => mem w w2) w1). lia.
Qed.

Lemma inter_length_comm (w1 w2 : list string) :
  NoDup w1 -> NoDup w2 ->
  List.length (filter (fun w => mem w w2) w1)
  = List.length (filter (fun w => mem w w1) w2).
Proof.
  intros H1 H2. apply Permutation_length.
  apply NoDup_Permutation; try now apply NoDup_filter.
  intros w. rewrite !filter_In, !mem_In. tauto.
Qed.

Lemma union_length_comm (w1 w2 : list string) :
  NoDup w1 -> NoDup w2 ->
  List.length (w1 ++ filter (fun w => negb (mem w w1)) w2)
  = List.length (w2 ++ filter (fun w => negb (mem w w2)) w1).
Proof.
  intros H1 H2.
  assert (Hnd : forall a b : list string, NoDup a -> NoDup b ->
            NoDup (a ++ filter (fun w => negb (mem w a)) b)).
  { intros a b Ha Hb. apply NoDup_app; [exact Ha|now apply NoDup_filter|].
    intros w Hw Hw'. apply filter_In in Hw' as [_ Hw'].
    apply (proj2 (mem_In w a)) in Hw. rewrite Hw in Hw'. discriminate. }
  apply Permutation_length.
  apply NoDup_Permutation; try now apply Hnd.
  intros w. rewrite !in_app_iff, !filter_In, !negb_true_iff.
  assert (D1 : mem w w1 = true <-> In w w1) by apply mem_In.
  assert (D2 : mem w w2 = true <-> In w w2) by apply mem_In.
  destruct (mem w w1); destruct (mem w w2); intuition discriminate.
Qed.

Lemma semantic_distance_comm (text1 text2 : string) :
  RSAEngine.semantic_distance lower_split text1 text2
  = RSAEngine.semantic_distance lower_split text2 text1.
Proof.
  unfold RSAEngine.semantic_distance. cbv zeta.
  set (w1 := RSAEngine.word_set lower_split text1).
  set (w2 := RSAEngine.word_set lower_split text2).
  assert (Hn1 : NoDup w1) by apply NoDup_distinct.
  assert (Hn2 : NoDup w2) by apply NoDup_distinct.
  rewrite (Nat.add_comm (List.length w2) (List.length w1)).
  rewrite (inter_length_comm w1 w2 Hn1 Hn2).
  rewrite (union_length_comm w1 w2 Hn1 Hn2). reflexivity.
Qed.

(** X20: the lexical distance of two texts lies between 0 and 1 and does
    not depend on their order; it is 1 when neither text has a word and
    when the texts have no word in common, and 0 between a text that has a
    word and itself. *)
Theorem semantic_distance_properties (text1 text2 : string) :
  0 <= RSAEngine.semantic_distance lower_split text1 text2 <= 1
  /\ RSAEngine.semantic_distance lower_split text1 text2
     = RSAEngine.semantic_distance lower_split text2 text1
  /\ (RSAEngine.word_set lower_split text1 = [] ->
      RSAEngine.word_set lower_split text2 = [] ->
      RSAEngine.semantic_distance lower_split text1 text2 = 1)
  /\ ((forall w, In w (RSAEngine.word_set lower_split text1) ->
                 ~ In w (RSAEngine.word_set lower_split text2)) ->
      RSAEngine.semantic_distance lower_split text1 text2 = 1)
  /\ (RSAEngine.word_set lower_split text1 <> [] ->
      RSAEngine.semantic_distance lower_split text1 text1 = 0).
Proof.
  unfold RSAEngine.semantic_distance. cbv zeta.
  set (w1 := RSAEngine.word_set lower_split text1).
  set (w2 := RSAEngine.word_set lower_split text2).
  assert (Hn1 : NoDup w1) by apply NoDup_distinct.
  assert (Hn2 : NoDup w2) by apply NoDup_distinct.
  assert (Hunion : (0 < List.length w1 + List.length w2)%nat ->
            0 < INR (List.length (w1 ++ filter (fun w => negb (mem w w1)) w2))).
  { intros Hpos. apply lt_0_INR. rewrite length_app.
    destruct w1 as [|a w1']; simpl in *; [|lia].
    rewrite filter_all by reflexivity. lia. }
  split; [|split; [|split; [|split]]].
  - destruct (Nat.ltb 0 (List.length w1 + List.length w2)) eqn:E; [|lra].
    apply Nat.ltb_lt in E. specialize (Hunion E).
    pose proof (inter_length_le w1 w2) as Hle. apply le_INR in Hle.
    pose proof (pos_INR (List.length (filter (fun w => mem w w2) w1))) as H0.
    set (i := INR (List.length (filter (fun w => mem w w2) w1))) in *.
    set (u := INR (List.length (w1 ++ filter (fun w => negb (mem w w1)) w2)))
      in *.
    assert (0 <= i / u <= 1).
    { split.
      - apply Rmult_le_reg_r with u; [exact Hunion|].
        unfold Rdiv. rewrite Rmult_assoc, Rinv_l by lra. lra.
      - apply Rmult_le_reg_r with u; [exact Hunion|].
        unfold Rdiv. rewrite Rmult_assoc, Rinv_l by lra. lra. }
    lra.
  - rewrite (Nat.add_comm (List.length w2) (List.length w1)).
    rewrite (inter_length_comm w1 w2 Hn1 Hn2).
    rewrite (union_length_comm w1 w2 Hn1 Hn2). reflexivity.
  - intros E1 E2. now rewrite E1, E2.
  - intros Hdisj.
    rewrite filter_none.
    + destruct (Nat.ltb 0 _); [|reflexivity]. simpl. lra.
    + intros w Hw. destruct (mem w w2) eqn:E; [|reflexivity].
      apply mem_In in E. exfalso. now apply (Hdisj w).
  - intros Hne.
    rewrite filter_all by (intros w Hw; now apply mem_In).
    rewrite filter_none, app_nil_r.
    + assert (Hpos : (0 < List.length w1)%nat)
        by (destruct w1; [congruence|simpl; lia]).
      assert (E : Nat.ltb 0 (List.length w1 + List.length w1) = true)
        by (apply Nat.ltb_lt; lia).
      rewrite E. apply lt_0_INR in Hpos. field. lra.
    + intros w Hw. apply (proj2 (mem_In w w1)) in Hw. now rewrite Hw.
Qed.

(** X21: the lexical matrix of a session with fewer than two responses is
    the empty array; otherwise it is an n by n symmetric matrix with a
    zero diagonal whose entry (a, b) is the lexical distance of the texts
    of the responses a and b. *)
Theorem create_semantic_rdm_entries (session : Session) :
  let texts := map response (List.concat (values (responses session))) in
  let n := List.length texts in
  let rdm := RSAEngine.create_semantic_rdm lower_split session in
  ((n < 2)%nat -> rdm = [])
  /\ ((2 <= n)%nat ->
      square n rdm
      /\ forall a b, (a < n)%nat -> (b < n)%nat ->
           entry rdm a b
           = (if Nat.eqb a b then Num 0
              else Num (RSAEngine.semantic_distance lower_split
                          (nth a texts "") (nth b texts "")))
           /\ entry rdm b a = entry rdm a b).
Proof.
  cbv zeta. unfold RSAEngine.create_semantic_rdm. cbv zeta.
  set (texts := map response (List.concat (values (responses session)))).
  set (n := List.length texts).
  split.
  - intros Hlt. apply Nat.ltb_lt in Hlt. now rewrite Hlt.
  - intros Hge.
    assert (E : Nat.ltb n 2 = false) by (apply Nat.ltb_ge; lia).
    rewrite E.
    destruct (fill_rdm_entries n
                (fun i j => Num (RSAEngine.semantic_distance lower_split
                                   (nth i texts "") (nth j texts ""))))
      as [Hsq Hentry].
    split; [exact Hsq|].
    pose proof semantic_distance_comm as Hsym.
    assert (H : forall a b, (a < n)%nat -> (b < n)%nat ->
              entry (RSAEngine.fill_rdm n
                       (fun i j => Num (RSAEngine.semantic_distance lower_split
                                          (nth i texts "") (nth j texts ""))))
                    a b
              = if Nat.eqb a b then Num 0
                else Num (RSAEngine.semantic_distance lower_split
                            (nth a texts "") (nth b texts ""))).
    { intros a b Ha Hb. rewrite (Hentry a b Ha Hb).
      destruct (Nat.eqb a b) eqn:Eab; [reflexivity|].
      destruct (Nat.le_ge_cases a b) as [Hle|Hle].
      - now rewrite Nat.min_l, Nat.max_r by assumption.
      - rewrite Nat.min_r, Nat.max_l by assumption. now rewrite Hsym. }
    intros a b Ha Hb. split; [now apply H|].
    rewrite (H a b Ha Hb), (H b a Hb Ha), (Nat.eqb_sym b a).
    now rewrite (Hsym (nth b texts "")).
Qed.
End Lexical.

(** On the text of the first response of [test_fix.py]. *)
Lemma semantic_distance_properties_witness :
  RSAEngine.semantic_distance Examples.words_of_test
    "test response" "test response" = 0.
Proof.
  apply (semantic_distance_properties Examples.words_of_test
           "test response" "test response").
  discriminate.
Defined.

(** On the session of [test_fix.py]. *)
Lemma create_semantic_rdm_entries_witness :
  entry (RSAEngine.create_semantic_rdm Examples.words_of_test
           Examples.test_session) 0 1
  = Num (RSAEngine.semantic_distance Examples.words_of_test
           "test response" "test response 2").
Proof.
  destruct (create_semantic_rdm_entries Examples.words_of_test
              Examples.test_session) as [_ H].
  destruct (H (le_n 2)) as [_ Hentry].
  exact (proj1 (Hentry 0%nat 1%nat Nat.lt_0_2 Nat.lt_1_2)).
Defined.

(** ** Comparing two matrices *)

Section Compare.
Variable spearmanr : list pyfloat -> list pyfloat -> result pyfloat.

Lemma shape_eqb_true (a b : list nat) :
  shape_eqb a b = true <-> a = b.
Proof.
  unfold shape_eqb.
  destruct (list_eq_dec Nat.eq_dec a b); intuition discriminate.
Qed.

Lemma shape_square (n : nat) (rdm : list (list pyfloat)) :
  (0 < n)%nat -> square n rdm -> RSAEngine.shape rdm = [n; n].
Proof.
  intros Hn [Hlen Hrows]. destruct rdm as [|row rdm]; simpl in *; [lia|].
  now rewrite Hlen, (Hrows row (or_introl eq_refl)).
Qed.

(** X22: [compare_rdms] gives 0 for two matrices of different shapes and
    for any two 2 by 2 matrices, whose only pair of responses leaves a
    single value to correlate; it fails only on two empty arrays, which
    have one dimension. *)
Theorem compare_rdms_degenerate (rdm1 rdm2 : list (list pyfloat)) :
  (RSAEngine.shape rdm1 <> RSAEngine.shape rdm2 ->
   RSAEngine.compare_rdms spearmanr rdm1 rdm2 = Some 0)
  /\ (square 2 rdm1 -> square 2 rdm2 ->
      RSAEngine.compare_rdms spearmanr rdm1 rdm2 = Some 0)
  /\ (RSAEngine.compare_rdms spearmanr rdm1 rdm2 = None
      <-> rdm1 = [] /\ rdm2 = []).
Proof.
  unfold RSAEngine.compare_rdms. split; [|split].
  - intros Hne.
    destruct (shape_eqb _ _) eqn:E; [|reflexivity].
    apply shape_eqb_true in E. contradiction.
  - intros H1 H2.
    rewrite (shape_square 2 rdm1 Nat.lt_0_2 H1),
      (shape_square 2 rdm2 Nat.lt_0_2 H2).
    assert (E : shape_eqb [2%nat; 2%nat] [2%nat; 2%nat] = true)
      by now apply shape_eqb_true.
    rewrite E. simpl negb. cbv iota.
    destruct H1 as [Hlen1 _].
    destruct rdm1 as [|row rdm1']; [discriminate|].
    cbv zeta. unfold RSAEngine.upper_values. rewrite Hlen1. reflexivity.
  - split.
    + destruct (shape_eqb _ _) eqn:E; simpl; [|discriminate].
      apply shape_eqb_true in E.
      destruct rdm1 as [|row1 rdm1'].
      * intros _. split; [reflexivity|].
        destruct rdm2 as [|row2 rdm2']; [reflexivity|discriminate E].
      * cbv zeta. destruct (Nat.ltb 0 _); [|discriminate].
        destruct (_ || _); [discriminate|].
        destruct (spearmanr _ _) as [[c|]|e]; discriminate.
    + intros [-> ->]. reflexivity.
Qed.
End Compare.

(** On two 2 by 2 matrices of zeros. *)
Lemma compare_rdms_degenerate_witness :
  RSAEngine.compare_rdms (fun _ _ => Ok NaN)
    (RSAEngine.zeros 2) (RSAEngine.zeros 2) = Some 0.
Proof.
  apply (proj1 (proj2 (compare_rdms_degenerate (fun _ _ => Ok NaN)
                         (RSAEngine.zeros 2) (RSAEngine.zeros 2))));
    apply square_zeros.
Defined.

(** * Properties of the scientific summary *)

(** ** Pattern stability *)

Lemma pattern_changes_le (l : list string) :
  (ScientificSummary.pattern_changes l <= List.length l - 1)%nat.
Proof.
  induction l as [|p [|q rest] IH]; simpl in *; try lia.
  destruct (String.eqb q p); lia.
Qed.

Lemma pattern_changes_zero (l : list string) :
  ScientificSummary.pattern_changes l = 0%nat
  <-> forall p q, In p l -> In q l -> p = q.
Proof.
  induction l as [|p [|q rest] IH].
  - simpl. split; [intros _ p q []|reflexivity].
  - simpl. split; [|reflexivity].
    intros _ a b [<-|[]] [<-|[]]. reflexivity.
  - change (ScientificSummary.pattern_changes (p :: q :: rest))
      with ((if String.eqb q p then 0 else 1)
            + ScientificSummary.pattern_changes (q :: rest))%nat.
    destruct (String.eqb q p) eqn:E.
    + apply String.eqb_eq in E. subst q. simpl Nat.add. rewrite IH. split.
      * intros H a b Ha Hb. apply H.
        -- destruct Ha as [<-|Ha]; [now left|exact Ha].
        -- destruct Hb as [<-|Hb]; [now left|exact Hb].
      * intros H a b Ha Hb. apply H; now right.
    + apply String.eqb_neq in E. split; [simpl; lia|].
      intros H. exfalso. apply E. apply H; simpl; auto.
Qed.

(** X23: the pattern stability of a batch with fewer than two responses
    is 0; with at least two it lies above 0 and at most 1, and it is 1
    exactly when all responses have the same pattern. *)
Theorem stability_score_bounds (all_patterns : list string) :
  ((List.length all_patterns < 2)%nat ->
   ScientificSummary.stability_score all_patterns = 0)
  /\ ((2 <= List.length all_patterns)%nat ->
      0 < ScientificSummary.stability_score all_patterns <= 1
      /\ (ScientificSummary.stability_score all_patterns = 1
          <-> forall p q, In p all_patterns -> In q all_patterns -> p = q)).
Proof.
  unfold ScientificSummary.stability_score. split.
  - intros Hlt.
    assert (E : Nat.ltb 1 (List.length all_patterns) = false)
      by (apply Nat.ltb_ge; lia).
    now rewrite E.
  - intros Hge.
    assert (E : Nat.ltb 1 (List.length all_patterns) = true)
      by (apply Nat.ltb_lt; lia).
    rewrite E.
    pose proof (pattern_changes_le all_patterns) as Hle.
    set (c := ScientificSummary.pattern_changes all_patterns) in *.
    set (n := List.length all_patterns) in *.
    assert (Hn : 0 < INR n) by (apply lt_0_INR; lia).
    assert (Hc : 0 <= INR c) by apply pos_INR.
    assert (Hcn : INR c <= INR n - 1).
    { replace (INR n - 1) with (INR (n - 1)).
      - now apply le_INR.
      - rewrite minus_INR by lia. simpl. lra. }
    assert (Hq : 0 <= INR c / INR n < 1).
    { split.
      - apply Rmult_le_reg_r with (INR n); [exact Hn|].
        unfold Rdiv. rewrite Rmult_assoc, Rinv_l by lra. lra.
      - apply Rmult_lt_reg_r with (INR n); [exact Hn|].
        unfold Rdiv. rewrite Rmult_assoc, Rinv_l by lra. lra. }
    split; [lra|].
    rewrite <- (pattern_changes_zero all_patterns). fold c. split.
    + intros H1. assert (Hz : INR c / INR n = 0) by lra.
      assert (Hc0 : INR c = 0).
      { apply (Rmult_eq_compat_r (INR n)) in Hz.
        unfold Rdiv in Hz. rewrite Rmult_assoc, Rinv_l in Hz by lra. lra. }
      destruct c; [reflexivity|].
      pose proof (lt_0_INR (S c)) as Hpos. assert (0 < INR (S c)) by (apply Hpos; lia).
      lra.
    + intros ->. simpl. lra.
Qed.

(** On the patterns CCDF, CCDF, AADS. *)
Lemma stability_score_bounds_witness :
  0 < ScientificSummary.stability_score ["CCDF"; "CCDF"; "AADS"] <= 1.
Proof.
  apply (proj2 (stability_score_bounds ["CCDF"; "CCDF"; "AADS"])).
  simpl. lia.
Defined.

(** ** Response statistics *)

Lemma list_sum_dict_set_add (d : Dict nat) (k : string) (c n : nat) :
  get d k = Some c ->
  list_sum (values (dict_set d k (c + n)%nat))
  = (list_sum (values d) + n)%nat.
Proof.
  unfold values. induction d as [|[k' v'] d IH]; simpl; [discriminate|].
  destruct (String.eqb k' k) eqn:E.
  - intros [= ->]. simpl. lia.
  - intros H. simpl. rewrite IH by assumption. lia.
Qed.

Lemma list_sum_track (counts : Dict nat) (p : string) :
  list_sum (values
    (dict_set (if contains counts p then counts else dict_set counts p 0%nat) p
       (getd (if contains counts p then counts else dict_set counts p 0%nat)
             p 0%nat + 1)%nat))
  = (list_sum (values counts) + 1)%nat.
Proof.
  unfold contains, getd.
  destruct (get counts p) as [c|] eqn:E.
  - rewrite E. now apply list_sum_dict_set_add.
  - rewrite get_dict_set_same.
    rewrite (list_sum_dict_set_add (dict_set counts p 0%nat) p 0 1)
      by apply get_dict_set_same.
    f_equal. unfold values.
    induction counts as [|[k v] d IH]; simpl in *; [reflexivity|].
    destruct (String.eqb k p); [discriminate|].
    simpl. now rewrite IH.
Qed.

(** Tracking the patterns of some responses. *)
Lemma track_patterns (resps : list ScientificSummary.StoredResponse)
    (stats : ScientificSummary.ResponseStats) :
  let stats' := fold_left ScientificSummary.track_pattern resps stats in
  ScientificSummary.total_responses stats'
  = ScientificSummary.total_responses stats
  /\ ScientificSummary.response_distribution stats'
     = ScientificSummary.response_distribution stats
  /\ ScientificSummary.all_patterns stats'
     = (ScientificSummary.all_patterns stats
        ++ map ScientificSummary.pattern_of resps)%list
  /\ list_sum (values (ScientificSummary.pattern_counts stats'))
     = (list_sum (values (ScientificSummary.pattern_counts stats))
        + List.length resps)%nat.
Proof.
  revert stats. induction resps as [|resp resps IH]; intros stats.
  - simpl. rewrite app_nil_r. repeat split; lia.
  - simpl fold_left.
    destruct (IH (ScientificSummary.track_pattern stats resp))
      as (Ht & Hd & Hp & Hc).
    cbv zeta in *. rewrite Ht, Hd, Hp, Hc.
    unfold ScientificSummary.track_pattern. cbv zeta.
    cbn [ScientificSummary.total_responses
         ScientificSummary.response_distribution
         ScientificSummary.all_patterns ScientificSummary.pattern_counts].
    rewrite list_sum_track, <- app_assoc. simpl. repeat split. lia.
Qed.

(** One task-type entry: it raises on an unknown task type and otherwise
    keeps the statistics consistent. *)
Lemma process_task_outcome (stats : ScientificSummary.ResponseStats)
    (item : string * list ScientificSummary.StoredResponse) :
  consistent stats ->
  (In (fst item) ["internal"; "external"; "concrete"] ->
   exists stats',
     ScientificSummary.process_task stats item = Ok stats'
     /\ consistent stats'
     /\ ScientificSummary.total_responses stats'
        = (ScientificSummary.total_responses stats
           + List.length (snd item))%nat
     /\ ScientificSummary.all_patterns stats'
        = (ScientificSummary.all_patterns stats
           ++ map ScientificSummary.pattern_of (snd item))%list)
  /\ (~ In (fst item) ["internal"; "external"; "concrete"] ->
      ScientificSummary.process_task stats item = Raised KeyError).
Proof.
  intros (Hkeys & Hdist & Hpat & Hcount).
  unfold ScientificSummary.process_task. cbv zeta. split.
  - intros Hin. rewrite <- Hkeys in Hin.
    destruct (get (ScientificSummary.response_distribution stats) (fst item))
      as [c|] eqn:E; [|apply get_None_not_In in E; contradiction].
    eexists. split; [reflexivity|].
    match goal with
    | |- context [fold_left ScientificSummary.track_pattern ?r ?s] =>
        destruct (track_patterns r s) as (Ht & Hd & Hp & Hc)
    end.
    cbv zeta in Ht, Hd, Hp, Hc.
    cbn [ScientificSummary.total_responses
         ScientificSummary.response_distribution
         ScientificSummary.all_patterns ScientificSummary.pattern_counts]
      in Ht, Hd, Hp, Hc.
    unfold consistent. rewrite Ht, Hd, Hp, Hc.
    rewrite keys_dict_set. unfold contains. rewrite E.
    rewrite (list_sum_dict_set_add _ _ _ _ E), length_app, length_map.
    repeat split; try assumption; lia.
  - intros Hnot. rewrite <- Hkeys in Hnot.
    now rewrite (not_In_get_None _ _ Hnot).
Qed.

Lemma process_tasks_ok
    (items : Dict (list ScientificSummary.StoredResponse))
    (stats : ScientificSummary.ResponseStats) :
  consistent stats ->
  (forall item, In item items ->
                In (fst item) ["internal"; "external"; "concrete"]) ->
  exists stats',
    for_each ScientificSummary.process_task items stats = Ok stats'
    /\ consistent stats'
    /\ ScientificSummary.total_responses stats'
       = (ScientificSummary.total_responses stats
          + list_sum (map (fun item => List.length (snd item)) items))%nat
    /\ ScientificSummary.all_patterns stats'
       = (ScientificSummary.all_patterns stats
          ++ flat_map (fun item => map ScientificSummary.pattern_of (snd item))
                      items)%list.
Proof.
  revert stats. induction items as [|item items IH]; intros stats Hc Hall.
  - exists stats. simpl. rewrite app_nil_r.
    split; [reflexivity|]. split; [assumption|]. split; [lia|reflexivity].
  - destruct (proj1 (process_task_outcome stats item Hc))
      as (stats1 & Hok & Hc1 & Ht1 & Hp1); [apply Hall; now left|].
    destruct (IH stats1 Hc1) as (stats' & Hrun & Hc' & Ht' & Hp');
      [intros it Hit; apply Hall; now right|].
    exists stats'. simpl. rewrite Hok. simpl.
    split; [exact Hrun|]. split; [exact Hc'|].
    rewrite Ht', Ht1, Hp', Hp1, <- app_assoc. split; [lia|reflexivity].
Qed.

Lemma process_tasks_raises
    (items : Dict (list ScientificSummary.StoredResponse))
    (stats : ScientificSummary.ResponseStats) :
  consistent stats ->
  (exists item, In item items
                /\ ~ In (fst item) ["internal"; "external"; "concrete"]) ->
  for_each ScientificSummary.process_task items stats = Raised KeyError.
Proof.
  revert stats. induction items as [|item items IH]; intros stats Hc Hbad.
  - destruct Hbad as (it & [] & _).
  - simpl.
    destruct (in_dec string_dec (fst item) ["internal"; "external"; "concrete"])
      as [Hin|Hnot].
    + destruct (proj1 (process_task_outcome stats item Hc) Hin)
        as (stats1 & Hok & Hc1 & _).
      rewrite Hok. simpl. apply IH; [exact Hc1|].
      destruct Hbad as (it & [<-|Hit] & Hn); [contradiction|eauto].
    + now rewrite (proj2 (process_task_outcome stats item Hc) Hnot).
Qed.

Lemma process_responses_flat
    (all_sessions : list (option (Dict (list ScientificSummary.StoredResponse))))
    (stats : ScientificSummary.ResponseStats) :
  for_each
    (fun stats session =>
       match session with
       | Some resps => for_each ScientificSummary.process_task resps stats
       | None => Ok stats
       end)
    all_sessions stats
  = for_each ScientificSummary.process_task (task_items all_sessions) stats.
Proof.
  revert stats. unfold task_items.
  induction all_sessions as [|[resps|] l IH]; intros stats; simpl;
    [reflexivity| |apply IH].
  rewrite for_each_app.
  destruct (for_each ScientificSummary.process_task resps stats) as [s|e];
    simpl; [apply IH|reflexivity].
Qed.

(** X25: the response statistics fail with [KeyError] exactly when a
    session has a task type other than internal, external and concrete;
    otherwise the total number of responses is the number of responses of
    all sessions, and it is equal to the sum of the three counters of the
    distribution, to the number of recorded patterns and to the sum of the
    pattern histogram. *)
Theorem process_responses_outcome
    (all_sessions : list (option (Dict (list ScientificSummary.StoredResponse)))) :
  ((forall item, In item (task_items all_sessions) ->
                 In (fst item) ["internal"; "external"; "concrete"]) ->
   exists stats,
     ScientificSummary.process_responses all_sessions = Ok stats
     /\ ScientificSummary.total_responses stats
        = list_sum (map (fun item => List.length (snd item))
                        (task_items all_sessions))
     /\ list_sum (values (ScientificSummary.response_distribution stats))
        = ScientificSummary.total_responses stats
     /\ List.length (ScientificSummary.all_patterns stats)
        = ScientificSummary.total_responses stats
     /\ list_sum (values (ScientificSummary.pattern_counts stats))
        = ScientificSummary.total_responses stats)
  /\ ((exists item, In item (task_items all_sessions)
                    /\ ~ In (fst item) ["internal"; "external"; "concrete"]) ->
      ScientificSummary.process_responses all_sessions = Raised KeyError).
Proof.
  unfold ScientificSummary.process_responses.
  rewrite process_responses_flat.
  assert (Hinit : consistent ScientificSummary.initial_response_stats).
  { unfold consistent. simpl. auto. }
  split.
  - intros Hall.
    destruct (process_tasks_ok (task_items all_sessions) _ Hinit Hall)
      as (stats & Hok & (Hk & Hd & Hp & Hc) & Ht & _).
    exists stats. split; [exact Hok|]. simpl in Ht. auto.
  - intros Hbad. now apply process_tasks_raises.
Qed.

(** Two internal responses and a session without responses: two responses
    in total. *)
Lemma process_responses_outcome_witness :
  exists stats,
    ScientificSummary.process_responses
      [Some [("internal",
              [{| ScientificSummary.stored_pattern := Some "I0.5_E0.5_C0.5";
                  ScientificSummary.stored_features := None |};
               {| ScientificSummary.stored_pattern := None;
                  ScientificSummary.stored_features := None |}])];
       None]
    = Ok stats
    /\ ScientificSummary.total_responses stats = 2%nat.
Proof.
  destruct (process_responses_outcome
              [Some [("internal",
                      [{| ScientificSummary.stored_pattern :=
                            Some "I0.5_E0.5_C0.5";
                          ScientificSummary.stored_features := None |};
                       {| ScientificSummary.stored_pattern := None;
                          ScientificSummary.stored_features := None |}])];
               None]) as [H _].
  destruct H as (stats & Hok & Ht & _).
  - intros item [<-|[]]. simpl. auto.
  - exists stats. split; [exact Hok|exact Ht].
Defined.

(** ** The statistics of a batch *)

Lemma getd_track_coherence (by_model : Dict (list R))
    (session : ScientificSummary.StoredSession) (m : string) :
  getd (ScientificSummary.track_coherence by_model session) m []
  = (getd by_model m [] ++ Spec.samples m [session])%list.
Proof.
  unfold ScientificSummary.track_coherence, Spec.samples. simpl.
  set (k := ScientificSummary.model_of session).
  set (d := if contains by_model k then by_model else dict_set by_model k []).
  assert (Hd : forall m', getd d m' [] = getd by_model m' []).
  { intros m'. unfold d, contains, getd.
    destruct (get by_model k) eqn:Ek; [reflexivity|].
    destruct (string_dec k m') as [<-|Hne].
    - now rewrite get_dict_set_same, Ek.
    - now rewrite get_dict_set_other. }
  rewrite app_nil_r.
  destruct (ScientificSummary.stored_coherence session) as [c|].
  - destruct (string_dec k m) as [<-|Hne].
    + rewrite String.eqb_refl. unfold getd at 1.
      now rewrite get_dict_set_same, Hd.
    + apply String.eqb_neq in Hne as Hne'. rewrite Hne'.
      unfold getd at 1. rewrite get_dict_set_other by assumption.
      fold (getd d m []). now rewrite Hd, app_nil_r.
  - rewrite Hd. now destruct (String.eqb k m); rewrite app_nil_r.
Qed.

(** [coherence_by_model] holds the samples of each model. *)
Lemma getd_coherence_by_model
    (all_sessions : list ScientificSummary.StoredSession) (m : string) :
  getd (fold_left ScientificSummary.track_coherence all_sessions []) m []
  = Spec.samples m all_sessions.
Proof.
  induction all_sessions as [|session l IH] using rev_ind; [reflexivity|].
  rewrite fold_left_app. simpl. rewrite getd_track_coherence, IH.
  unfold Spec.samples. now rewrite flat_map_app.
Qed.



(** The loop over the sessions: the response statistics are those of
    [process_responses], [coherence_by_model] is filled session by
    session, and an exception of the former discards both. *)
Lemma process_sessions
    (all_sessions : list ScientificSummary.StoredSession)
    (stats : ScientificSummary.ResponseStats) (by_model : Dict (list R)) :
  for_each ScientificSummary.process_session all_sessions (stats, by_model)
  = (stats' <-
       for_each
         (fun stats session =>
            match session with
            | Some resps =>
                for_each ScientificSummary.process_task resps stats
            | None => Ok stats
            end)
         (responses_of all_sessions) stats ;;
     Ok (stats',
         fold_left ScientificSummary.track_coherence all_sessions by_model)).
Proof.
  revert stats by_model.
  induction all_sessions as [|session l IH]; intros stats by_model;
    [reflexivity|].
  cbn [for_each responses_of map fold_left].
  unfold ScientificSummary.process_session at 1. cbn [fst snd].
  destruct (ScientificSummary.stored_responses session) as [resps|].
  - destruct (for_each ScientificSummary.process_task resps stats)
      as [stats1|e]; [|reflexivity].
    cbn [bind]. rewrite IH. reflexivity.
  - cbn [bind]. rewrite IH. reflexivity.
Qed.

Section Statistics.
Variable f_oneway : list (list R) -> pyfloat * pyfloat.
Variable t_interval : R -> nat -> R -> R -> pyfloat * pyfloat.

(** The statistics are computed exactly when the response processing
    succeeds, and are then made of its result and of the samples. *)
Lemma calculate_comprehensive_stats_cases
    (all_sessions : list ScientificSummary.StoredSession) :
  match ScientificSummary.process_responses (responses_of all_sessions) with
  | Ok response_stats =>
      exists stats,
        ScientificSummary.calculate_comprehensive_stats
          f_oneway t_interval all_sessions = Ok stats
        /\ ScientificSummary.response_stats stats = response_stats
        /\ ScientificSummary.coherence_by_model stats
           = fold_left ScientificSummary.track_coherence all_sessions []
        /\ ScientificSummary.intervals stats
           = ScientificSummary.confidence_intervals t_interval
               (fold_left ScientificSummary.track_coherence all_sessions [])
        /\ ScientificSummary.anova stats
           = significance_test f_oneway (Spec.models all_sessions)
               (fold_left ScientificSummary.track_coherence all_sessions [])
  | Raised e =>
      ScientificSummary.calculate_comprehensive_stats
        f_oneway t_interval all_sessions = Raised e
  end.
Proof.
  unfold ScientificSummary.calculate_comprehensive_stats,
    ScientificSummary.process_responses.
  rewrite process_sessions.
  match goal with
  | |- context [for_each ?f (responses_of all_sessions) ?acc] =>
      destruct (for_each f (responses_of all_sessions) acc) as [rs|e]
  end; [|reflexivity].
  cbn [bind fst snd]. eexists. split; [reflexivity|].
  cbn [ScientificSummary.response_stats ScientificSummary.coherence_by_model
       ScientificSummary.intervals ScientificSummary.anova].
  repeat split; reflexivity.
Qed.

Lemma anova_gate_open (all_sessions : list ScientificSummary.StoredSession) :
  Spec.all_models_sampled all_sessions ->
  significance_test f_oneway (Spec.models all_sessions)
    (fold_left ScientificSummary.track_coherence all_sessions [])
  = let groups :=
      map (fun m => Spec.samples m all_sessions) (Spec.models all_sessions) in
    Some {| ScientificSummary.f_statistic := fst (f_oneway groups);
            ScientificSummary.p_value := snd (f_oneway groups);
            ScientificSummary.significant :=
              ScientificSummary.float_lt (snd (f_oneway groups)) 0.05 |}.
Proof.
  intros [Hmodels Hsampled].
  unfold significance_test. cbv zeta.
  set (cbm := fold_left ScientificSummary.track_coherence all_sessions []).
  assert (Hget : forall m, getd cbm m [] = Spec.samples m all_sessions).
  { intros m. apply getd_coherence_by_model. }
  assert (H1 : Nat.leb 2 (List.length (Spec.models all_sessions)) = true).
  { now apply Nat.leb_le. }
  assert (H2 : forallb (fun m => Nat.leb 2 (List.length (getd cbm m [])))
                       (Spec.models all_sessions) = true).
  { apply forallb_forall. intros m Hm. rewrite Hget.
    apply Nat.leb_le. now apply Hsampled. }
  rewrite H1, H2. cbn [andb].
  assert (H3 : filter (contains cbm) (Spec.models all_sessions)
               = Spec.models all_sessions).
  { apply filter_all. intros m Hm. specialize (Hsampled m Hm).
    rewrite <- Hget in Hsampled. unfold contains, getd in *.
    destruct (get cbm m); [reflexivity|]. simpl in Hsampled. lia. }
  rewrite H3.
  rewrite (map_ext (fun m => getd cbm m [])
                   (fun m => Spec.samples m all_sessions) Hget).
  set (groups := map _ (Spec.models all_sessions)).
  assert (H4 : forallb (fun g => Nat.ltb 0 (List.length g)) groups = true).
  { apply forallb_forall. intros g Hg.
    apply in_map_iff in Hg as (m & <- & Hm).
    apply Nat.ltb_lt. specialize (Hsampled m Hm). lia. }
  rewrite H4. now destruct (f_oneway groups).
Qed.

Lemma anova_gate_closed (all_sessions : list ScientificSummary.StoredSession) :
  ~ Spec.all_models_sampled all_sessions ->
  significance_test f_oneway (Spec.models all_sessions)
    (fold_left ScientificSummary.track_coherence all_sessions [])
  = None.
Proof.
  intros Hnot. unfold significance_test.
  set (cbm := fold_left ScientificSummary.track_coherence all_sessions []).
  destruct (Nat.leb 2 _ && forallb _ _)%bool eqn:E; [|reflexivity].
  exfalso. apply Hnot. apply andb_true_iff in E as [E1 E2].
  split; [now apply Nat.leb_le|].
  intros m Hm. rewrite forallb_forall in E2. specialize (E2 m Hm).
  apply Nat.leb_le in E2. unfold cbm in E2.
  now rewrite getd_coherence_by_model in E2.
Qed.

(** The statistics of a batch whose task types are the three known ones
    are computed; another task type raises [KeyError]. *)
Lemma calculate_comprehensive_stats_outcome
    (all_sessions : list ScientificSummary.StoredSession) :
  ((forall item, In item (task_items (responses_of all_sessions)) ->
                 In (fst item) known_tasks) ->
   exists stats,
     ScientificSummary.calculate_comprehensive_stats
       f_oneway t_interval all_sessions = Ok stats
     /\ ScientificSummary.coherence_by_model stats
        = fold_left ScientificSummary.track_coherence all_sessions []
     /\ ScientificSummary.intervals stats
        = ScientificSummary.confidence_intervals t_interval
            (fold_left ScientificSummary.track_coherence all_sessions [])
     /\ ScientificSummary.anova stats
        = significance_test f_oneway (Spec.models all_sessions)
            (fold_left ScientificSummary.track_coherence all_sessions []))
  /\ ((exists item, In item (task_items (responses_of all_sessions))
                    /\ ~ In (fst item) known_tasks) ->
      ScientificSummary.calculate_comprehensive_stats
        f_oneway t_interval all_sessions = Raised KeyError).
Proof.
  pose proof (calculate_comprehensive_stats_cases all_sessions) as Hcases.
  unfold ScientificSummary.process_responses in Hcases.
  rewrite process_responses_flat in Hcases.
  assert (Hinit : consistent ScientificSummary.initial_response_stats).
  { unfold consistent. simpl. auto. }
  split.
  - intros Hknown.
    destruct (process_tasks_ok (task_items (responses_of all_sessions)) _
                Hinit Hknown) as (rs & Hrs & _).
    rewrite Hrs in Hcases.
    destruct Hcases as (stats & Hok & _ & Hc & Hi & Ha).
    exists stats. auto.
  - intros Hbad.
    rewrite (process_tasks_raises (task_items (responses_of all_sessions)) _
               Hinit Hbad) in Hcases.
    exact Hcases.
Qed.
End Statistics.

(** ** Significance test *)

(** C8, as amended: for a batch whose sessions hold responses under the
    task types internal, external and concrete only, the statistics are
    computed without an exception, and the one-way ANOVA over the
    per-model coherence samples is reported, with its F statistic, its
    p-value and significant = (p < 0.05), exactly when the batch has at
    least two distinct models and every model of the batch has at least
    two coherence samples; otherwise it is absent from the output.  A
    batch with responses under another task type raises [KeyError]. *)
Theorem anova_reported_iff_all_models_sampled
    (f_oneway : list (list R) -> pyfloat * pyfloat)
    (t_interval : R -> nat -> R -> R -> pyfloat * pyfloat)
    (all_sessions : list ScientificSummary.StoredSession) :
  let outcome :=
    ScientificSummary.calculate_comprehensive_stats
      f_oneway t_interval all_sessions in
  let groups :=
    map (fun m => Spec.samples m all_sessions) (Spec.models all_sessions) in
  ((forall item, In item (task_items (responses_of all_sessions)) ->
                 In (fst item) known_tasks) ->
   exists stats,
     outcome = Ok stats
     /\ (Spec.all_models_sampled all_sessions ->
         exists a,
           ScientificSummary.anova stats = Some a
           /\ ScientificSummary.f_statistic a = fst (f_oneway groups)
           /\ ScientificSummary.p_value a = snd (f_oneway groups)
           /\ (ScientificSummary.significant a = true
               <-> exists p, ScientificSummary.p_value a = Num p /\ p < 0.05))
     /\ (~ Spec.all_models_sampled all_sessions ->
         ScientificSummary.anova stats = None))
  /\ ((exists item, In item (task_items (responses_of all_sessions))
                    /\ ~ In (fst item) known_tasks) ->
      outcome = Raised KeyError).
Proof.
  cbv zeta.
  destruct (calculate_comprehensive_stats_outcome f_oneway t_interval
              all_sessions) as [Hok Hraise].
  split; [|exact Hraise].
  intros Hknown. destruct (Hok Hknown) as (stats & Hstats & _ & _ & Ha).
  exists stats. split; [exact Hstats|]. rewrite Ha. split.
  - intros H. rewrite (anova_gate_open f_oneway all_sessions H). cbv zeta.
    eexists. split; [reflexivity|]. cbn.
    split; [reflexivity|]. split; [reflexivity|].
    destruct (snd (f_oneway _)) as [p|]; simpl.
    + rewrite Rlt_bool_true. split.
      * intros Hp. exists p. now split.
      * intros (p' & [= <-] & Hp). exact Hp.
    + split; [discriminate|]. intros (p' & Hp & _). discriminate Hp.
  - apply anova_gate_closed.
Qed.

Lemma two_models_all_sampled : Spec.all_models_sampled Examples.two_models.
Proof.
  split; [simpl; lia|].
  intros m [<-|[<-|[]]]; simpl; lia.
Qed.

Lemma known_tasks_of_stored (m : string) (c : R)
    (l : list ScientificSummary.StoredSession) :
  (forall item, In item (task_items (responses_of l)) ->
                In (fst item) known_tasks) ->
  forall item, In item (task_items (responses_of (Examples.stored m c :: l))) ->
               In (fst item) known_tasks.
Proof.
  intros H item Hin. unfold task_items, responses_of in *.
  cbn [map flat_map] in Hin. apply in_app_or in Hin as [Hin|Hin].
  - simpl in Hin. unfold known_tasks.
    destruct Hin as [<-|[<-|[<-|[]]]]; simpl; auto.
  - now apply H.
Qed.

(** On models A and B with two samples each, and one response of each
    task type in every session. *)
Lemma anova_reported_iff_all_models_sampled_witness :
  Spec.all_models_sampled Examples.two_models
  /\ exists stats a,
       ScientificSummary.calculate_comprehensive_stats
         Examples.f_oneway_two_models Examples.t_interval_example
         Examples.two_models = Ok stats
       /\ ScientificSummary.anova stats = Some a
       /\ ScientificSummary.significant a = true.
Proof.
  split; [exact two_models_all_sampled|].
  destruct (anova_reported_iff_all_models_sampled
              Examples.f_oneway_two_models Examples.t_interval_example
              Examples.two_models) as [H _].
  destruct H as (stats & Hok & Hopen & _).
  - unfold Examples.two_models.
    repeat apply known_tasks_of_stored. intros item [].
  - destruct (Hopen two_models_all_sampled) as (a & Ha & _ & Hp & Hs).
    exists stats, a. split; [exact Hok|]. split; [exact Ha|].
    apply Hs. exists 0.0136. split; [exact Hp|lra].
Defined.

(** C8 as stated fails, twice.  In the batch of three models two distinct
    models have two coherence samples each, yet the test is skipped,
    without an exception, because the third model has a single sample.
    And a session with a response under a fourth task type makes the
    computation raise [KeyError], whereas no model of that batch has two
    samples. *)
Lemma anova_skipped_despite_two_sampled_models :
  Spec.two_sampled_models Examples.three_models
  /\ (forall f_oneway t_interval,
        exists stats,
          ScientificSummary.calculate_comprehensive_stats
            f_oneway t_interval Examples.three_models = Ok stats
          /\ ScientificSummary.anova stats = None)
  /\ ~ Spec.two_sampled_models [Examples.creative_session]
  /\ (forall f_oneway t_interval,
        ScientificSummary.calculate_comprehensive_stats
          f_oneway t_interval [Examples.creative_session]
        = Raised KeyError).
Proof.
  split; [|split; [|split]].
  - unfold Spec.two_sampled_models. simpl. lia.
  - intros f_oneway t_interval.
    destruct (calculate_comprehensive_stats_outcome f_oneway t_interval
                Examples.three_models) as [H _].
    destruct H as (stats & Hok & _ & _ & Ha).
    + unfold Examples.three_models, Examples.two_models.
      cbn [app]. repeat apply known_tasks_of_stored. intros item [].
    + exists stats. split; [exact Hok|]. rewrite Ha. reflexivity.
  - unfold Spec.two_sampled_models. simpl. lia.
  - intros f_oneway t_interval. reflexivity.
Qed.

(** ** Confidence intervals *)



